(** * imh2fits: a shallow embedding of [imh2fits.py] and its properties

    The development follows the source file top-down: Python values
    (bytes, str, exceptions), the module constants, [OIFImage.fileType],
    the keyword loop of [OIFImage.toFITS], [OIFHeader.__init__],
    [OIFPixfile.__init__] and [OIFPixfile.readPixels].

    Python 3 semantics are assumed throughout: [bytes] is a sequence of
    octets, [str] a sequence of Unicode code points. *)

From Stdlib Require Import String Ascii Strings.Byte.
From Stdlib Require Import ZArith NArith List Bool Lia.
Import ListNotations.

Set Implicit Arguments.

Local Open Scope Z_scope.
Local Open Scope list_scope.

(** ** Python values *)

(** [bytes] objects. *)
Definition bytes := list byte.

(** [str] objects: sequences of code points. *)
Definition pystr := list N.

(** A program literal such as ['HISTORY'] as a [str]. *)
Definition u (s : string) : pystr :=
  List.map N_of_ascii (list_ascii_of_string s).

(** The exceptions the program can meet.  [Exception] carries the message
    of an explicit [raise Exception(...)]; the others are raised by the
    interpreter or by library calls.  [NotModelled] is not a Python
    exception: the concrete instances of library functions given below
    answer it on arguments whose Python behaviour they do not decide. *)
Inductive exn : Type :=
| Exception (msg : string)
| IndexError
| KeyError
| ValueError
| SyntaxError
| AttributeError
| NameError
| StructError
| UnicodeDecodeError
| FileNotFoundError
| TypeError
| NotModelled.

Inductive result (A : Type) : Type :=
| Ok (a : A)
| Raise (e : exn).

Arguments Ok {A} a.
Arguments Raise {A} e.

Definition bind {A B : Type} (m : result A) (f : A -> result B) : result B :=
  match m with
  | Ok a => f a
  | Raise e => Raise e
  end.

Declare Scope py_scope.
Delimit Scope py_scope with py.
Notation "x <- m ;; k" := (bind m (fun x => k))
  (at level 61, m at next level, right associativity) : py_scope.
Notation "' pat <- m ;; k" := (bind m (fun x => match x with pat => k end))
  (at level 61, pat pattern, m at next level, right associativity) : py_scope.
Local Open Scope py_scope.

(** Reading an attribute that may not have been assigned. *)
Definition getattr {A : Type} (o : option A) : result A :=
  match o with
  | Some a => Ok a
  | None => Raise AttributeError
  end.

Fixpoint mapM {A B : Type} (f : A -> result B) (l : list A) : result (list B) :=
  match l with
  | [] => Ok []
  | x :: l' => y <- f x ;; ys <- mapM f l' ;; Ok (y :: ys)
  end.

(** ** Sequence methods shared by [bytes] and [str] *)

Section Seq.
Variable A : Type.
Variable eqb : A -> A -> bool.

Fixpoint seq_eqb (l1 l2 : list A) : bool :=
  match l1, l2 with
  | [], [] => true
  | x :: l1', y :: l2' => eqb x y && seq_eqb l1' l2'
  | _, _ => false
  end.

(** [l.startswith(p)] *)
Fixpoint startswith (p l : list A) : bool :=
  match p, l with
  | [], _ => true
  | x :: p', y :: l' => eqb y x && startswith p' l'
  | _ :: _, [] => false
  end.

(** [l.count(c)] for a one-element [c]. *)
Fixpoint count (c : A) (l : list A) : Z :=
  match l with
  | [] => 0
  | x :: l' => (if eqb x c then 1 else 0) + count c l'
  end.

(** [l.find(c)] for a one-element [c]: the first index, or [-1]. *)
Fixpoint find (c : A) (l : list A) : Z :=
  match l with
  | [] => -1
  | x :: l' =>
      if eqb x c then 0
      else let i := find c l' in if i <? 0 then -1 else i + 1
  end.

(** [l.rfind(c)] for a one-element [c]: the last index, or [-1]. *)
Fixpoint rfind (c : A) (l : list A) : Z :=
  match l with
  | [] => -1
  | x :: l' =>
      let i := rfind c l' in
      if 0 <=? i then i + 1 else if eqb x c then 0 else -1
  end.

(** [l.replace(c, new)] for a one-element [c]. *)
Definition replace (c : A) (new : list A) (l : list A) : list A :=
  flat_map (fun x => if eqb x c then new else [x]) l.

(** [l.split(sep)] for a non-empty [sep]: left to right, occurrences do
    not overlap.  [skip] counts the elements of a separator that has
    just been matched and is still to be passed over; [cur] is the
    current piece, reversed. *)
Fixpoint split_go (sep : list A) (skip : nat) (cur : list A) (l : list A)
  : list (list A) :=
  match l with
  | [] => [rev cur]
  | x :: l' =>
      match skip with
      | S k => split_go sep k cur l'
      | O =>
          if startswith sep l
          then rev cur :: split_go sep (length sep - 1) [] l'
          else split_go sep O (x :: cur) l'
      end
  end.

Definition split (sep : list A) (l : list A) : list (list A) :=
  split_go sep O [] l.

(** [b''.join(parts)] *)
Definition join (parts : list (list A)) : list A := concat parts.

(** The position a slice bound [i] stands for in a sequence of length
    [len]: a negative bound counts from the end, and every bound is
    clipped to the sequence. *)
Definition slice_index (i : Z) (len : nat) : nat :=
  if i <? 0 then Z.to_nat (Z.of_nat len + i) else Nat.min (Z.to_nat i) len.

(** [l[:b]] *)
Definition slice_to (b : Z) (l : list A) : list A :=
  firstn (slice_index b (length l)) l.

(** [l[a:]] *)
Definition slice_from (a : Z) (l : list A) : list A :=
  skipn (slice_index a (length l)) l.

(** [l[a:b]] *)
Definition slice (a b : Z) (l : list A) : list A :=
  let n := length l in
  firstn (slice_index b n - slice_index a n) (skipn (slice_index a n) l).

(** [l[i]] for any integer [i]. *)
Definition getitem (i : Z) (l : list A) : result A :=
  let j := if 0 <=? i then i else Z.of_nat (length l) + i in
  if j <? 0 then Raise IndexError
  else match nth_error l (Z.to_nat j) with
       | Some x => Ok x
       | None => Raise IndexError
       end.

(** [l.strip(chars)] where [is_ch] decides membership in [chars]. *)
Fixpoint lstrip (is_ch : A -> bool) (l : list A) : list A :=
  match l with
  | [] => []
  | x :: l' => if is_ch x then lstrip is_ch l' else l
  end.

Definition rstrip (is_ch : A -> bool) (l : list A) : list A :=
  rev (lstrip is_ch (rev l)).

Definition strip_with (is_ch : A -> bool) (l : list A) : list A :=
  rstrip is_ch (lstrip is_ch l).
End Seq.

Definition byte_eqb : byte -> byte -> bool := Byte.eqb.
Definition bytes_eqb : bytes -> bytes -> bool := seq_eqb byte_eqb.
Definition str_eqb : pystr -> pystr -> bool := seq_eqb N.eqb.

(** [x in [s1, ..., sn]] on [str]. *)
Definition str_in (x : pystr) (l : list pystr) : bool :=
  existsb (str_eqb x) l.

(** [str.isspace] of one code point: the code points [str.strip()]
    removes. *)
Definition isspace (c : N) : bool :=
  ((9 <=? c) && (c <=? 13) || (28 <=? c) && (c <=? 32)
   || (c =? 133) || (c =? 160) || (c =? 5760)
   || (8192 <=? c) && (c <=? 8202)
   || (c =? 8232) || (c =? 8233) || (c =? 8239) || (c =? 8287)
   || (c =? 12288))%N.

(** [s.strip()] *)
Definition strip (s : pystr) : pystr := strip_with isspace s.

(** [s.lower()] on the letters A..Z.  No code point outside ASCII has a
    lower-case form made of the letters of [t], [f], [true], [false], so
    the membership test of [toFITS] is decided by this mapping. *)
Definition lower (s : pystr) : pystr :=
  List.map (fun c => if ((65 <=? c) && (c <=? 90))%N then (c + 32)%N else c) s.

Definition ch (a : ascii) : N := N_of_ascii a.
Definition quote : N := ch "'".
Definition slash : N := ch "/".

(** ** Module constants *)

Inductive byteorder : Type := big | little.

Definition byteorder_eqb (a b : byteorder) : bool :=
  match a, b with
  | big, big | little, little => true
  | _, _ => false
  end.

(** The module's global options, and the two names the code reads from
    its environment: [sys.byteorder], and the module-level [path] that
    [printHdr] refers to ([None] when it is not bound). *)
Record config : Type := {
  debug : bool;
  verbose : bool;
  force_swap : bool;
  warn : bool;
  list_only : bool;
  sys_byteorder : byteorder;
  global_path : option pystr
}.

Definition V1HDR : Z := 1.
Definition V1PIX : Z := 2.
Definition V2HDR : Z := 3.
Definition V2PIX : Z := 4.

Definition V1HDR_MAGIC_BIG_ENDIAN : bytes :=
  [x00; x69; x00; x6d; x00; x68; x00; x64; x00; x72]%byte.
Definition V1PIX_MAGIC_BIG_ENDIAN : bytes :=
  [x00; x69; x00; x6d; x00; x70; x00; x69; x00; x78]%byte.
Definition V1HDR_MAGIC_LITTLE_ENDIAN : bytes :=
  [x69; x00; x6d; x00; x68; x00; x64; x00; x72; x00]%byte.
Definition V1PIX_MAGIC_LITTLE_ENDIAN : bytes :=
  [x69; x00; x6d; x00; x70; x00; x69; x00; x78; x00]%byte.
Definition V2HDR_MAGIC : bytes := [x69; x6d; x68; x76; x32]%byte.
Definition V2PIX_MAGIC : bytes := [x69; x6d; x70; x76; x32]%byte.

Definition TY_SHORT : Z := 3.
Definition TY_INT : Z := 4.
Definition TY_LONG : Z := 5.
Definition TY_REAL : Z := 6.
Definition TY_DOUBLE : Z := 7.
Definition TY_USHORT : Z := 11.

(** The [pixtypes] dictionary; a missing key raises [KeyError]. *)
Definition pixtypes (code : Z) : result string :=
  if code =? TY_SHORT then Ok "i2"%string
  else if code =? TY_USHORT then Ok "U2"%string
  else if code =? TY_INT then Ok "i4"%string
  else if code =? TY_LONG then Ok "i4"%string
  else if code =? TY_REAL then Ok "f4"%string
  else if code =? TY_DOUBLE then Ok "f8"%string
  else Raise KeyError.

(** [EPOCH_1980 = 10 * (3600 * 24 * 365.25)], an integral float. *)
Definition EPOCH_1980 : Z := 315576000.

(** ** [OIFImage.fileType] *)

(** Returns [(type, swap)]; [(None, None)] when no magic string matches. *)
Definition fileType (cfg : config) (data : bytes) : option Z * option bool :=
  let magic := slice_to 10 data in
  let host := sys_byteorder cfg in
  if bytes_eqb magic V1HDR_MAGIC_BIG_ENDIAN then
    (Some V1HDR, Some (negb (byteorder_eqb host big)))
  else if bytes_eqb magic V1PIX_MAGIC_BIG_ENDIAN then
    (Some V1PIX, Some (negb (byteorder_eqb host big)))
  else if bytes_eqb magic V1HDR_MAGIC_LITTLE_ENDIAN then
    (Some V1HDR, Some (negb (byteorder_eqb host little)))
  else if bytes_eqb magic V1PIX_MAGIC_LITTLE_ENDIAN then
    (Some V1PIX, Some (negb (byteorder_eqb host little)))
  else if bytes_eqb (slice_to 5 magic) V2HDR_MAGIC then
    (Some V2HDR, Some (byteorder_eqb host little))
  else if bytes_eqb (slice_to 5 magic) V2PIX_MAGIC then
    (Some V2PIX, Some (byteorder_eqb host little))
  else (None, None).

(** ** The keyword loop of [OIFImage.toFITS] (lines 159-189) *)

(** A decimal numeral [mantissa * 10 ^ exponent].  A Python [float] is
    named by the numeral it was converted from: it is the double nearest
    to that numeral, infinite when the numeral is out of range.  The
    model does not compute the double, and nothing below depends on
    which numerals name the same one. *)
Record decimal : Type := { mantissa : Z; exponent : Z }.

(** What [ast.literal_eval] can return, as far as [type(t)] is looked at:
    [PyOther] stands for every other literal type (bytes, complex, bool,
    None, tuple, list, dict, set). *)
Inductive pyobj : Type :=
| PyInt (z : Z)
| PyFloat (x : decimal)
| PyStr (s : pystr)
| PyOther.

(** The value assigned to a header card. *)
Inductive value : Type :=
| VStr (s : pystr)
| VInt (z : Z)
| VFloat (x : decimal).

(** The key, the value and the comment of one assignment
    [hdu.header[k] = (v, c)]. *)
Definition card : Type := (pystr * value * pystr)%type.

Definition HISTORY : pystr := u "HISTORY".
Definition COMMENT : pystr := u "COMMENT".

(** [key[:7] in ['HISTORY', 'COMMENT']] *)
Definition is_commentary (key : pystr) : bool :=
  str_in (slice_to 7 key) [HISTORY; COMMENT].

Definition is_quote (c : N) : bool := N.eqb c quote.

(** [v.lower() in ['t', 'f', 'true', 'false']] *)
Definition is_bool_word (v : pystr) : bool :=
  str_in (lower v) [u "t"; u "f"; u "true"; u "false"].

(** Lines 162-172: the key, the value text and the comment of one line. *)
Definition toFITS_split (key : pystr) : result (pystr * pystr * pystr) :=
  let st := if is_commentary key then 7 else 8 in
  let k := replace N.eqb slash [] (strip (slice_to st key)) in
  let rest := slice_from (st + 1) key in
  if count N.eqb quote rest =? 2 then
    mid <- getitem 1 (split N.eqb [quote] rest) ;;
    let v := [quote] ++ mid ++ [quote] in
    x <- getitem (find N.eqb slash rest) key ;;
    Ok (k, v, strip [x])
  else if 0 <? find N.eqb slash key then
    v0 <- getitem 0 (split N.eqb [slash] rest) ;;
    c0 <- getitem 1 (split N.eqb [slash] (slice_from st key)) ;;
    Ok (k, strip v0, strip c0)
  else
    Ok (k, strip rest, []).

Section Keywords.
(** The three library functions the loop calls on the value text. *)
Variable literal_eval : pystr -> result pyobj.
Variable py_int : pystr -> result Z.
Variable py_float : pystr -> result decimal.

(** Lines 179-187: the type of the value. *)
Definition toFITS_value (key v : pystr) : result value :=
  if negb (is_commentary key) then
    if negb (is_bool_word v) then
      t <- literal_eval v ;;
      match t with
      | PyInt _ => z <- py_int v ;; Ok (VInt z)
      | PyFloat _ => x <- py_float v ;; Ok (VFloat x)
      | _ => Ok (VStr (strip_with is_quote v))
      end
    else Ok (VStr v)
  else Ok (VStr v).

(** Lines 160-187, the body of the loop up to the assignment: the key,
    the value and the comment that line 189 is about to assign; [None]
    for a line that is skipped. *)
Definition toFITS_card (key : pystr) : result (option card) :=
  if str_eqb (strip key) [] then Ok None
  else
    '(k, v, c) <- toFITS_split key ;;
    v' <- toFITS_value key v ;;
    Ok (Some (k, v', c)).

(** The header of the HDU and the assignment [hdu.header[k] = (v, c)] of
    line 189, a call into astropy: it returns the header it has changed,
    or raises (astropy refuses, among others, a string value or a comment
    with a character that is not printable ASCII).  What the header then
    holds is astropy's business: a key that is already there is updated
    in place, a long commentary value is split over several cards. *)
Variable header : Type.
Variable header_set : header -> card -> result header.

(** Lines 160-189: the whole body of the loop on one line. *)
Definition toFITS_line (hd : header) (key : pystr) : result header :=
  oc <- toFITS_card key ;;
  match oc with
  | Some c => header_set hd c
  | None => Ok hd
  end.

(** Lines 159-189, the loop: it stops at the first line whose body
    raises. *)
Fixpoint toFITS_keywords (hd : header) (keywords : list pystr) : result header :=
  match keywords with
  | [] => Ok hd
  | key :: rest =>
      hd' <- toFITS_line hd key ;;
      toFITS_keywords hd' rest
  end.
End Keywords.

(** *** The library functions on atomic literals

    [ast.literal_eval], [int] and [float] on the forms a card value takes:
    numbers with an optional sign (decimal, hexadecimal, octal and binary
    integers, decimal floats, underscores between digits), quoted strings
    of printable ASCII without escapes, and bare words.  Other text
    (escapes, containers, complex numbers, comments, inner white space,
    characters that are not ASCII) is outside this fragment: the answer
    [NotModelled] says that the model does not decide what Python does,
    not that Python raises.  The theorems on the loop take the three
    functions as parameters; these instances serve the examples, on text
    inside the fragment. *)

Definition is_digit (c : N) : bool := ((48 <=? c) && (c <=? 57))%N.

Definition is_ident_start (c : N) : bool :=
  ((65 <=? c) && (c <=? 90) || (97 <=? c) && (c <=? 122) || (c =? 95))%N.

Definition is_ident_char (c : N) : bool := is_ident_start c || is_digit c.

(** The digits at the front of [s] and what follows them.  As in
    Python's numbers, one underscore may stand between two digits; it is
    dropped. *)
Fixpoint span_digits (s : pystr) : pystr * pystr :=
  match s with
  | c :: s' =>
      if is_digit c then
        match s' with
        | us :: ((c' :: _) as s'') =>
            if (us =? 95)%N && is_digit c'
            then let (d, r) := span_digits s'' in (c :: d, r)
            else let (d, r) := span_digits s' in (c :: d, r)
        | _ => let (d, r) := span_digits s' in (c :: d, r)
        end
      else ([], s)
  | [] => ([], [])
  end.

Definition digits_value (d : pystr) : Z :=
  fold_left (fun acc c => 10 * acc + Z.of_N (c - 48)) d 0.

Definition is_exp_mark (c : N) : bool := ((c =? 101) || (c =? 69))%N.

(** An optional sign in front of [s]. *)
Definition split_sign (s : pystr) : Z * pystr :=
  match s with
  | c :: s' =>
      if (c =? 45)%N then (-1, s')
      else if (c =? 43)%N then (1, s') else (1, s)
  | [] => (1, s)
  end.

(** [[+-]digits] to the end of the text. *)
Definition parse_int (s : pystr) : option Z :=
  let (sgn, body) := split_sign s in
  match span_digits body with
  | ((_ :: _) as d, []) => Some (sgn * digits_value d)
  | _ => None
  end.

Inductive number : Type :=
| NumInt (z : Z)
| NumFloat (x : decimal).

(** An unsigned decimal integer or floating point literal.  A decimal
    integer with a leading zero is accepted only when it is all zeros. *)
Definition parse_number (s : pystr) : option number :=
  let (ip, r1) := span_digits s in
  match r1 with
  | [] =>
      match ip with
      | [] => None
      | c :: _ =>
          if (c =? 48)%N && negb (digits_value ip =? 0) then None
          else Some (NumInt (digits_value ip))
      end
  | c :: r2 =>
      if (c =? 46)%N then
        let (fp, r3) := span_digits r2 in
        let m := digits_value (ip ++ fp) in
        let e := - Z.of_nat (length fp) in
        match ip, fp with
        | [], [] => None
        | _, _ =>
            match r3 with
            | [] => Some (NumFloat {| mantissa := m; exponent := e |})
            | c' :: r4 =>
                if is_exp_mark c' then
                  match parse_int r4 with
                  | Some x => Some (NumFloat {| mantissa := m; exponent := e + x |})
                  | None => None
                  end
                else None
            end
        end
      else if is_exp_mark c then
        match ip, parse_int r2 with
        | _ :: _, Some x =>
            Some (NumFloat {| mantissa := digits_value ip; exponent := x |})
        | _, _ => None
        end
      else None
  end.

(** A number with at most one sign in front.  A numeral cannot name the
    float [-0.0], which is left out. *)
Definition parse_signed (s : pystr) : option number :=
  let (sgn, body) := split_sign s in
  match parse_number body with
  | Some (NumInt z) => Some (NumInt (sgn * z))
  | Some (NumFloat x) =>
      if (sgn <? 0) && (mantissa x =? 0) then None
      else Some (NumFloat {| mantissa := sgn * mantissa x; exponent := exponent x |})
  | None => None
  end.

(** The body of a quoted string the model reads: printable ASCII, no
    backslash, no occurrence of the delimiter. *)
Definition plain_char (delim c : N) : bool :=
  ((32 <=? c) && (c <? 127) && negb (c =? 92) && negb (c =? delim))%N.

Definition parse_quoted (s : pystr) : option pystr :=
  match s with
  | d :: s' =>
      if ((d =? 39) || (d =? 34))%N then
        match rev s' with
        | d' :: body' =>
            if (d' =? d)%N && forallb (plain_char d) body'
            then Some (rev body') else None
        | [] => None
        end
      else None
  | [] => None
  end.

Definition python_keywords : list pystr :=
  List.map u
    ["and"; "as"; "assert"; "async"; "await"; "break"; "class"; "continue";
     "def"; "del"; "elif"; "else"; "except"; "finally"; "for"; "from";
     "global"; "if"; "import"; "in"; "is"; "lambda"; "nonlocal"; "not";
     "or"; "pass"; "raise"; "return"; "try"; "while"; "with"; "yield"]%string.

Definition is_identifier (s : pystr) : bool :=
  match s with
  | c :: s' => is_ident_start c && forallb is_ident_char s'
  | [] => false
  end.

Definition is_blank_char (c : N) : bool := ((c =? 32) || (c =? 9))%N.

(** Text of digits and underscores that starts with a digit, with an
    optional sign.  When it is no decimal integer literal (a leading zero
    in front of other digits, an underscore out of place), Python's
    tokenizer refuses it. *)
Definition digits_and_underscores (s : pystr) : bool :=
  match snd (split_sign s) with
  | c :: body => is_digit c && forallb (fun x => is_digit x || (x =? 95)%N) body
  | [] => false
  end.

(** The value of a digit in a base up to 16. *)
Definition based_digit (base c : N) : option N :=
  let d :=
    if is_digit c then Some (c - 48)%N
    else if ((97 <=? c) && (c <=? 102))%N then Some (c - 87)%N
    else if ((65 <=? c) && (c <=? 70))%N then Some (c - 55)%N
    else None in
  match d with
  | Some n => if (n <? base)%N then Some n else None
  | None => None
  end.

(** The digits after the prefix of a hexadecimal, octal or binary
    literal: an underscore may stand in front of a digit. *)
Fixpoint based_value (base : N) (acc : Z) (after_digit : bool) (s : pystr)
  : option Z :=
  match s with
  | [] => if after_digit then Some acc else None
  | c :: s' =>
      if (c =? 95)%N then
        match s' with
        | c' :: _ =>
            match based_digit base c' with
            | Some _ => based_value base acc false s'
            | None => None
            end
        | [] => None
        end
      else
        match based_digit base c with
        | Some n => based_value base (Z.of_N base * acc + Z.of_N n) true s'
        | None => None
        end
  end.

(** [0x...], [0o...] and [0b...], in either case of the letter. *)
Definition parse_based (s : pystr) : option Z :=
  match s with
  | z :: p :: rest =>
      if (z =? 48)%N then
        if ((p =? 120) || (p =? 88))%N then based_value 16 0 false rest
        else if ((p =? 111) || (p =? 79))%N then based_value 8 0 false rest
        else if ((p =? 98) || (p =? 66))%N then based_value 2 0 false rest
        else None
      else None
  | _ => None
  end.

(** [ast.literal_eval(v)] *)
Definition ast_literal_eval (v : pystr) : result pyobj :=
  let s := lstrip is_blank_char v in
  match s with
  | [] => Raise SyntaxError
  | _ =>
      match parse_signed s with
      | Some (NumInt z) => Ok (PyInt z)
      | Some (NumFloat x) => Ok (PyFloat x)
      | None =>
          match parse_quoted s with
          | Some body => Ok (PyStr body)
          | None =>
              if is_identifier s then
                if str_in s [u "True"; u "False"; u "None"] then Ok PyOther
                else if str_in s python_keywords then Raise SyntaxError
                else Raise ValueError
              else
                match parse_based (snd (split_sign s)) with
                | Some z => Ok (PyInt (fst (split_sign s) * z))
                | None =>
                    if digits_and_underscores s then Raise SyntaxError
                    else Raise NotModelled
                end
          end
      end
  end.

(** [int(v)] on ASCII text: white space around the number is dropped,
    and unlike a literal, leading zeros are accepted; text that is no
    decimal integer raises [ValueError].  Text with other characters
    (Unicode digits) is outside the fragment. *)
Definition builtin_int (v : pystr) : result Z :=
  if forallb (fun c => (c <? 128)%N) v then
    match parse_int (strip v) with
    | Some z => Ok z
    | None => Raise ValueError
    end
  else Raise NotModelled.

(** [float(v)] on a decimal number, named by its numeral; other text
    ([inf], [nan], a negative zero, text [float] refuses) is outside the
    fragment. *)
Definition builtin_float (v : pystr) : result decimal :=
  let whole (z : Z) :=
    if (fst (split_sign v) <? 0) && (z =? 0) then Raise NotModelled
    else Ok {| mantissa := z; exponent := 0 |} in
  match parse_signed v with
  | Some (NumFloat x) => Ok x
  | Some (NumInt z) => whole z
  | None =>
      match parse_int v with
      | Some z => whole z
      | None => Raise NotModelled
      end
  end.

(** The loop body up to the assignment, with the library functions
    above. *)
Definition toFITS_card_py : pystr -> result (option card) :=
  toFITS_card ast_literal_eval builtin_int builtin_float.

(** A header for the examples: it accepts every assignment and keeps the
    list of the cards assigned, in order.  It stands in for astropy's
    header where an example needs a header to run the loop on. *)
Definition assigned : Type := list card.

Definition assign (hd : assigned) (c : card) : result assigned := Ok (hd ++ [c]).

Definition toFITS_line_py : assigned -> pystr -> result assigned :=
  toFITS_line ast_literal_eval builtin_int builtin_float assign.

Definition toFITS_keywords_py : assigned -> list pystr -> result assigned :=
  toFITS_keywords ast_literal_eval builtin_int builtin_float assign.


(** ** Library functions of the two constructors *)

(** [os.path.basename] (POSIX). *)
Definition basename (p : pystr) : pystr :=
  slice_from (rfind N.eqb slash p + 1) p.

Definition dot : N := ch ".".

(** [os.path.splitext] (POSIX): the extension starts at the last dot of
    the last path component, unless that component has only dots before
    it. *)
Definition splitext (p : pystr) : pystr * pystr :=
  let sepIndex := rfind N.eqb slash p in
  let dotIndex := rfind N.eqb dot p in
  if sepIndex <? dotIndex then
    let lead := slice (sepIndex + 1) dotIndex p in
    if forallb (N.eqb dot) lead then (p, [])
    else (slice_to dotIndex p, slice_from dotIndex p)
  else (p, []).

(** The files the program can open: the content of a path, or the
    exception [open] raises on it. *)
Definition filesystem : Type := pystr -> result bytes.

Definition is_cont (b : N) : bool := ((128 <=? b) && (b <=? 191))%N.

(** [bytes.decode('utf-8')], strict: over-long forms, surrogates and
    values above U+10FFFF are refused. *)
Fixpoint utf8_go (l : list N) : result pystr :=
  match l with
  | [] => Ok []
  | b0 :: l1 =>
      if (b0 <? 128)%N then r <- utf8_go l1 ;; Ok (b0 :: r)
      else if ((194 <=? b0) && (b0 <=? 223))%N then
        match l1 with
        | b1 :: l2 =>
            if is_cont b1
            then r <- utf8_go l2 ;; Ok (((b0 - 192) * 64 + (b1 - 128))%N :: r)
            else Raise UnicodeDecodeError
        | _ => Raise UnicodeDecodeError
        end
      else if ((224 <=? b0) && (b0 <=? 239))%N then
        match l1 with
        | b1 :: b2 :: l3 =>
            let lo := if (b0 =? 224)%N then 160%N else 128%N in
            let hi := if (b0 =? 237)%N then 159%N else 191%N in
            if ((lo <=? b1) && (b1 <=? hi))%N && is_cont b2
            then r <- utf8_go l3 ;;
                 Ok (((b0 - 224) * 4096 + (b1 - 128) * 64 + (b2 - 128))%N :: r)
            else Raise UnicodeDecodeError
        | _ => Raise UnicodeDecodeError
        end
      else if ((240 <=? b0) && (b0 <=? 244))%N then
        match l1 with
        | b1 :: b2 :: b3 :: l4 =>
            let lo := if (b0 =? 240)%N then 144%N else 128%N in
            let hi := if (b0 =? 244)%N then 143%N else 191%N in
            if ((lo <=? b1) && (b1 <=? hi))%N && is_cont b2 && is_cont b3
            then r <- utf8_go l4 ;;
                 Ok (((b0 - 240) * 262144 + (b1 - 128) * 4096
                      + (b2 - 128) * 64 + (b3 - 128))%N :: r)
            else Raise UnicodeDecodeError
        | _ => Raise UnicodeDecodeError
        end
      else Raise UnicodeDecodeError
  end.

Definition decode (b : bytes) : result pystr :=
  utf8_go (List.map Byte.to_N b).

Definition byte_val (b : byte) : Z := Z.of_N (Byte.to_N b).

(** The unsigned value of a byte string read in the given order. *)
Definition uint_big (bs : bytes) : Z :=
  fold_left (fun acc b => acc * 256 + byte_val b) bs 0.

Definition uint (order : byteorder) (bs : bytes) : Z :=
  match order with
  | big => uint_big bs
  | little => uint_big (rev bs)
  end.

(** Two's complement reading of a [w]-bit unsigned value. *)
Definition to_signed (w : Z) (x : Z) : Z :=
  if x <? 2 ^ (w - 1) then x else x - 2 ^ w.

(** [struct.unpack(ifmt, b)[0]] for [ifmt] one of ['>i'], ['<i']. *)
Definition unpack_i (ifmt : byteorder) (b : bytes) : result Z :=
  if (length b =? 4)%nat then Ok (to_signed 32 (uint ifmt b))
  else Raise StructError.

(** [list(struct.unpack(ifmt + 'iiiiii', b))]: seven integers. *)
Definition unpack_7i (ifmt : byteorder) (b : bytes) : result (list Z) :=
  if (length b =? 28)%nat
  then Ok (List.map (fun i => to_signed 32 (uint ifmt (slice (4 * i) (4 * i + 4) b)))
             [0; 1; 2; 3; 4; 5; 6])
  else Raise StructError.

Definition NUL : byte := x00.
Definition NL : byte := x0a.

(** The format [ifmt] both constructors compute from [self.swap]; an
    unset [swap] is [None], which is false. *)
Definition int_format (cfg : config) (swap : option bool) : byteorder :=
  let ifmt :=
    if byteorder_eqb (sys_byteorder cfg) little
       && match swap with Some b => b | None => false end
    then big else little in
  if force_swap cfg
  then (if byteorder_eqb ifmt big then little else big)
  else ifmt.

(** ** [OIFHeader] *)

(** The attributes of an [OIFHeader] object; those assigned only in one
    of the two branches of the constructor are optional. *)
Record OIFHeader : Type := {
  h_path : pystr;
  h_base : pystr;
  h_extn : pystr;
  h_content : bytes;
  h_type : option Z;
  h_swap : option bool;
  h_data : bytes;
  h_userarea : bytes;
  h_title : bytes;
  h_hdr : option bytes;
  h_keywords : option (list pystr);
  h_pixtype : option Z;
  h_history : option bytes;
  h_ndim : option Z;
  h_dims : option (list Z);
  h_pdims : option (list Z);
  h_date : option Z
}.

(** [OIFHeader.printHdr]: only the evaluation of what is printed is
    modelled, for the exceptions it can raise. *)
Definition printHdr_header (cfg : config) (h : OIFHeader) : result unit :=
  if debug cfg then
    _ <- match global_path cfg with Some p => Ok p | None => Raise NameError end ;;
    _ <- getattr (h_hdr h) ;;
    _ <- getattr (h_pixtype h) ;;
    _ <- getattr (h_date h) ;;
    _ <- getattr (h_ndim h) ;;
    _ <- getattr (h_dims h) ;;
    _ <- getattr (h_pdims h) ;;
    _ <- getattr (h_history h) ;;
    if verbose cfg then _ <- getattr (h_keywords h) ;; Ok tt else Ok tt
  else Ok tt.

(** Lines 237-285: the constructor after the file has been read. *)
Definition OIFHeader_parse (cfg : config) (path : pystr) (content : bytes)
  : result OIFHeader :=
  let base := basename path in
  let extn := snd (splitext base) in
  let '(type, swap) := fileType cfg content in
  let ifmt := int_format cfg swap in
  let blank := {|
    h_path := path; h_base := base; h_extn := extn; h_content := content;
    h_type := type; h_swap := swap;
    h_data := []; h_userarea := []; h_title := [];
    h_hdr := None; h_keywords := None; h_pixtype := None; h_history := None;
    h_ndim := None; h_dims := None; h_pdims := None; h_date := None |} in
  h <-
    (if match type with Some t => t =? V1HDR | None => false end then
       let hdr := slice_to 2052 content in
       let userarea := replace byte_eqb NUL [] (slice_from 2052 content) in
       keywords <- mapM decode (slice_to (-1) (split byte_eqb [NL] userarea)) ;;
       let title :=
         match split byte_eqb [NUL; NUL] (slice 732 888 hdr) with
         | t :: _ => replace byte_eqb NUL [] t
         | [] => []
         end in
       pixtype <- unpack_i ifmt (slice 16 20 hdr) ;;
       let history := replace byte_eqb NUL [] (slice 892 2048 content) in
       ndim <- unpack_i ifmt (slice 20 24 hdr) ;;
       dims <- unpack_7i ifmt (slice 24 52 hdr) ;;
       pdims <- unpack_7i ifmt (slice 52 80 hdr) ;;
       date <- unpack_i ifmt (slice 108 112 hdr) ;;
       Ok {|
         h_path := path; h_base := base; h_extn := extn; h_content := content;
         h_type := type; h_swap := swap; h_data := [];
         h_userarea := userarea; h_title := title;
         h_hdr := Some hdr; h_keywords := Some keywords;
         h_pixtype := Some pixtype;
         h_history := Some (join (split byte_eqb [NL] history));
         h_ndim := Some ndim; h_dims := Some dims; h_pdims := Some pdims;
         h_date := Some (date + EPOCH_1980) |}
     else if match type with Some t => t =? V2HDR | None => false end then
       let hdr := slice_to 2046 content in
       let userarea := replace byte_eqb NUL [] (slice_from 2046 content) in
       keywords <- mapM decode (split byte_eqb [NL] userarea) ;;
       let title := replace byte_eqb NUL [] (slice 638 718 hdr) in
       pixtype <- unpack_i ifmt (slice 10 14 hdr) ;;
       let history := replace byte_eqb NUL [] (slice 990 2048 content) in
       ndim <- unpack_i ifmt (slice 18 22 hdr) ;;
       dims <- unpack_7i ifmt (slice 22 50 hdr) ;;
       pdims <- unpack_7i ifmt (slice 50 78 hdr) ;;
       date <- unpack_i ifmt (slice 106 110 hdr) ;;
       Ok {|
         h_path := path; h_base := base; h_extn := extn; h_content := content;
         h_type := type; h_swap := swap; h_data := [];
         h_userarea := userarea; h_title := title;
         h_hdr := Some hdr; h_keywords := Some keywords;
         h_pixtype := Some pixtype;
         h_history := Some (join (split byte_eqb [NL] history));
         h_ndim := Some ndim; h_dims := Some dims; h_pdims := Some pdims;
         h_date := Some (date + EPOCH_1980) |}
     else Ok blank) ;;
  _ <- printHdr_header cfg h ;;
  Ok h.

(** [OIFHeader.__init__]: the list of the files opened, and the object or
    the exception. *)
Definition OIFHeader_init (cfg : config) (fs : filesystem) (path : pystr)
  : list pystr * result OIFHeader :=
  let base := basename path in
  let extn := snd (splitext base) in
  if negb (str_eqb extn (u ".imh")) then
    ([], Raise (Exception "Unknown image header extension"))
  else
    ([path], content <- fs path ;; OIFHeader_parse cfg path content).


(** ** The NumPy calls of [readPixels] *)

Inductive kind : Type :=
| KInt        (* 'i': signed integer *)
| KUInt       (* 'u': unsigned integer *)
| KFloat      (* 'f': floating point *)
| KUnicode.   (* 'U': string of UCS-4 code units *)

Record dtype : Type := {
  dt_order : byteorder;
  dt_kind : kind;
  dt_itemsize : nat
}.

Fixpoint digits_nat (acc : nat) (s : string) : option nat :=
  match s with
  | EmptyString => Some acc
  | String c s' =>
      let n := nat_of_ascii c in
      if ((48 <=? n) && (n <=? 57))%nat
      then digits_nat (10 * acc + (n - 48))%nat s'
      else None
  end.

(** [np.dtype(ptype)] for a byte-order character, a kind character among
    [i u f U] and a size.  The size counts bytes for the numeric kinds and
    characters, of four bytes each, for ['U']. *)
Definition np_dtype (ptype : string) : result dtype :=
  match ptype with
  | String o (String k (String d ds as size)) =>
      match (if Ascii.eqb o "<" then Some little
             else if Ascii.eqb o ">" then Some big else None),
            digits_nat 0 size with
      | Some order, Some n =>
          let sized (kd : kind) (ok : bool) (sz : nat) :=
            if ok
            then Ok {| dt_order := order; dt_kind := kd; dt_itemsize := sz |}
            else Raise NotModelled in
          let pow2 := ((n =? 1) || (n =? 2) || (n =? 4) || (n =? 8))%nat in
          if Ascii.eqb k "i" then sized KInt pow2 n
          else if Ascii.eqb k "u" then sized KUInt pow2 n
          else if Ascii.eqb k "f"
          then sized KFloat ((n =? 2) || (n =? 4) || (n =? 8))%nat n
          else if Ascii.eqb k "U" then sized KUnicode (0 <? n)%nat (4 * n)%nat
          else Raise NotModelled
      | _, _ => Raise NotModelled
      end
  | _ => Raise NotModelled
  end.

(** [np.frombuffer(data, dt, -1, 0)]: the items of the array, each the
    [dt_itemsize] bytes it occupies. *)
Definition frombuffer (data : bytes) (dt : dtype) : result (list bytes) :=
  let sz := dt_itemsize dt in
  if (sz =? 0)%nat then Raise ValueError
  else if (length data mod sz =? 0)%nat then
    Ok (List.map (fun i => firstn sz (skipn (i * sz) data))
          (seq 0 (length data / sz)))
  else Raise ValueError.

(** The number an item of an integer type stands for. *)
Definition item_int (dt : dtype) (item : bytes) : option Z :=
  match dt_kind dt with
  | KInt => Some (to_signed (8 * Z.of_nat (dt_itemsize dt)) (uint (dt_order dt) item))
  | KUInt => Some (uint (dt_order dt) item)
  | _ => None
  end.

Section Matrix.
Variable A : Type.
Variable d : A.

(** A two-dimensional array: its shape and its rows. *)
Record matrix : Type := {
  nrows : nat;
  ncols : nat;
  rows : list (list A)
}.

(** [M[i, j]] *)
Definition mget (M : matrix) (i j : nat) : A :=
  nth j (nth i (rows M) []) d.

(** [np.reshape(raw, (p, -1))] in row-major order. *)
Definition reshape (raw : list A) (p : Z) : result matrix :=
  if p <=? 0 then Raise ValueError
  else
    let r := Z.to_nat p in
    if (length raw mod r =? 0)%nat then
      let c := (length raw / r)%nat in
      Ok {| nrows := r; ncols := c;
            rows := List.map (fun i => firstn c (skipn (i * c) raw)) (seq 0 r) |}
    else Raise ValueError.

(** [M.T] *)
Definition transpose (M : matrix) : matrix :=
  {| nrows := ncols M; ncols := nrows M;
     rows := List.map (fun j => List.map (fun row => nth j row d) (rows M))
               (seq 0 (ncols M)) |}.

(** [M[:a, :b]] *)
Definition crop (a b : Z) (M : matrix) : matrix :=
  {| nrows := slice_index a (nrows M); ncols := slice_index b (ncols M);
     rows := List.map (slice_to b) (slice_to a (rows M)) |}.
End Matrix.

Arguments nrows {A} m.
Arguments ncols {A} m.
Arguments rows {A} m.

(** A pixel array of one or two dimensions. *)
Inductive ndarray : Type :=
| Array1 (dt : dtype) (items : list bytes)
| Array2 (dt : dtype) (M : matrix bytes).

Definition array_size (a : ndarray) : nat :=
  match a with
  | Array1 _ items => length items
  | Array2 _ M => (nrows M * ncols M)%nat
  end.

Definition array_dtype (a : ndarray) : dtype :=
  match a with
  | Array1 dt _ | Array2 dt _ => dt
  end.

(** ** [OIFPixfile] *)

Record OIFPixfile : Type := {
  p_path : pystr;
  p_base : pystr;
  p_extn : pystr;
  p_content : bytes;
  p_type : option Z;
  p_swap : option bool;
  p_data : bytes;
  p_hdr : option bytes;
  p_swapped : option bool;
  p_pixtype : option Z;
  p_ndim : option Z;
  p_dims : option (list Z);
  p_pdims : option (list Z);
  p_pixels : option ndarray
}.

Definition set_pixels (o : OIFPixfile) (a : ndarray) : OIFPixfile :=
  {| p_path := p_path o; p_base := p_base o; p_extn := p_extn o;
     p_content := p_content o; p_type := p_type o; p_swap := p_swap o;
     p_data := p_data o; p_hdr := p_hdr o; p_swapped := p_swapped o;
     p_pixtype := p_pixtype o; p_ndim := p_ndim o; p_dims := p_dims o;
     p_pdims := p_pdims o; p_pixels := Some a |}.

Definition truth (b : option bool) : bool :=
  match b with Some x => x | None => false end.

Definition type_is (t : option Z) (code : Z) : bool :=
  match t with Some x => x =? code | None => false end.

(** Lines 355-363 of [readPixels]: the element type and the raw items. *)
Definition readPixels_raw (cfg : config) (o : OIFPixfile)
  : result (dtype * list bytes) :=
  let host_little := byteorder_eqb (sys_byteorder cfg) little in
  swap <-
    (if type_is (p_type o) V1PIX then
       Ok (if host_little && truth (p_swap o) then ">" else "<")%string
     else if host_little then
       swapped <- getattr (p_swapped o) ;;
       Ok (if swapped then "<" else ">")%string
     else Ok ">"%string) ;;
  let swap :=
    if force_swap cfg
    then (if String.eqb swap ">" then "<" else ">")%string
    else swap in
  pixtype <- getattr (p_pixtype o) ;;
  code <- pixtypes pixtype ;;
  let ptype := (swap ++ code)%string in
  dt <- np_dtype ptype ;;
  raw_pixels <- frombuffer (p_data o) dt ;;
  Ok (dt, raw_pixels).

(** Lines 366-372: the logical pixels cut out of the physical storage. *)
Definition readPixels_crop (o : OIFPixfile) (dt : dtype) (raw_pixels : list bytes)
  : result ndarray :=
  ndim <- getattr (p_ndim o) ;;
  if ndim =? 1 then
    dims <- getattr (p_dims o) ;;
    d0 <- getitem 0 dims ;;
    Ok (Array1 dt (slice_to d0 raw_pixels))
  else if ndim =? 2 then
    pdims <- getattr (p_pdims o) ;;
    p1 <- getitem 1 pdims ;;
    shaped <- reshape raw_pixels p1 ;;
    let phys_pixels := transpose [] shaped in
    dims <- getattr (p_dims o) ;;
    d0 <- getitem 0 dims ;;
    d1 <- getitem 1 dims ;;
    Ok (Array2 dt (crop d0 d1 phys_pixels))
  else Raise (Exception "Error: Images >2 dimensions not supported").

(** Lines 374-377: [np.min] and [np.max] of the debug print refuse an
    empty array, and ['%g'] refuses a string item. *)
Definition readPixels_debug (cfg : config) (a : ndarray) : result unit :=
  if debug cfg then
    if (array_size a =? 0)%nat then Raise ValueError
    else match dt_kind (array_dtype a) with
         | KUnicode => Raise TypeError
         | _ => Ok tt
         end
  else Ok tt.

(** [OIFPixfile.readPixels] *)
Definition readPixels (cfg : config) (o : OIFPixfile) : result OIFPixfile :=
  '(dt, raw_pixels) <- readPixels_raw cfg o ;;
  pixels <- readPixels_crop o dt raw_pixels ;;
  _ <- readPixels_debug cfg pixels ;;
  Ok (set_pixels o pixels).

(** [OIFPixfile.printHdr] *)
Definition printHdr_pixfile (cfg : config) (o : OIFPixfile) : result unit :=
  if debug cfg then
    _ <- match global_path cfg with Some p => Ok p | None => Raise NameError end ;;
    _ <- getattr (p_pixtype o) ;;
    _ <- getattr (p_ndim o) ;;
    _ <- getattr (p_dims o) ;;
    _ <- getattr (p_pdims o) ;;
    Ok tt
  else Ok tt.

(** Lines 322-350: the constructor after the file has been read. *)
Definition OIFPixfile_parse (cfg : config) (path : pystr) (content : bytes)
  : result OIFPixfile :=
  let base := basename path in
  let extn := snd (splitext base) in
  let '(type, swap) := fileType cfg content in
  let ifmt := int_format cfg swap in
  let make hdr swapped pixtype ndim dims pdims data := {|
    p_path := path; p_base := base; p_extn := extn; p_content := content;
    p_type := type; p_swap := swap; p_data := data; p_hdr := hdr;
    p_swapped := swapped; p_pixtype := pixtype; p_ndim := ndim;
    p_dims := dims; p_pdims := pdims; p_pixels := None |} in
  o <-
    (if type_is type V1PIX then
       let hdr := slice_to 1024 content in
       pixtype <- unpack_i ifmt (slice 16 20 hdr) ;;
       ndim <- unpack_i ifmt (slice 20 24 hdr) ;;
       dims <- unpack_7i ifmt (slice 24 52 hdr) ;;
       pdims <- unpack_7i ifmt (slice 52 80 hdr) ;;
       Ok (make (Some hdr) swap (Some pixtype) (Some ndim) (Some dims)
             (Some pdims) (slice_from 1024 content))
     else if type_is type V2PIX then
       let hdr := slice_to 2048 content in
       swapped <- unpack_i ifmt (slice 14 18 hdr) ;;
       pixtype <- unpack_i ifmt (slice 10 14 hdr) ;;
       ndim <- unpack_i ifmt (slice 18 22 hdr) ;;
       dims <- unpack_7i ifmt (slice 22 50 hdr) ;;
       pdims <- unpack_7i ifmt (slice 50 78 hdr) ;;
       Ok (make (Some hdr) (Some (swapped =? 1)) (Some pixtype) (Some ndim)
             (Some dims) (Some pdims) (slice_from 2048 content))
     else Ok (make None None None None None None [])) ;;
  o' <- readPixels cfg o ;;
  _ <- printHdr_pixfile cfg o' ;;
  Ok o'.

(** [OIFPixfile.__init__] *)
Definition OIFPixfile_init (cfg : config) (fs : filesystem) (path : pystr)
  : list pystr * result OIFPixfile :=
  let base := basename path in
  let extn := snd (splitext base) in
  if negb (str_eqb extn (u ".pix")) then
    ([], Raise (Exception "Unknown image pixfile extension"))
  else
    ([path], content <- fs path ;; OIFPixfile_parse cfg path content).

(** ** [OIFImage] *)

Record OIFImage : Type := {
  i_path : pystr;
  i_base : pystr;
  i_root : pystr;
  i_hdrfile : OIFHeader;
  i_pixfile : OIFPixfile
}.

(** [OIFImage.__init__]: the header file is read first; the pixel file is
    not opened when the header raises. *)
Definition OIFImage_init (cfg : config) (fs : filesystem) (hdrfile pixfile : pystr)
  : list pystr * result OIFImage :=
  let base := basename hdrfile in
  let root := fst (splitext base) in
  match OIFHeader_init cfg fs hdrfile with
  | (t1, Raise e) => (t1, Raise e)
  | (t1, Ok h) =>
      match OIFPixfile_init cfg fs pixfile with
      | (t2, Raise e) => (t1 ++ t2, Raise e)
      | (t2, Ok p) =>
          (t1 ++ t2,
           Ok {| i_path := hdrfile; i_base := base; i_root := root;
                 i_hdrfile := h; i_pixfile := p |})
      end
  end.

(** What [toFITS] has put in the HDU by line 193: the data and the
    header.  The summary print and [writeto] that follow are not
    modelled. *)
Record hdu (header : Type) : Type := {
  hdu_data : ndarray;
  hdu_header : header
}.

Arguments hdu_data {header} h.
Arguments hdu_header {header} h.

Definition array_T (a : ndarray) : ndarray :=
  match a with
  | Array1 dt items => Array1 dt items
  | Array2 dt M => Array2 dt (transpose [] M)
  end.

Section ToFITS.
Variable literal_eval : pystr -> result pyobj.
Variable py_int : pystr -> result Z.
Variable py_float : pystr -> result decimal.

(** The calls into astropy: the header of a new [PrimaryHDU] once its
    data is assigned (lines 149-156), the assignment of a card (line 189)
    and [add_history] (line 193).  Each returns the header or raises. *)
Variable header : Type.
Variable set_data : ndarray -> result header.
Variable header_set : header -> card -> result header.
Variable add_history : header -> pystr -> result header.

(** [OIFImage.toFITS], lines 149-193. *)
Definition toFITS (img : OIFImage) : result (hdu header) :=
  ndim <- getattr (p_ndim (i_pixfile img)) ;;
  pixels <- getattr (p_pixels (i_pixfile img)) ;;
  let data := if ndim =? 1 then pixels else array_T pixels in
  hd <- set_data data ;;
  keywords <- getattr (h_keywords (i_hdrfile img)) ;;
  hd <- toFITS_keywords literal_eval py_int py_float header_set hd keywords ;;
  hd <- add_history hd (u "New copy of " ++ h_base (i_hdrfile img)) ;;
  Ok {| hdu_data := data; hdu_header := hd |}.
End ToFITS.

(** [toFITS] with the library functions of the examples and the header
    that keeps the cards assigned. *)
Definition toFITS_py : OIFImage -> result (hdu assigned) :=
  toFITS ast_literal_eval builtin_int builtin_float
    (fun _ => Ok []) assign
    (fun hd text => Ok (hd ++ [(u "HISTORY", VStr text, [])])).

(** ** Sample inputs used by the examples below *)

Definition cfg_little : config := {|
  debug := false; verbose := false; force_swap := false; warn := false;
  list_only := false; sys_byteorder := little; global_path := None |}.

Definition cfg_big : config := {|
  debug := false; verbose := false; force_swap := false; warn := false;
  list_only := false; sys_byteorder := big; global_path := None |}.

(** A file system holding one file. *)
Definition one_file (name : pystr) (content : bytes) : filesystem :=
  fun p => if str_eqb p name then Ok content else Raise FileNotFoundError.

(** The four bytes of a 32-bit integer, least significant first. *)
Definition le32 (z : Z) : bytes :=
  List.map (fun i =>
              match Byte.of_N (Z.to_N ((z mod 2 ^ 32) / 2 ^ (8 * Z.of_nat i) mod 256)) with
              | Some b => b
              | None => x00
              end)
    (seq 0 4).

Definition le16 (z : Z) : bytes := firstn 2 (le32 z).

Definition zeros (n : nat) : bytes := repeat x00 n.

(** The header object of a file that is not a header file. *)
Definition blank_header (cfg : config) (path : pystr) (content : bytes) : OIFHeader :=
  {| h_path := path; h_base := basename path;
     h_extn := snd (splitext (basename path)); h_content := content;
     h_type := fst (fileType cfg content); h_swap := snd (fileType cfg content);
     h_data := []; h_userarea := []; h_title := [];
     h_hdr := None; h_keywords := None; h_pixtype := None; h_history := None;
     h_ndim := None; h_dims := None; h_pdims := None; h_date := None |}.

(** The user area of each version, and its pieces. *)
Definition userarea_v1 (content : bytes) : bytes :=
  replace byte_eqb NUL [] (slice_from 2052 content).

Definition userarea_v2 (content : bytes) : bytes :=
  replace byte_eqb NUL [] (slice_from 2046 content).

(** A version 1 and a version 2 header file with the same user area, two
    lines that each end with a newline. *)
Definition sample_userarea : bytes :=
  list_byte_of_string "NAXIS   = 2" ++ [NL] ++ list_byte_of_string "HISTORY x" ++ [NL].

Definition sample_v1_header : bytes :=
  V1HDR_MAGIC_LITTLE_ENDIAN ++ zeros 2042 ++ sample_userarea.

Definition sample_v2_header : bytes :=
  V2HDR_MAGIC ++ zeros 2041 ++ sample_userarea.

(** A version 1 pixel file written on a little-endian machine: the header
    fields at their offsets, then the pixel data at byte 1024. *)
Definition v1_pixfile (pixtype ndim : Z) (dims pdims : list Z) (data : bytes) : bytes :=
  V1PIX_MAGIC_LITTLE_ENDIAN ++ zeros 6 ++ le32 pixtype ++ le32 ndim
  ++ flat_map le32 dims ++ flat_map le32 pdims ++ zeros 944 ++ data.

(** The object [OIFPixfile.__init__] hands to [readPixels] for such a
    file on a little-endian host. *)
Definition v1_pixobject (pixtype ndim : Z) (dims pdims : list Z) (data : bytes)
  : OIFPixfile :=
  {| p_path := u "a.pix"; p_base := u "a.pix"; p_extn := u ".pix";
     p_content := v1_pixfile pixtype ndim dims pdims data;
     p_type := Some V1PIX; p_swap := Some false; p_data := data;
     p_hdr := Some (slice_to 1024 (v1_pixfile pixtype ndim dims pdims data));
     p_swapped := Some false; p_pixtype := Some pixtype; p_ndim := Some ndim;
     p_dims := Some dims; p_pdims := Some pdims; p_pixels := None |}.

(** The 16-bit integers 0 .. 11, least significant byte first. *)
Definition ramp12 : bytes :=
  flat_map le16 [0; 1; 2; 3; 4; 5; 6; 7; 8; 9; 10; 11].

(** An image of physical size 4 by 3 and logical size 3 by 2, the buffer
    holding 0 .. 11. *)
Definition ramp_object : OIFPixfile :=
  v1_pixobject TY_SHORT 2 [3; 2; 1; 1; 1; 1; 1] [4; 3; 1; 1; 1; 1; 1] ramp12.

Definition ramp_dtype : dtype :=
  {| dt_order := little; dt_kind := KInt; dt_itemsize := 2 |}.

(** ** Finding files, and the main program (lines 388-404, 442-493) *)

(** [os.path.join(a, b)] (POSIX). *)
Definition path_join (a b : pystr) : pystr :=
  if startswith N.eqb [slash] b then b
  else if match a with [] => true | _ => false end
          || startswith N.eqb [slash] (rev a)
       then a ++ b
       else a ++ [slash] ++ b.

(** [os.path.dirname] (POSIX): the head up to the last slash, without its
    trailing slashes unless it is made of slashes only. *)
Definition dirname (p : pystr) : pystr :=
  let head := slice_to (rfind N.eqb slash p + 1) p in
  if match head with [] => false | _ => true end
     && negb (forallb (N.eqb slash) head)
  then rstrip (N.eqb slash) head
  else head.

(** What [os.walk(path)] yields: for each directory its name, its
    subdirectories and its files. *)
Definition walked : Type := list (pystr * list pystr * list pystr).

(** [findFile(name, path)], on what [os.walk(path)] yields; [None] when
    the loop ends without a match. *)
Fixpoint findFile (name : pystr) (w : walked) : option pystr :=
  match w with
  | [] => None
  | (root, dirs, files) :: rest =>
      if str_in name files then Some (path_join root name)
      else findFile name rest
  end.

(** The inner loop of [findAll]: the matches of one directory. *)
Fixpoint findAll_files (fnmatch : pystr -> pystr -> bool) (pattern root : pystr)
  (files : list pystr) : list pystr :=
  match files with
  | [] => []
  | name :: files' =>
      if fnmatch name pattern
      then path_join root name :: findAll_files fnmatch pattern root files'
      else findAll_files fnmatch pattern root files'
  end.

(** [findAll(pattern, path)], on what [os.walk(path)] yields;
    [fnmatch.fnmatch] is a parameter. *)
Fixpoint findAll (fnmatch : pystr -> pystr -> bool) (pattern : pystr) (w : walked)
  : list pystr :=
  match w with
  | [] => []
  | (root, dirs, files) :: rest =>
      findAll_files fnmatch pattern root files ++ findAll fnmatch pattern rest
  end.

(** The five global options the command line sets. *)
Record options : Type := {
  opt_debug : bool;
  opt_list_only : bool;
  opt_verbose : bool;
  opt_force_swap : bool;
  opt_warn : bool
}.

Definition default_options : options :=
  {| opt_debug := false; opt_list_only := false; opt_verbose := false;
     opt_force_swap := false; opt_warn := false |}.

(** The outcome of the argument loop: [Usage(); sys.exit()], or the
    options and the files. *)
Inductive parsed : Type :=
| Help
| Run (opts : options) (files : list pystr).

(** Lines 445-461: the loop over [sys.argv[1:]]; [files] is kept in the
    order of the appends. *)
Fixpoint parse_args (opts : options) (files : list pystr) (args : list pystr)
  : parsed :=
  match args with
  | [] => Run opts files
  | arg :: rest =>
      if str_in arg [u "-h"; u "--help"] then Help
      else if str_in arg [u "-d"; u "--debug"] then
        parse_args {| opt_debug := true; opt_list_only := opt_list_only opts;
                      opt_verbose := opt_verbose opts;
                      opt_force_swap := opt_force_swap opts;
                      opt_warn := opt_warn opts |} files rest
      else if str_in arg [u "-l"; u "--list"] then
        parse_args {| opt_debug := opt_debug opts; opt_list_only := true;
                      opt_verbose := opt_verbose opts;
                      opt_force_swap := opt_force_swap opts;
                      opt_warn := opt_warn opts |} files rest
      else if str_in arg [u "-v"; u "--verbose"] then
        parse_args {| opt_debug := opt_debug opts;
                      opt_list_only := opt_list_only opts; opt_verbose := true;
                      opt_force_swap := opt_force_swap opts;
                      opt_warn := opt_warn opts |} files rest
      else if str_in arg [u "-s"; u "--swap"] then
        parse_args {| opt_debug := opt_debug opts;
                      opt_list_only := opt_list_only opts;
                      opt_verbose := opt_verbose opts; opt_force_swap := true;
                      opt_warn := opt_warn opts |} files rest
      else if str_in arg [u "-w"; u "--warnings"] then
        parse_args {| opt_debug := opt_debug opts;
                      opt_list_only := opt_list_only opts;
                      opt_verbose := opt_verbose opts;
                      opt_force_swap := opt_force_swap opts; opt_warn := true |}
          files rest
      else parse_args opts (files ++ [arg]) rest
  end.

(** Lines 472-480 for one argument [f]: the name of the pixel file the
    loop looks for, and the directory it looks in; [None] when [f] is
    skipped. *)
Definition pixel_search (f : pystr) : option (pystr * pystr) :=
  let base := basename f in
  let root := fst (splitext base) in
  let extn := snd (splitext base) in
  if str_eqb extn (u ".imh") then
    let path := dirname f in
    let path := if str_eqb path [] then u "./" else path in
    Some (root ++ u ".pix", path)
  else None.

(** The configuration with the swap forced or not. *)
Definition with_force_swap (b : bool) (cfg : config) : config :=
  {| debug := debug cfg; verbose := verbose cfg; force_swap := b;
     warn := warn cfg; list_only := list_only cfg;
     sys_byteorder := sys_byteorder cfg; global_path := global_path cfg |}.

Definition flip_order (o : byteorder) : byteorder :=
  match o with big => little | little => big end.

(** The pieces of a split on one element [c], put together again with
    [c] between them: [c.join(pieces)]. *)
Fixpoint unsplit {A : Type} (c : A) (pieces : list (list A)) : list A :=
  match pieces with
  | [] => []
  | [p] => p
  | p :: rest => p ++ c :: unsplit c rest
  end.

(** A line the loop of [toFITS] skips: empty after [strip()]. *)
Definition is_blank (key : pystr) : bool := str_eqb (strip key) [].

(** The spellings of the six options. *)
Definition help_names : list pystr := [u "-h"; u "--help"].
Definition debug_names : list pystr := [u "-d"; u "--debug"].
Definition list_names : list pystr := [u "-l"; u "--list"].
Definition verbose_names : list pystr := [u "-v"; u "--verbose"].
Definition swap_names : list pystr := [u "-s"; u "--swap"].
Definition warn_names : list pystr := [u "-w"; u "--warnings"].

Definition option_names : list pystr :=
  help_names ++ debug_names ++ list_names ++ verbose_names ++ swap_names
  ++ warn_names.

(** Whether some argument is one of [names]. *)
Definition given (names : list pystr) (args : list pystr) : bool :=
  existsb (fun arg => str_in arg names) args.

(** The range of a signed 32-bit integer. *)
Definition int32 (z : Z) : Prop := - 2 ^ 31 <= z < 2 ^ 31.

(** Bytes that are all below 128. *)
Definition ascii_bytes (l : bytes) : Prop :=
  Forall (fun b => (Byte.to_N b < 128)%N) l.

(** The item size [np.dtype] gives to the entry of [pixtypes] for a code;
    0 for a code that is not in the table. *)
Definition pixel_width (code : Z) : nat :=
  match pixtypes code with
  | Ok tc =>
      match np_dtype ("<" ++ tc)%string with
      | Ok dt => dt_itemsize dt
      | Raise _ => 0%nat
      end
  | Raise _ => 0%nat
  end.

(** An element type read in the other byte order. *)
Definition flip_dtype (dt : dtype) : dtype :=
  {| dt_order := flip_order (dt_order dt); dt_kind := dt_kind dt;
     dt_itemsize := dt_itemsize dt |}.

(** The codes of the table. *)
Definition known_code (code : Z) : Prop :=
  code = TY_SHORT \/ code = TY_USHORT \/ code = TY_INT \/ code = TY_LONG
  \/ code = TY_REAL \/ code = TY_DOUBLE.

(** The byte-order character of [readPixels], lines 355-360. *)
Definition swap_char (cfg : config) (o : OIFPixfile) : result string :=
  let host_little := byteorder_eqb (sys_byteorder cfg) little in
  swap <-
    (if type_is (p_type o) V1PIX then
       Ok (if host_little && truth (p_swap o) then ">" else "<")%string
     else if host_little then
       swapped <- getattr (p_swapped o) ;;
       Ok (if swapped then "<" else ">")%string
     else Ok ">"%string) ;;
  Ok (if force_swap cfg
      then (if String.eqb swap ">" then "<" else ">")%string
      else swap).

(** The object [readPixels] leaves for the 4 by 3 ramp, a header object
    that holds keyword lines only, and the image made of a header object
    and a pixel file object. *)
Definition ramp_read : OIFPixfile :=
  match readPixels cfg_little ramp_object with
  | Ok o => o
  | Raise _ => ramp_object
  end.

Definition keyword_header (path : pystr) (keywords : list pystr) : OIFHeader :=
  {| h_path := path; h_base := basename path;
     h_extn := snd (splitext (basename path)); h_content := [];
     h_type := Some V1HDR; h_swap := Some false;
     h_data := []; h_userarea := []; h_title := [];
     h_hdr := None; h_keywords := Some keywords; h_pixtype := None;
     h_history := None; h_ndim := None; h_dims := None; h_pdims := None;
     h_date := None |}.

Definition image_of (h : OIFHeader) (p : OIFPixfile) : OIFImage :=
  {| i_path := h_path h; i_base := h_base h;
     i_root := fst (splitext (h_base h)); i_hdrfile := h; i_pixfile := p |}.

(** * Properties *)

(** ** Equality tests *)

Section SeqFacts.
Variable A : Type.
Variable eqb : A -> A -> bool.
Hypothesis eqb_eq : forall x y, eqb x y = true <-> x = y.

Lemma seq_eqb_eq (l1 l2 : list A) : seq_eqb eqb l1 l2 = true <-> l1 = l2.
Proof.
  revert l2; induction l1 as [|x l1 IH]; intros [|y l2]; simpl;
    try (split; [discriminate | discriminate]); try tauto.
  rewrite andb_true_iff, eqb_eq, IH.
  split; [intros [-> ->]; reflexivity | intros E; inversion E; auto].
Qed.

Lemma seq_eqb_neq (l1 l2 : list A) : l1 <> l2 -> seq_eqb eqb l1 l2 = false.
Proof.
  intros H. destruct (seq_eqb eqb l1 l2) eqn:E; [|reflexivity].
  apply seq_eqb_eq in E. contradiction.
Qed.

Lemma seq_eqb_refl (l : list A) : seq_eqb eqb l l = true.
Proof. apply seq_eqb_eq. reflexivity. Qed.
End SeqFacts.

Lemma byte_eqb_eq (x y : byte) : byte_eqb x y = true <-> x = y.
Proof.
  split; [apply Byte.byte_dec_bl | apply Byte.byte_dec_lb].
Qed.

Lemma bytes_eqb_eq (a b : bytes) : bytes_eqb a b = true <-> a = b.
Proof. apply seq_eqb_eq, byte_eqb_eq. Qed.

Lemma bytes_eqb_neq (a b : bytes) : a <> b -> bytes_eqb a b = false.
Proof. apply seq_eqb_neq, byte_eqb_eq. Qed.

Lemma str_eqb_eq (a b : pystr) : str_eqb a b = true <-> a = b.
Proof. apply seq_eqb_eq, N.eqb_eq. Qed.

Lemma str_eqb_neq (a b : pystr) : a <> b -> str_eqb a b = false.
Proof. apply seq_eqb_neq, N.eqb_eq. Qed.

(** ** Slices *)

Section SliceFacts.
Variable A : Type.

Lemma firstn_min (n : nat) (l : list A) :
  firstn (Nat.min n (length l)) l = firstn n l.
Proof.
  destruct (Nat.le_gt_cases n (length l)) as [H|H].
  - rewrite Nat.min_l by exact H. reflexivity.
  - rewrite Nat.min_r by lia. rewrite !firstn_all2 by lia. reflexivity.
Qed.

Lemma skipn_min (n : nat) (l : list A) :
  skipn (Nat.min n (length l)) l = skipn n l.
Proof.
  destruct (Nat.le_gt_cases n (length l)) as [H|H].
  - rewrite Nat.min_l by exact H. reflexivity.
  - rewrite Nat.min_r by lia. rewrite !skipn_all2 by lia. reflexivity.
Qed.

Lemma slice_index_nonneg (i : Z) (len : nat) :
  0 <= i -> slice_index i len = Nat.min (Z.to_nat i) len.
Proof.
  intros H. unfold slice_index.
  destruct (i <? 0) eqn:E; [apply Z.ltb_lt in E; lia | reflexivity].
Qed.

(** A slice with bounds that are not negative is a [firstn] of a
    [skipn]. *)
Lemma slice_to_firstn (b : Z) (l : list A) :
  0 <= b -> slice_to b l = firstn (Z.to_nat b) l.
Proof.
  intros H. unfold slice_to. rewrite slice_index_nonneg by exact H.
  apply firstn_min.
Qed.

Lemma slice_from_skipn (a : Z) (l : list A) :
  0 <= a -> slice_from a l = skipn (Z.to_nat a) l.
Proof.
  intros H. unfold slice_from. rewrite slice_index_nonneg by exact H.
  apply skipn_min.
Qed.

Lemma slice_to_length (b : Z) (l : list A) :
  0 <= b -> length (slice_to b l) = Nat.min (Z.to_nat b) (length l).
Proof.
  intros H. rewrite slice_to_firstn by exact H. apply length_firstn.
Qed.

Lemma slice_length (a b : Z) (l : list A) :
  0 <= a <= b -> b <= Z.of_nat (length l) ->
  length (slice a b l) = Z.to_nat (b - a).
Proof.
  intros Hab Hb. unfold slice. rewrite !slice_index_nonneg by lia.
  rewrite length_firstn, length_skipn. lia.
Qed.

Lemma slice_to_slice_to (a b : Z) (l : list A) :
  0 <= a <= b -> slice_to a (slice_to b l) = slice_to a l.
Proof.
  intros H. rewrite !slice_to_firstn by lia. rewrite firstn_firstn.
  f_equal. lia.
Qed.

Lemma slice_to_from (a : Z) (l : list A) :
  slice_to a l ++ slice_from a l = l.
Proof. apply firstn_skipn. Qed.
End SliceFacts.

(** ** [fileType] *)

Lemma magic_prefix (data : bytes) :
  slice_to 5 (slice_to 10 data) = slice_to 5 data.
Proof. apply slice_to_slice_to. lia. Qed.

(** A ten-byte magic string cannot match when the first five bytes are
    those of a version 2 file. *)
Lemma v2_excludes (data m10 m5 : bytes) :
  slice_to 5 data = m5 -> slice_to 5 m10 <> m5 ->
  bytes_eqb (slice_to 10 data) m10 = false.
Proof.
  intros H5 Hne. apply bytes_eqb_neq. intros E.
  apply Hne. rewrite <- E, magic_prefix. exact H5.
Qed.

(** C6: each of the six magic strings gives its file type and swap flag,
    the flag of a version 1 file telling whether the host order differs
    from the order of the matched string and the flag of a version 2 file
    telling whether the host is little-endian; a buffer whose first bytes
    match none of them gives [(None, None)]. *)
Theorem fileType_magic (cfg : config) (data : bytes) :
  let host := sys_byteorder cfg in
  (slice_to 10 data = V1HDR_MAGIC_BIG_ENDIAN ->
   fileType cfg data = (Some V1HDR, Some (negb (byteorder_eqb host big)))) /\
  (slice_to 10 data = V1PIX_MAGIC_BIG_ENDIAN ->
   fileType cfg data = (Some V1PIX, Some (negb (byteorder_eqb host big)))) /\
  (slice_to 10 data = V1HDR_MAGIC_LITTLE_ENDIAN ->
   fileType cfg data = (Some V1HDR, Some (negb (byteorder_eqb host little)))) /\
  (slice_to 10 data = V1PIX_MAGIC_LITTLE_ENDIAN ->
   fileType cfg data = (Some V1PIX, Some (negb (byteorder_eqb host little)))) /\
  (slice_to 5 data = V2HDR_MAGIC ->
   fileType cfg data = (Some V2HDR, Some (byteorder_eqb host little))) /\
  (slice_to 5 data = V2PIX_MAGIC ->
   fileType cfg data = (Some V2PIX, Some (byteorder_eqb host little))) /\
  (slice_to 10 data <> V1HDR_MAGIC_BIG_ENDIAN ->
   slice_to 10 data <> V1PIX_MAGIC_BIG_ENDIAN ->
   slice_to 10 data <> V1HDR_MAGIC_LITTLE_ENDIAN ->
   slice_to 10 data <> V1PIX_MAGIC_LITTLE_ENDIAN ->
   slice_to 5 data <> V2HDR_MAGIC ->
   slice_to 5 data <> V2PIX_MAGIC ->
   fileType cfg data = (None, None)).
Proof.
  intros host. unfold fileType. fold host.
  repeat split.
  - intros ->. reflexivity.
  - intros ->. reflexivity.
  - intros ->. reflexivity.
  - intros ->. reflexivity.
  - intros H. rewrite magic_prefix.
    rewrite !(@v2_excludes data _ _ H) by (vm_compute; discriminate).
    rewrite H. reflexivity.
  - intros H. rewrite magic_prefix.
    rewrite !(@v2_excludes data _ _ H) by (vm_compute; discriminate).
    rewrite H. reflexivity.
  - intros H1 H2 H3 H4 H5 H6. rewrite magic_prefix.
    rewrite !bytes_eqb_neq by assumption. reflexivity.
Qed.

(** The swap flag of a version 1 match, read as the claim words it. *)
Lemma differs_from (host order : byteorder) :
  negb (byteorder_eqb host order) = true <-> host <> order.
Proof. destruct host, order; simpl; split; congruence. Qed.

Lemma fileType_magic_witness :
  fileType cfg_little (V1HDR_MAGIC_BIG_ENDIAN ++ zeros 4) = (Some V1HDR, Some true)
  /\ fileType cfg_big (V1PIX_MAGIC_LITTLE_ENDIAN ++ zeros 4) = (Some V1PIX, Some true)
  /\ fileType cfg_little (V2HDR_MAGIC ++ zeros 9) = (Some V2HDR, Some true)
  /\ fileType cfg_big (V2PIX_MAGIC ++ zeros 9) = (Some V2PIX, Some false)
  /\ fileType cfg_little (zeros 16) = (None, None).
Proof.
  split; [apply (fileType_magic cfg_little (V1HDR_MAGIC_BIG_ENDIAN ++ zeros 4)); reflexivity|].
  split; [apply (fileType_magic cfg_big (V1PIX_MAGIC_LITTLE_ENDIAN ++ zeros 4)); reflexivity|].
  split; [apply (fileType_magic cfg_little (V2HDR_MAGIC ++ zeros 9)); reflexivity|].
  split; [apply (fileType_magic cfg_big (V2PIX_MAGIC ++ zeros 9)); reflexivity|].
  apply (fileType_magic cfg_little (zeros 16)); vm_compute; discriminate.
Defined.

(** ** Sequence facts used by the keyword loop *)

Section SeqCharFacts.
Variable A : Type.
Variable eqb : A -> A -> bool.

Lemma count_nonneg (c : A) (l : list A) : 0 <= count eqb c l.
Proof.
  induction l as [|x l IH]; simpl; [lia|].
  destruct (eqb x c); lia.
Qed.

Lemma count_app (c : A) (a b : list A) :
  count eqb c (a ++ b) = count eqb c a + count eqb c b.
Proof.
  induction a as [|x a IH]; simpl; [reflexivity|]. rewrite IH. lia.
Qed.

Lemma find_range (c : A) (l : list A) :
  -1 <= find eqb c l < Z.of_nat (length l).
Proof.
  induction l as [|x l IH]; simpl length; simpl find; [lia|].
  destruct (eqb x c); [lia|].
  destruct (find eqb c l <? 0) eqn:E; [lia|].
  apply Z.ltb_ge in E. lia.
Qed.

Lemma find_count (c : A) (l : list A) :
  0 <= find eqb c l <-> 0 < count eqb c l.
Proof.
  induction l as [|x l IH]; simpl; [lia|].
  pose proof (count_nonneg c l).
  destruct (eqb x c); [lia|].
  destruct (find eqb c l <? 0) eqn:E.
  - apply Z.ltb_lt in E. lia.
  - apply Z.ltb_ge in E. lia.
Qed.

(** Splitting on one element gives one piece more than there are
    occurrences. *)
Lemma split_go_length (c : A) (l cur : list A) :
  Z.of_nat (length (split_go eqb [c] O cur l)) = count eqb c l + 1.
Proof.
  revert cur; induction l as [|x l IH]; intros cur; [reflexivity|].
  cbn [split_go startswith count length Nat.sub].
  rewrite andb_true_r.
  destruct (eqb x c); cbn [length].
  - rewrite Nat2Z.inj_succ, IH. lia.
  - rewrite IH. lia.
Qed.

Lemma split_length (c : A) (l : list A) :
  Z.of_nat (length (split eqb [c] l)) = count eqb c l + 1.
Proof. apply split_go_length. Qed.

Lemma getitem_ok (B : Type) (i : Z) (l : list B) :
  - Z.of_nat (length l) <= i < Z.of_nat (length l) ->
  exists x, getitem i l = Ok x.
Proof.
  intros H. unfold getitem.
  set (j := if 0 <=? i then i else Z.of_nat (length l) + i).
  assert (Hj : 0 <= j < Z.of_nat (length l)).
  { subst j. destruct (0 <=? i) eqn:E;
      [apply Z.leb_le in E | apply Z.leb_gt in E]; lia. }
  destruct (j <? 0) eqn:E; [apply Z.ltb_lt in E; lia|].
  destruct (nth_error l (Z.to_nat j)) as [x|] eqn:N; [eauto|].
  apply nth_error_None in N. lia.
Qed.

Lemma lstrip_keeps (is_ch : A -> bool) (l : list A) :
  (exists x, In x l /\ is_ch x = false) -> lstrip is_ch l <> [].
Proof.
  induction l as [|y l IH]; intros [x [Hin Hx]]; simpl in *; [contradiction|].
  destruct (is_ch y) eqn:E; [|discriminate].
  apply IH. exists x. split; [|exact Hx].
  destruct Hin as [->|Hin]; [congruence | exact Hin].
Qed.

Lemma lstrip_incl (is_ch : A -> bool) (l : list A) (x : A) :
  In x (lstrip is_ch l) -> In x l.
Proof.
  induction l as [|y l IH]; simpl; [tauto|].
  destruct (is_ch y); [right; auto | simpl; tauto].
Qed.

Lemma lstrip_head (is_ch : A -> bool) (x : A) (l : list A) :
  is_ch x = false -> lstrip is_ch (x :: l) = x :: l.
Proof. intros H. simpl. rewrite H. reflexivity. Qed.

(** A sequence with an element outside [chars] does not strip to
    nothing. *)
Lemma strip_with_keeps (is_ch : A -> bool) (l : list A) :
  (exists x, In x l /\ is_ch x = false) -> strip_with is_ch l <> [].
Proof.
  intros [x [Hin Hx]]. unfold strip_with, rstrip.
  intros E. apply (f_equal (@rev A)) in E. rewrite rev_involutive in E.
  simpl in E. revert E. apply lstrip_keeps.
  assert (Hl : lstrip is_ch l <> []) by (apply lstrip_keeps; eauto).
  clear Hin.
  induction l as [|y l IH]; simpl in *; [congruence|].
  destruct (is_ch y) eqn:Ey.
  - apply IH. exact Hl.
  - exists y. split; [|exact Ey].
    apply in_rev. rewrite rev_involutive. simpl. auto.
Qed.
End SeqCharFacts.

(** ** The keyword loop *)

(** The three slices of a line the loop takes at fixed places. *)
Lemma slice_to_7 (key : pystr) : slice_to 7 key = firstn 7 key.
Proof. apply slice_to_firstn. lia. Qed.

Lemma slice_from_7 (key : pystr) : slice_from 7 key = skipn 7 key.
Proof. apply slice_from_skipn. lia. Qed.

Lemma slice_from_8 (key : pystr) : slice_from 8 key = skipn 8 key.
Proof. apply slice_from_skipn. lia. Qed.

Lemma is_commentary_iff (key : pystr) :
  is_commentary key = true <-> slice_to 7 key = HISTORY \/ slice_to 7 key = COMMENT.
Proof.
  unfold is_commentary, str_in. simpl.
  rewrite !orb_true_iff, !str_eqb_eq. intuition discriminate.
Qed.

(** A commentary line is not blank. *)
Lemma commentary_not_blank (key : pystr) :
  is_commentary key = true -> str_eqb (strip key) [] = false.
Proof.
  intros H. apply str_eqb_neq. apply strip_with_keeps.
  apply is_commentary_iff in H.
  rewrite <- (slice_to_from 7 key).
  destruct H as [-> | ->].
  - exists (ch "H"). split; [left; reflexivity | reflexivity].
  - exists (ch "C"). split; [left; reflexivity | reflexivity].
Qed.

Lemma commentary_key (key : pystr) :
  is_commentary key = true ->
  replace N.eqb slash [] (strip (slice_to 7 key)) = slice_to 7 key.
Proof.
  intros H. apply is_commentary_iff in H. destruct H as [-> | ->]; reflexivity.
Qed.

Lemma commentary_no_slash (key : pystr) :
  is_commentary key = true ->
  count N.eqb slash key = count N.eqb slash (slice_from 7 key).
Proof.
  intros H. apply is_commentary_iff in H.
  rewrite <- (slice_to_from 7 key) at 1. rewrite count_app.
  destruct H as [-> | ->]; reflexivity.
Qed.

(** The split of a commentary line raises nothing. *)
Lemma commentary_split_ok (key : pystr) :
  is_commentary key = true ->
  exists v c, toFITS_split key = Ok (slice_to 7 key, v, c).
Proof.
  intros H. unfold toFITS_split. rewrite H, (commentary_key _ H).
  change (7 + 1) with 8.
  destruct (count N.eqb quote (slice_from 8 key) =? 2) eqn:Q.
  - apply Z.eqb_eq in Q.
    destruct (@getitem_ok (list N) 1 (split N.eqb [quote] (slice_from 8 key)))
      as [mid Hmid].
    { rewrite split_length, Q. lia. }
    destruct (@getitem_ok N (find N.eqb slash (slice_from 8 key)) key) as [x Hx].
    { pose proof (find_range N.eqb slash (slice_from 8 key)) as R.
      rewrite slice_from_8 in *. rewrite length_skipn in R.
      assert (0 < Z.of_nat (length key)).
      { apply is_commentary_iff in H. rewrite slice_to_7 in H.
        destruct key; [destruct H; discriminate | simpl; lia]. }
      lia. }
    rewrite Hmid, Hx. simpl. eauto.
  - destruct (0 <? find N.eqb slash key) eqn:F; [|eauto].
    apply Z.ltb_lt in F.
    destruct (@getitem_ok (list N) 0 (split N.eqb [slash] (slice_from 8 key)))
      as [v0 Hv0].
    { rewrite split_length.
      pose proof (count_nonneg N.eqb slash (slice_from 8 key)). lia. }
    destruct (@getitem_ok (list N) 1 (split N.eqb [slash] (slice_from 7 key)))
      as [c0 Hc0].
    { rewrite split_length, <- (commentary_no_slash _ H).
      assert (0 < count N.eqb slash key) by (apply find_count; lia). lia. }
    rewrite Hv0, Hc0. simpl. eauto.
Qed.

(** C4 (amended): on a line that starts with HISTORY or COMMENT type
    inference is bypassed, whatever the library functions are: the body
    of the loop is the assignment, to the header, of the first seven
    characters as key with a string value, and it raises exactly when
    that assignment does.  Value and comment are those of the quote and
    slash split of lines 162-172: when the text from index 8 has not
    exactly two quotes and the line has no slash, the value is that text
    trimmed and the comment is empty. *)
Theorem commentary_card
  (literal_eval : pystr -> result pyobj) (py_int : pystr -> result Z)
  (py_float : pystr -> result decimal)
  (header : Type) (header_set : header -> card -> result header)
  (key : pystr) :
  is_commentary key = true ->
  exists v c,
    toFITS_split key = Ok (slice_to 7 key, v, c) /\
    (forall hd,
        toFITS_line literal_eval py_int py_float header_set hd key
        = header_set hd (slice_to 7 key, VStr v, c)) /\
    (count N.eqb quote (slice_from 8 key) <> 2 -> find N.eqb slash key <= 0 ->
     v = strip (slice_from 8 key) /\ c = []).
Proof.
  intros H. destruct (commentary_split_ok _ H) as [v [c Hs]].
  exists v, c. split; [exact Hs|]. split.
  - intros hd. unfold toFITS_line, toFITS_card.
    rewrite (commentary_not_blank _ H), Hs. simpl.
    unfold toFITS_value. rewrite H. reflexivity.
  - intros Q F. unfold toFITS_split in Hs. rewrite H in Hs.
    change (7 + 1) with 8 in Hs.
    apply Z.eqb_neq in Q. rewrite Q in Hs.
    assert (F' : (0 <? find N.eqb slash key) = false) by (apply Z.ltb_ge; lia).
    rewrite F' in Hs. inversion Hs. auto.
Qed.

Lemma commentary_card_witness :
  toFITS_line_py [] (u "HISTORY New copy of dev$pix")
  = assign [] (HISTORY, VStr (u "New copy of dev$pix"), []).
Proof.
  destruct (@commentary_card ast_literal_eval builtin_int builtin_float
              assigned assign (u "HISTORY New copy of dev$pix") eq_refl)
    as [v [c [_ [Hc Hv]]]].
  destruct Hv as [-> ->]; [vm_compute; discriminate | vm_compute; discriminate |].
  exact (Hc []).
Defined.

(** C4, as stated, fails: a HISTORY line with a slash is split at the
    slash into a value and a comment. *)
Lemma commentary_not_verbatim :
  let key := u "HISTORY a/b" in
  is_commentary key = true /\
  toFITS_card_py key = Ok (Some (HISTORY, VStr (u "a"), u "b")) /\
  toFITS_card_py key <> Ok (Some (HISTORY, VStr (slice_from 7 key), [])).
Proof.
  repeat split. vm_compute. discriminate.
Qed.

(** C1 (amended): on a line that is neither blank nor commentary and
    whose value text is not a boolean word, whenever [ast.literal_eval]
    returns an object that is neither an [int] nor a [float], the body of
    the loop is the assignment of the value text with its leading and
    trailing quote characters removed, as a string, and it raises exactly
    when that assignment does; when [ast.literal_eval] raises, the loop
    raises the same exception and assigns nothing. *)
Theorem string_fallback
  (literal_eval : pystr -> result pyobj) (py_int : pystr -> result Z)
  (py_float : pystr -> result decimal)
  (header : Type) (header_set : header -> card -> result header)
  (key k v c : pystr) :
  str_eqb (strip key) [] = false ->
  is_commentary key = false ->
  toFITS_split key = Ok (k, v, c) ->
  is_bool_word v = false ->
  (forall t, literal_eval v = Ok t ->
             (forall z, t <> PyInt z) -> (forall x, t <> PyFloat x) ->
             forall hd,
               toFITS_line literal_eval py_int py_float header_set hd key
               = header_set hd (k, VStr (strip_with is_quote v), c)) /\
  (forall e, literal_eval v = Raise e ->
             forall hd,
               toFITS_line literal_eval py_int py_float header_set hd key
               = Raise e).
Proof.
  intros Hb Hc Hs Hw. unfold toFITS_line, toFITS_card, toFITS_value.
  rewrite Hb, Hs. cbn [bind]. rewrite Hc, Hw. cbn [negb]. split.
  - intros t Ht Hi Hf hd. rewrite Ht. simpl.
    destruct t; try reflexivity.
    + exfalso. eapply Hi. reflexivity.
    + exfalso. eapply Hf. reflexivity.
  - intros e He hd. rewrite He. reflexivity.
Qed.

Lemma string_fallback_witness :
  toFITS_line_py [] (u "FILTER  = 'V Johnson'")
  = assign [] (u "FILTER", VStr (u "V Johnson"), [quote])
  /\ toFITS_line_py [] (u "FILTER  = Johnson") = Raise ValueError.
Proof.
  split.
  - apply (@string_fallback ast_literal_eval builtin_int builtin_float
             assigned assign
             (u "FILTER  = 'V Johnson'") (u "FILTER") (u "'V Johnson'") [quote]
             eq_refl eq_refl eq_refl eq_refl) with (t := PyStr (u "V Johnson"));
      [reflexivity | discriminate | discriminate].
  - apply (@string_fallback ast_literal_eval builtin_int builtin_float
             assigned assign
             (u "FILTER  = Johnson") (u "FILTER") (u "Johnson") []
             eq_refl eq_refl eq_refl eq_refl). reflexivity.
Defined.

(** A quoted value of printable characters without a backslash is read
    as a string by the library functions modelled above: the card value
    is the text between the quotes. *)
Lemma lstrip_head_stays (A : Type) (is_ch : A -> bool) (l : list A) :
  match l with x :: _ => is_ch x = false | [] => True end ->
  lstrip is_ch l = l.
Proof.
  destruct l as [|x l]; [reflexivity|]. simpl. intros ->. reflexivity.
Qed.

Lemma plain_not_quote (l : pystr) :
  forallb (plain_char quote) l = true ->
  forallb (fun x => negb (is_quote x)) l = true.
Proof.
  intros H. rewrite forallb_forall in *. intros x Hx. specialize (H x Hx).
  unfold plain_char, is_quote in *.
  rewrite !andb_true_iff in H. tauto.
Qed.

Lemma forallb_rev (A : Type) (f : A -> bool) (l : list A) :
  forallb f (rev l) = forallb f l.
Proof.
  induction l as [|x l IH]; [reflexivity|]. simpl.
  rewrite forallb_app, IH. simpl. rewrite andb_true_r. apply andb_comm.
Qed.

Lemma strip_quotes (mid : pystr) :
  forallb (plain_char quote) mid = true ->
  strip_with is_quote ([quote] ++ mid ++ [quote]) = mid.
Proof.
  intros H. apply plain_not_quote in H. unfold strip_with, rstrip.
  destruct mid as [|c mid]; [reflexivity|].
  change (lstrip is_quote ([quote] ++ (c :: mid) ++ [quote]))
    with (lstrip is_quote ((c :: mid) ++ [quote])).
  rewrite (@lstrip_head_stays _ is_quote ((c :: mid) ++ [quote])).
  2:{ simpl in H. apply andb_true_iff in H. destruct H as [H1 _].
      apply negb_true_iff in H1. exact H1. }
  rewrite rev_app_distr.
  change (lstrip is_quote (rev [quote] ++ rev (c :: mid)))
    with (lstrip is_quote (rev (c :: mid))).
  rewrite lstrip_head_stays; [apply rev_involutive|].
  rewrite <- forallb_rev in H.
  destruct (rev (c :: mid)) as [|y r]; [exact I|].
  simpl in H. apply andb_true_iff in H. destruct H as [H1 _].
  apply negb_true_iff in H1. exact H1.
Qed.

Lemma quoted_value (key mid : pystr) :
  is_commentary key = false ->
  forallb (plain_char quote) mid = true ->
  toFITS_value ast_literal_eval builtin_int builtin_float key
    ([quote] ++ mid ++ [quote])
  = Ok (VStr mid).
Proof.
  intros Hc Hp. unfold toFITS_value. rewrite Hc. cbn [negb].
  change (is_bool_word ([quote] ++ mid ++ [quote])) with false. cbn [negb].
  assert (E : ast_literal_eval ([quote] ++ mid ++ [quote]) = Ok (PyStr mid)).
  { unfold ast_literal_eval.
    change (lstrip is_blank_char ([quote] ++ mid ++ [quote]))
      with ([quote] ++ mid ++ [quote]).
    change (parse_signed ([quote] ++ mid ++ [quote])) with (@None number).
    unfold parse_quoted. cbn [app].
    change ((quote =? 39)%N || (quote =? 34)%N) with true. cbv iota.
    rewrite rev_app_distr. cbn [rev app].
    change (quote =? quote)%N with true. cbn [andb].
    rewrite forallb_rev, Hp, rev_involutive. reflexivity. }
  rewrite E. cbn [bind]. rewrite strip_quotes by exact Hp. reflexivity.
Qed.

(** C1, as stated, fails: the value text [M31] is not a boolean word and
    is no number, and the loop raises on it. *)
Lemma bare_text_raises :
  let key := u "OBJECT  = M31" in
  toFITS_split key = Ok (u "OBJECT", u "M31", []) /\
  is_bool_word (u "M31") = false /\
  parse_signed (u "M31") = None /\
  toFITS_card_py key = Raise ValueError.
Proof. repeat split. Qed.

(** C2: on the line of the claim the comment is the single character at
    index 18 of the line, a space, which trims to the empty string; the
    value text of the split is ['M31'] and the value of the card is
    [M31]. *)
Theorem object_card :
  let key := u "OBJECT  = 'M31'            / target name" in
  find N.eqb slash (slice_from 9 key) = 18 /\
  getitem 18 key = Ok (ch " ") /\
  toFITS_split key = Ok (u "OBJECT", u "'M31'", []) /\
  toFITS_card_py key = Ok (Some (u "OBJECT", VStr (u "M31"), [])).
Proof. repeat split. Qed.

(** The comment of that line does not depend on the library functions. *)
Lemma object_card_comment
  (literal_eval : pystr -> result pyobj) (py_int : pystr -> result Z)
  (py_float : pystr -> result decimal) (k : pystr) (v : value) (c : pystr) :
  toFITS_card literal_eval py_int py_float
    (u "OBJECT  = 'M31'            / target name") = Ok (Some (k, v, c)) ->
  c = [].
Proof.
  unfold toFITS_card.
  change (str_eqb (strip (u "OBJECT  = 'M31'            / target name")) [])
    with false.
  change (toFITS_split (u "OBJECT  = 'M31'            / target name"))
    with (Ok (u "OBJECT", u "'M31'", @nil N)).
  cbn [bind]. destruct (toFITS_value _ _ _ _ _); simpl; congruence.
Qed.

(** The float example of the specification. *)
Example exptime_card :
  toFITS_card_py (u "EXPTIME =      120.5")
  = Ok (Some (u "EXPTIME", VFloat {| mantissa := 1205; exponent := -1 |}, [])).
Proof. reflexivity. Qed.

(** Integer values, and a value that is an integer literal which [int]
    refuses. *)
Example integer_cards :
  toFITS_card_py (u "NAXIS1  =                  512")
  = Ok (Some (u "NAXIS1", VInt 512, []))
  /\ toFITS_card_py (u "BITPIX  =                  -32 / bits")
     = Ok (Some (u "BITPIX", VInt (-32), u "bits"))
  /\ toFITS_card_py (u "FLAGS   = 0x10") = Raise ValueError.
Proof. repeat split. Qed.

(** ** The two constructors *)

(** Inversion of a successful sequence of calls. *)
Ltac inv_bind H :=
  repeat match type of H with
    | bind ?m _ = Ok _ =>
        let E := fresh "E" in
        destruct m eqn:E; cbn [bind] in H; [|discriminate H]
    end.

(** C10: a path whose extension is not [.imh] makes the header
    constructor raise before any file is opened, and likewise the pixel
    file constructor on an extension that is not [.pix]; an object is only
    ever returned for a path with the right extension. *)
Theorem extension_guard (cfg : config) (fs : filesystem) (path : pystr) :
  (snd (splitext (basename path)) <> u ".imh" ->
   OIFHeader_init cfg fs path
   = ([], Raise (Exception "Unknown image header extension"))) /\
  (snd (splitext (basename path)) <> u ".pix" ->
   OIFPixfile_init cfg fs path
   = ([], Raise (Exception "Unknown image pixfile extension"))) /\
  (forall t h, OIFHeader_init cfg fs path = (t, Ok h) ->
               snd (splitext (basename path)) = u ".imh") /\
  (forall t o, OIFPixfile_init cfg fs path = (t, Ok o) ->
               snd (splitext (basename path)) = u ".pix").
Proof.
  unfold OIFHeader_init, OIFPixfile_init. repeat split.
  - intros H. rewrite (str_eqb_neq H). reflexivity.
  - intros H. rewrite (str_eqb_neq H). reflexivity.
  - intros t h H.
    destruct (str_eqb (snd (splitext (basename path))) (u ".imh")) eqn:E.
    + apply str_eqb_eq. exact E.
    + simpl in H. inversion H.
  - intros t o H.
    destruct (str_eqb (snd (splitext (basename path))) (u ".pix")) eqn:E.
    + apply str_eqb_eq. exact E.
    + simpl in H. inversion H.
Qed.

Lemma extension_guard_witness :
  OIFHeader_init cfg_little (one_file (u "data/m31.pix") V1HDR_MAGIC_LITTLE_ENDIAN)
    (u "data/m31.pix")
  = ([], Raise (Exception "Unknown image header extension"))
  /\ OIFPixfile_init cfg_little (one_file (u "data/m31.imh") V1PIX_MAGIC_LITTLE_ENDIAN)
       (u "data/m31.imh")
     = ([], Raise (Exception "Unknown image pixfile extension")).
Proof.
  split.
  - apply (extension_guard cfg_little
             (one_file (u "data/m31.pix") V1HDR_MAGIC_LITTLE_ENDIAN)
             (u "data/m31.pix")).
    vm_compute. discriminate.
  - apply (extension_guard cfg_little
             (one_file (u "data/m31.imh") V1PIX_MAGIC_LITTLE_ENDIAN)
             (u "data/m31.imh")).
    vm_compute. discriminate.
Defined.

Lemma type_is_false (t : option Z) (code : Z) :
  t <> Some code -> match t with Some x => x =? code | None => false end = false.
Proof.
  destruct t as [x|]; [|reflexivity]. intros H.
  apply Z.eqb_neq. congruence.
Qed.

(** C3 (amended): with the debug option off, a buffer whose file type is
    neither [V1HDR] nor [V2HDR] makes the header constructor raise
    nothing: it returns an object that holds the detected type and swap
    flag, an empty title and user area, and no header, keywords, pixel
    type, dimensions, history or date. *)
Theorem non_header_role
  (cfg : config) (fs : filesystem) (path : pystr) (content : bytes) :
  snd (splitext (basename path)) = u ".imh" ->
  fs path = Ok content ->
  fst (fileType cfg content) <> Some V1HDR ->
  fst (fileType cfg content) <> Some V2HDR ->
  debug cfg = false ->
  OIFHeader_init cfg fs path = ([path], Ok (blank_header cfg path content)).
Proof.
  intros Hext Hfs H1 H2 Hd. unfold OIFHeader_init.
  rewrite Hext. change (str_eqb (u ".imh") (u ".imh")) with true. cbn [negb].
  rewrite Hfs. cbn [bind]. f_equal.
  unfold OIFHeader_parse, blank_header.
  destruct (fileType cfg content) as [type swap]. cbn [fst snd] in *.
  rewrite (type_is_false H1), (type_is_false H2). cbn [bind].
  unfold printHdr_header. rewrite Hd. reflexivity.
Qed.

Lemma non_header_role_witness :
  OIFHeader_init cfg_little (one_file (u "m31.imh") V1PIX_MAGIC_LITTLE_ENDIAN)
    (u "m31.imh")
  = ([u "m31.imh"],
     Ok (blank_header cfg_little (u "m31.imh") V1PIX_MAGIC_LITTLE_ENDIAN)).
Proof.
  apply (@non_header_role cfg_little
           (one_file (u "m31.imh") V1PIX_MAGIC_LITTLE_ENDIAN) (u "m31.imh")
           V1PIX_MAGIC_LITTLE_ENDIAN);
    try reflexivity; vm_compute; discriminate.
Defined.

(** With the debug option on, the same buffer makes [printHdr] raise on
    the first name or attribute that is not bound. *)
Lemma non_header_role_debug
  (cfg : config) (path : pystr) (content : bytes) :
  fst (fileType cfg content) <> Some V1HDR ->
  fst (fileType cfg content) <> Some V2HDR ->
  debug cfg = true ->
  OIFHeader_parse cfg path content
  = Raise (match global_path cfg with Some _ => AttributeError | None => NameError end).
Proof.
  intros H1 H2 Hd. unfold OIFHeader_parse.
  destruct (fileType cfg content) as [type swap]. cbn [fst snd] in *.
  rewrite (type_is_false H1), (type_is_false H2). cbn [bind].
  unfold printHdr_header. rewrite Hd.
  destruct (global_path cfg); reflexivity.
Qed.

(** C3, as stated, fails: a pixel file given to the header constructor is
    detected as [V1PIX], and an object is returned. *)
Lemma pixel_role_accepted :
  let content := V1PIX_MAGIC_LITTLE_ENDIAN ++ zeros 1014 in
  fileType cfg_little content = (Some V1PIX, Some false) /\
  exists h,
    OIFHeader_init cfg_little (one_file (u "m31.imh") content) (u "m31.imh")
    = ([u "m31.imh"], Ok h).
Proof.
  split; [reflexivity|]. eexists. vm_compute. reflexivity.
Qed.

(** Inversion of every successful sequence of calls in the context. *)
Ltac inv_binds :=
  repeat match goal with
    | H : bind ?m _ = Ok _ |- _ =>
        let E := fresh "E" in
        destruct m eqn:E; cbn [bind] in H; [|discriminate H]
    | H : Ok _ = Ok _ |- _ => inversion H; subst; clear H
    end.

(** *** The lines of the user area *)

Lemma mapM_length (A B : Type) (f : A -> result B) (l : list A) (r : list B) :
  mapM f l = Ok r -> length r = length l.
Proof.
  revert r; induction l as [|x l IH]; intros r H; simpl in H.
  - inversion H. reflexivity.
  - inv_bind H. inversion H. simpl. f_equal. apply IH. reflexivity.
Qed.

(** Each line is the decoding of the piece at its place. *)
Lemma mapM_nth (A B : Type) (f : A -> result B) (l : list A) (r : list B) :
  mapM f l = Ok r ->
  forall i a, nth_error l i = Some a ->
              exists b, nth_error r i = Some b /\ f a = Ok b.
Proof.
  revert r; induction l as [|x l IH]; intros r H i a Hi; simpl in H.
  - destruct i; discriminate.
  - inv_bind H. inversion H; subst. destruct i as [|i]; simpl in *.
    + inversion Hi; subst. eauto.
    + eapply IH; eauto.
Qed.

Lemma split_go_nonempty (A : Type) (eqb : A -> A -> bool) (sep : list A)
  (l : list A) (skip : nat) (cur : list A) :
  split_go eqb sep skip cur l <> [].
Proof.
  revert skip cur; induction l as [|x l IH]; intros skip cur; simpl.
  - discriminate.
  - destruct skip; [|apply IH].
    destruct (startswith eqb sep (x :: l)); [discriminate | apply IH].
Qed.

(** [split] always returns at least one piece, so there is a last piece
    for [[:-1]] to drop. *)
Lemma split_nonempty (A : Type) (eqb : A -> A -> bool) (sep l : list A) :
  (1 <= length (split eqb sep l))%nat.
Proof.
  pose proof (@split_go_nonempty A eqb sep l O []) as H. unfold split.
  destruct (split_go eqb sep 0 [] l); [congruence | simpl; lia].
Qed.

Lemma length_removelast' (A : Type) (l : list A) :
  (1 <= length l)%nat -> (length (removelast l) + 1 = length l)%nat.
Proof.
  intros H. destruct l as [|x l]; [simpl in H; lia|]. clear H.
  revert x; induction l as [|y l IH]; intros x; [reflexivity|].
  change (removelast (x :: y :: l)) with (x :: removelast (y :: l)).
  simpl length. specialize (IH y). simpl length in IH. lia.
Qed.

(** [l[:-1]] is [removelast l]. *)
Lemma slice_to_minus_one (A : Type) (l : list A) :
  slice_to (-1) l = removelast l.
Proof.
  unfold slice_to, slice_index. change (-1 <? 0) with true. cbv iota.
  destruct l as [|x l]; [reflexivity|].
  replace (Z.to_nat (Z.of_nat (length (x :: l)) + -1)) with (length l)
    by (simpl length; lia).
  revert x; induction l as [|y l IH]; intros x; [reflexivity|].
  change (removelast (x :: y :: l)) with (x :: removelast (y :: l)).
  simpl. f_equal. apply IH.
Qed.

(** What a returned header object records of its file. *)
Lemma OIFHeader_parse_type (cfg : config) (path : pystr) (content : bytes)
  (h : OIFHeader) :
  OIFHeader_parse cfg path content = Ok h ->
  h_content h = content /\ h_type h = fst (fileType cfg content).
Proof.
  unfold OIFHeader_parse. destruct (fileType cfg content) as [type swap].
  intros H.
  destruct (match type with Some t => t =? V1HDR | None => false end);
    [|destruct (match type with Some t => t =? V2HDR | None => false end)];
    inv_binds; auto.
Qed.

(** C9: in the object of a version 1 header the keywords are the decoded
    pieces of the user area split at newlines, all but the last piece; in
    the object of a version 2 header they are all the decoded pieces. *)
Theorem keywords_lines
  (cfg : config) (fs : filesystem) (path : pystr) (t : list pystr) (h : OIFHeader) :
  OIFHeader_init cfg fs path = (t, Ok h) ->
  (h_type h = Some V1HDR ->
   let pieces := split byte_eqb [NL] (userarea_v1 (h_content h)) in
   exists ks,
     h_keywords h = Some ks /\
     mapM decode (removelast pieces) = Ok ks /\
     (length ks + 1 = length pieces)%nat) /\
  (h_type h = Some V2HDR ->
   let pieces := split byte_eqb [NL] (userarea_v2 (h_content h)) in
   exists ks,
     h_keywords h = Some ks /\
     mapM decode pieces = Ok ks /\
     length ks = length pieces).
Proof.
  unfold OIFHeader_init. intros H.
  destruct (negb (str_eqb (snd (splitext (basename path))) (u ".imh")));
    [inversion H|].
  inversion H as [[Ht Hp]]. clear H Ht.
  destruct (fs path) as [content|e]; [|discriminate]. cbn [bind] in Hp.
  destruct (OIFHeader_parse_type _ _ _ Hp) as [Hc Hty].
  unfold OIFHeader_parse in Hp.
  destruct (fileType cfg content) as [type swap]. cbn [fst] in Hty.
  split; intros Hv; rewrite Hv in Hty; subst type.
  - change (V1HDR =? V1HDR) with true in Hp. cbv iota in Hp.
    inv_binds.
    cbn [h_keywords h_content]. eexists. split; [reflexivity|].
    match goal with E : mapM _ _ = Ok _ |- _ =>
      rewrite slice_to_minus_one in E; split; [exact E|];
      rewrite (mapM_length _ _ E)
    end.
    apply length_removelast', split_nonempty.
  - change (V2HDR =? V1HDR) with false in Hp.
    change (V2HDR =? V2HDR) with true in Hp. cbv iota in Hp.
    inv_binds.
    cbn [h_keywords h_content]. eexists. split; [reflexivity|].
    split; [eassumption|].
    match goal with E : mapM _ _ = Ok _ |- _ => rewrite (mapM_length _ _ E) end.
    reflexivity.
Qed.

Lemma keywords_lines_witness :
  (exists h,
     OIFHeader_init cfg_little (one_file (u "a.imh") sample_v1_header) (u "a.imh")
     = ([u "a.imh"], Ok h) /\
     h_keywords h = Some [u "NAXIS   = 2"; u "HISTORY x"]) /\
  (exists h,
     OIFHeader_init cfg_little (one_file (u "a.imh") sample_v2_header) (u "a.imh")
     = ([u "a.imh"], Ok h) /\
     h_keywords h = Some [u "NAXIS   = 2"; u "HISTORY x"; []]).
Proof.
  split.
  - eexists. split; [vm_compute; reflexivity|].
    match goal with
    | |- h_keywords ?h = _ =>
        destruct (@keywords_lines cfg_little
                    (one_file (u "a.imh") sample_v1_header) (u "a.imh")
                    [u "a.imh"] h) as [H _]; [vm_compute; reflexivity|];
        destruct (H eq_refl) as [ks [Hk [Hm _]]]
    end.
    rewrite Hk. vm_compute in Hm. inversion Hm. reflexivity.
  - eexists. split; [vm_compute; reflexivity|].
    match goal with
    | |- h_keywords ?h = _ =>
        destruct (@keywords_lines cfg_little
                    (one_file (u "a.imh") sample_v2_header) (u "a.imh")
                    [u "a.imh"] h) as [_ H]; [vm_compute; reflexivity|];
        destruct (H eq_refl) as [ks [Hk [Hm _]]]
    end.
    rewrite Hk. vm_compute in Hm. inversion Hm. reflexivity.
Defined.

(** *** The header constructor returns *)

Lemma unpack_i_ok (ifmt : byteorder) (a b : Z) (l : bytes) :
  0 <= a -> b = a + 4 -> b <= Z.of_nat (length l) ->
  exists z, unpack_i ifmt (slice a b l) = Ok z.
Proof.
  intros Ha -> H. unfold unpack_i. rewrite slice_length by lia.
  replace (a + 4 - a) with 4 by lia. simpl. eauto.
Qed.

Lemma unpack_7i_ok (ifmt : byteorder) (a b : Z) (l : bytes) :
  0 <= a -> b = a + 28 -> b <= Z.of_nat (length l) ->
  exists zs, unpack_7i ifmt (slice a b l) = Ok zs.
Proof.
  intros Ha -> H. unfold unpack_7i. rewrite slice_length by lia.
  replace (a + 28 - a) with 28 by lia. simpl. eauto.
Qed.

(** A version 1 file of at least 112 bytes, or a version 2 file of at
    least 110 bytes, whose user area decodes gives a header object (debug
    option off), with the decoded lines as keywords. *)
Lemma OIFHeader_parse_ok
  (cfg : config) (path : pystr) (content : bytes) (ks : list pystr) :
  debug cfg = false ->
  (fst (fileType cfg content) = Some V1HDR /\ (112 <= length content)%nat /\
   mapM decode (removelast (split byte_eqb [NL] (userarea_v1 content))) = Ok ks)
  \/
  (fst (fileType cfg content) = Some V2HDR /\ (110 <= length content)%nat /\
   mapM decode (split byte_eqb [NL] (userarea_v2 content)) = Ok ks) ->
  exists h, OIFHeader_parse cfg path content = Ok h /\ h_keywords h = Some ks.
Proof.
  intros Hd H. unfold OIFHeader_parse, userarea_v1, userarea_v2 in *.
  destruct (fileType cfg content) as [type swap]. cbn [fst] in H.
  set (ifmt := int_format cfg swap).
  destruct H as [[Ht [Hl Hm]] | [Ht [Hl Hm]]]; subst type.
  - change (match Some V1HDR with Some t => t =? V1HDR | None => false end)
      with true. cbv iota.
    rewrite slice_to_minus_one, Hm. cbn [bind].
    assert (Lh : 112 <= Z.of_nat (length (slice_to 2052 content)))
      by (rewrite slice_to_length; lia).
    destruct (@unpack_i_ok ifmt 16 20 (slice_to 2052 content)) as [z1 ->];
      [lia|reflexivity|lia|].
    destruct (@unpack_i_ok ifmt 20 24 (slice_to 2052 content)) as [z2 ->];
      [lia|reflexivity|lia|].
    destruct (@unpack_7i_ok ifmt 24 52 (slice_to 2052 content)) as [z3 ->];
      [lia|reflexivity|lia|].
    destruct (@unpack_7i_ok ifmt 52 80 (slice_to 2052 content)) as [z4 ->];
      [lia|reflexivity|lia|].
    destruct (@unpack_i_ok ifmt 108 112 (slice_to 2052 content)) as [z5 ->];
      [lia|reflexivity|lia|].
    cbn [bind]. unfold printHdr_header. rewrite Hd. cbn [bind].
    eexists. split; reflexivity.
  - change (match Some V2HDR with Some t => t =? V1HDR | None => false end)
      with false.
    change (match Some V2HDR with Some t => t =? V2HDR | None => false end)
      with true. cbv iota.
    rewrite Hm. cbn [bind].
    assert (Lh : 110 <= Z.of_nat (length (slice_to 2046 content)))
      by (rewrite slice_to_length; lia).
    destruct (@unpack_i_ok ifmt 10 14 (slice_to 2046 content)) as [z1 ->];
      [lia|reflexivity|lia|].
    destruct (@unpack_i_ok ifmt 18 22 (slice_to 2046 content)) as [z2 ->];
      [lia|reflexivity|lia|].
    destruct (@unpack_7i_ok ifmt 22 50 (slice_to 2046 content)) as [z3 ->];
      [lia|reflexivity|lia|].
    destruct (@unpack_7i_ok ifmt 50 78 (slice_to 2046 content)) as [z4 ->];
      [lia|reflexivity|lia|].
    destruct (@unpack_i_ok ifmt 106 110 (slice_to 2046 content)) as [z5 ->];
      [lia|reflexivity|lia|].
    cbn [bind]. unfold printHdr_header. rewrite Hd. cbn [bind].
    eexists. split; reflexivity.
Qed.

(** ** [readPixels] *)

Lemma nth_map_lt (A B : Type) (f : A -> B) (l : list A) (i : nat) (d : A) (d' : B) :
  (i < length l)%nat -> nth i (List.map f l) d' = f (nth i l d).
Proof.
  intros H. rewrite (nth_indep _ d' (f d)) by (rewrite length_map; exact H).
  apply map_nth.
Qed.

Lemma nth_map_seq (B : Type) (f : nat -> B) (n i : nat) (d' : B) :
  (i < n)%nat -> nth i (List.map f (seq 0 n)) d' = f i.
Proof.
  intros H.
  rewrite (@nth_map_lt nat B f (seq 0 n) i O d') by (rewrite length_seq; exact H).
  rewrite seq_nth by exact H. reflexivity.
Qed.

Lemma nth_firstn_lt (A : Type) (l : list A) (n i : nat) (d : A) :
  (i < n)%nat -> nth i (firstn n l) d = nth i l d.
Proof.
  intros H. rewrite nth_firstn.
  destruct (i <? n)%nat eqn:E; [reflexivity|].
  apply Nat.ltb_ge in E. lia.
Qed.

(** The items of [np.frombuffer] have the width of the element type, and
    put one after the other they are the buffer. *)
Lemma chunks_concat (A : Type) (sz n : nat) (data : list A) :
  length data = (n * sz)%nat ->
  concat (List.map (fun i => firstn sz (skipn (i * sz) data)) (seq 0 n)) = data.
Proof.
  revert data; induction n as [|n IH]; intros data H.
  - destruct data; [reflexivity | discriminate].
  - rewrite <- cons_seq, <- seq_shift, map_cons, map_map. cbn [concat].
    etransitivity; [|apply (firstn_skipn sz data)].
    f_equal.
    transitivity
      (concat (List.map (fun i => firstn sz (skipn (i * sz) (skipn sz data)))
                 (seq 0 n)));
      [|apply IH; rewrite length_skipn; lia].
    f_equal. apply map_ext. intros i. rewrite skipn_skipn.
    do 2 f_equal. lia.
Qed.

Lemma frombuffer_items (data : bytes) (dt : dtype) (items : list bytes) :
  frombuffer data dt = Ok items ->
  length items = (length data / dt_itemsize dt)%nat /\
  Forall (fun item => length item = dt_itemsize dt) items /\
  concat items = data.
Proof.
  unfold frombuffer. destruct (dt_itemsize dt =? 0)%nat eqn:Z0; [discriminate|].
  apply Nat.eqb_neq in Z0.
  destruct (length data mod dt_itemsize dt =? 0)%nat eqn:M; [|discriminate].
  apply Nat.eqb_eq in M. intros H. inversion H; subst; clear H.
  assert (L : length data = (length data / dt_itemsize dt * dt_itemsize dt)%nat).
  { pose proof (Nat.div_mod_eq (length data) (dt_itemsize dt)). lia. }
  split; [rewrite length_map, length_seq; reflexivity|]. split.
  - apply Forall_forall. intros item Hin. apply in_map_iff in Hin.
    destruct Hin as [i [<- Hi]]. apply in_seq in Hi.
    rewrite length_firstn, length_skipn.
    assert ((i + 1) * dt_itemsize dt <= length data)%nat.
    { rewrite L. apply Nat.mul_le_mono_r. lia. }
    lia.
  - apply chunks_concat. exact L.
Qed.

(** The element types of the five numeric codes. *)
Lemma numeric_dtypes (order : byteorder) :
  let o := match order with big => ">" | little => "<" end%string in
  let dt k n := Ok {| dt_order := order; dt_kind := k; dt_itemsize := n |} in
  (code <- pixtypes TY_SHORT ;; np_dtype (o ++ code)) = dt KInt 2%nat /\
  (code <- pixtypes TY_INT ;; np_dtype (o ++ code)) = dt KInt 4%nat /\
  (code <- pixtypes TY_LONG ;; np_dtype (o ++ code)) = dt KInt 4%nat /\
  (code <- pixtypes TY_REAL ;; np_dtype (o ++ code)) = dt KFloat 4%nat /\
  (code <- pixtypes TY_DOUBLE ;; np_dtype (o ++ code)) = dt KFloat 8%nat.
Proof. destruct order; repeat split. Qed.

(** C5: for the code [TY_USHORT] the table gives ['U2'], which NumPy
    reads as a string of two four-byte characters: the items are eight
    bytes wide.  Four unsigned shorts are read as one item, and two cannot
    be read at all. *)
Theorem ushort_dtype :
  pixtypes TY_USHORT = Ok "U2"%string /\
  np_dtype "<U2"
  = Ok {| dt_order := little; dt_kind := KUnicode; dt_itemsize := 8 |} /\
  np_dtype ">U2"
  = Ok {| dt_order := big; dt_kind := KUnicode; dt_itemsize := 8 |} /\
  (let o := v1_pixobject TY_USHORT 1 [4; 1; 1; 1; 1; 1; 1] [4; 1; 1; 1; 1; 1; 1]
              (flat_map le16 [10; 20; 30; 40]) in
   option_map array_size
     (match readPixels cfg_little o with Ok o' => p_pixels o' | Raise _ => None end)
   = Some 1%nat) /\
  (let o := v1_pixobject TY_USHORT 1 [2; 1; 1; 1; 1; 1; 1] [2; 1; 1; 1; 1; 1; 1]
              (flat_map le16 [10; 20]) in
   readPixels cfg_little o = Raise ValueError).
Proof. repeat split. Qed.

(** C8 (amended): with more than two dimensions [readPixels] raises,
    whatever the rest of the object, and no pixel array is made.  The
    element type is looked up and the buffer is read first (lines
    361-363): when they succeed the exception is the one of line 372,
    when one of them raises, that exception is the one [readPixels]
    raises. *)
Theorem more_than_two_dims (cfg : config) (o : OIFPixfile) (ndim : Z) :
  p_ndim o = Some ndim -> 2 < ndim ->
  (exists e, readPixels cfg o = Raise e) /\
  (forall dt raw_pixels,
      readPixels_raw cfg o = Ok (dt, raw_pixels) ->
      readPixels cfg o
      = Raise (Exception "Error: Images >2 dimensions not supported")) /\
  (forall e, readPixels_raw cfg o = Raise e -> readPixels cfg o = Raise e).
Proof.
  intros Hn Hgt.
  assert (Hc : forall dt raw_pixels,
             readPixels_crop o dt raw_pixels
             = Raise (Exception "Error: Images >2 dimensions not supported")).
  { intros dt raw. unfold readPixels_crop. rewrite Hn. cbn [getattr bind].
    replace (ndim =? 1) with false by (symmetry; apply Z.eqb_neq; lia).
    replace (ndim =? 2) with false by (symmetry; apply Z.eqb_neq; lia).
    reflexivity. }
  unfold readPixels. split; [|split].
  - destruct (readPixels_raw cfg o) as [[dt raw]|e]; cbn [bind].
    + rewrite Hc. cbn [bind]. eauto.
    + eauto.
  - intros dt raw Hr. rewrite Hr. cbn [bind]. rewrite Hc. reflexivity.
  - intros e Hr. rewrite Hr. reflexivity.
Qed.

Lemma more_than_two_dims_witness :
  readPixels cfg_little
    (v1_pixobject TY_SHORT 3 [2; 2; 3; 1; 1; 1; 1] [2; 2; 3; 1; 1; 1; 1] ramp12)
  = Raise (Exception "Error: Images >2 dimensions not supported").
Proof.
  eapply (proj1 (proj2 (@more_than_two_dims cfg_little
            (v1_pixobject TY_SHORT 3 [2; 2; 3; 1; 1; 1; 1] [2; 2; 3; 1; 1; 1; 1] ramp12)
            3 eq_refl _))); [vm_compute; reflexivity].
  Unshelve. lia.
Defined.

(** C8, as stated, fails: with three dimensions the exception is not
    always the one about the dimensions.  A pixel type code that is not in
    the table raises [KeyError] at line 361, and a buffer that is not a
    whole number of items raises [ValueError] at line 363, before the
    number of dimensions is looked at. *)
Lemma three_dims_other_error :
  (let o := v1_pixobject 99 3 [2; 2; 3; 1; 1; 1; 1] [2; 2; 3; 1; 1; 1; 1] ramp12 in
   p_ndim o = Some 3 /\
   readPixels cfg_little o = Raise KeyError /\
   readPixels cfg_little o
   <> Raise (Exception "Error: Images >2 dimensions not supported")) /\
  (let o := v1_pixobject TY_INT 3 [1; 1; 1; 1; 1; 1; 1] [1; 1; 1; 1; 1; 1; 1]
              (flat_map le16 [1; 2; 3]) in
   p_ndim o = Some 3 /\
   readPixels cfg_little o = Raise ValueError).
Proof.
  split; [split; [reflexivity|split; [reflexivity|discriminate]]|].
  split; reflexivity.
Qed.

(** The same through the constructor, from the bytes of the file. *)
Example three_dims_file :
  OIFPixfile_init cfg_little
    (one_file (u "a.pix")
       (v1_pixfile TY_SHORT 3 [2; 2; 3; 1; 1; 1; 1] [2; 2; 3; 1; 1; 1; 1] ramp12))
    (u "a.pix")
  = ([u "a.pix"], Raise (Exception "Error: Images >2 dimensions not supported")).
Proof. vm_compute. reflexivity. Qed.

(** *** Two-dimensional images *)

(** [np.reshape(raw, (Ph, -1))] on a buffer of [Pw * Ph] items. *)
Lemma reshape_exact (A : Type) (raw : list A) (Pw Ph : Z) :
  0 < Ph -> 0 <= Pw -> Z.of_nat (length raw) = Pw * Ph ->
  reshape raw Ph
  = Ok {| nrows := Z.to_nat Ph; ncols := Z.to_nat Pw;
          rows := List.map (fun i => firstn (Z.to_nat Pw)
                                       (skipn (i * Z.to_nat Pw) raw))
                    (seq 0 (Z.to_nat Ph)) |}.
Proof.
  intros HPh HPw Hlen. unfold reshape.
  destruct (Ph <=? 0) eqn:E; [apply Z.leb_le in E; lia|].
  assert (L : length raw = (Z.to_nat Pw * Z.to_nat Ph)%nat) by nia.
  rewrite L, Nat.Div0.mod_mul. cbn [Nat.eqb].
  rewrite Nat.div_mul by lia. reflexivity.
Qed.

(** The item at [(i, j)] of the transposed and cropped array is the item
    at place [j * Pw + i] of the buffer. *)
Lemma crop_transpose_item (A : Type) (d : A) (raw : list A)
  (pw ph lw lh i j : nat) :
  (lw <= pw)%nat -> (lh <= ph)%nat -> (i < lw)%nat -> (j < lh)%nat ->
  let R := {| nrows := ph; ncols := pw;
              rows := List.map (fun r => firstn pw (skipn (r * pw) raw)) (seq 0 ph) |} in
  let M := crop (Z.of_nat lw) (Z.of_nat lh) (transpose d R) in
  length (nth i (rows M) []) = lh /\
  nth j (nth i (rows M) []) d = nth (j * pw + i) raw d.
Proof.
  intros Hw Hh Hi Hj R M. subst M. unfold crop, transpose. cbn [rows ncols nrows].
  subst R. cbn [rows ncols nrows].
  rewrite !slice_to_firstn by lia. rewrite !Nat2Z.id.
  set (T := List.map _ (seq 0 pw)).
  assert (LT : length T = pw) by (subst T; rewrite length_map, length_seq; reflexivity).
  rewrite (@nth_map_lt _ _ _ (firstn lw T) i [] [])
    by (rewrite length_firstn; lia).
  rewrite nth_firstn_lt by exact Hi.
  subst T. rewrite nth_map_seq by lia.
  rewrite slice_to_firstn by lia. rewrite Nat2Z.id.
  split.
  - rewrite length_firstn, length_map, length_map, length_seq. lia.
  - rewrite nth_firstn_lt by exact Hj.
    rewrite (@nth_map_lt _ _ _ _ j [] d)
      by (rewrite length_map, length_seq; lia).
    rewrite nth_map_seq by lia.
    rewrite nth_firstn_lt by lia.
    rewrite nth_skipn. reflexivity.
Qed.

(** C7 (amended): for a two-dimensional image whose buffer holds exactly
    [Pw * Ph] items, with [0 < Ph], [0 <= Lw <= Pw] and [0 <= Lh <= Ph],
    [readPixels] (debug off) reshapes the buffer to [Ph] rows of [Pw]
    items, transposes it and keeps the first [Lw] rows and [Lh] columns:
    the array it stores in [pixels] has shape [(Lw, Lh)] and its item
    [(i, j)] is the item at column [i] of row [j] of the physical
    storage. *)
Theorem crop_top_left
  (cfg : config) (o : OIFPixfile) (dt : dtype) (raw : list bytes)
  (Lw Lh Pw Ph : Z) (ds ps : list Z) :
  debug cfg = false ->
  readPixels_raw cfg o = Ok (dt, raw) ->
  p_ndim o = Some 2 ->
  p_dims o = Some (Lw :: Lh :: ds) ->
  p_pdims o = Some (Pw :: Ph :: ps) ->
  Z.of_nat (length raw) = Pw * Ph ->
  0 < Ph -> 0 <= Lw <= Pw -> 0 <= Lh <= Ph ->
  exists R M o',
    reshape raw Ph = Ok R /\
    nrows R = Z.to_nat Ph /\ ncols R = Z.to_nat Pw /\
    M = crop Lw Lh (transpose [] R) /\
    readPixels cfg o = Ok o' /\
    p_pixels o' = Some (Array2 dt M) /\
    nrows M = Z.to_nat Lw /\ ncols M = Z.to_nat Lh /\
    length (rows M) = Z.to_nat Lw /\
    forall i j, (i < Z.to_nat Lw)%nat -> (j < Z.to_nat Lh)%nat ->
                length (nth i (rows M) []) = Z.to_nat Lh /\
                mget [] M i j = nth (j * Z.to_nat Pw + i) raw [].
Proof.
  intros Hd Hraw Hn Hdims Hpdims Hlen HPh HLw HLh.
  eexists. eexists. eexists.
  split; [apply (@reshape_exact _ raw Pw Ph); lia|].
  split; [reflexivity|]. split; [reflexivity|]. split; [reflexivity|].
  split.
  { unfold readPixels. rewrite Hraw. cbn [bind].
    unfold readPixels_crop. rewrite Hn, Hdims, Hpdims. cbn [getattr bind].
    change (2 =? 1) with false. change (2 =? 2) with true. cbv iota.
    change (getitem 1 (Pw :: Ph :: ps)) with (Ok Ph).
    change (getitem 0 (Lw :: Lh :: ds)) with (Ok Lw).
    change (getitem 1 (Lw :: Lh :: ds)) with (Ok Lh).
    cbn [bind]. rewrite (@reshape_exact _ raw Pw Ph) by lia. cbn [bind].
    unfold readPixels_debug. rewrite Hd. reflexivity. }
  split; [reflexivity|].
  unfold crop at 1 2 3. cbn [nrows ncols rows transpose].
  split; [rewrite slice_index_nonneg by lia; lia|].
  split; [rewrite slice_index_nonneg by lia; lia|].
  split.
  { rewrite length_map, slice_to_length by lia.
    rewrite length_map, length_seq. lia. }
  intros i j Hi Hj. unfold mget.
  pose proof (@crop_transpose_item _ [] raw (Z.to_nat Pw) (Z.to_nat Ph)
                (Z.to_nat Lw) (Z.to_nat Lh) i j) as C.
  cbv zeta in C. rewrite !Z2Nat.id in C by lia.
  apply C; lia.
Qed.

Lemma crop_top_left_witness :
  exists M o',
    readPixels cfg_little ramp_object = Ok o' /\
    p_pixels o' = Some (Array2 ramp_dtype M) /\
    nrows M = 3%nat /\ ncols M = 2%nat /\
    item_int ramp_dtype (mget [] M 0 0) = Some 0 /\
    item_int ramp_dtype (mget [] M 2 1) = Some 6.
Proof.
  destruct (@crop_top_left cfg_little ramp_object ramp_dtype
              (List.map le16 [0; 1; 2; 3; 4; 5; 6; 7; 8; 9; 10; 11])
              3 2 4 3 [1; 1; 1; 1; 1] [1; 1; 1; 1; 1])
    as [R [M [o' [_ [_ [_ [_ [Hr [Hp [Hrows [Hcols [_ Hitem]]]]]]]]]]]];
    try reflexivity; try lia.
  exists M, o'. split; [exact Hr|]. split; [exact Hp|].
  split; [exact Hrows|]. split; [exact Hcols|].
  split.
  - destruct (Hitem 0%nat 0%nat) as [_ ->]; [simpl; lia | simpl; lia | reflexivity].
  - destruct (Hitem 2%nat 1%nat) as [_ ->]; [simpl; lia | simpl; lia | reflexivity].
Defined.

(** C7, as stated, fails: the sizes of the claim do not fix the layout.
    The first physical size is never read, the row length is the number
    of items divided by [Ph]: with [Pw = 4], [Ph = 3], [Lw = 3], [Lh = 2]
    and a buffer of 24 items the rows have 8 items, and item [(0, 1)] of
    the pixels is item 8 of the buffer, not item [1 * Pw + 0 = 4].  With
    [Ph = 0] (and [Lh = 0 <= Ph]) the reshape raises [ValueError]. *)
Lemma row_length_not_width :
  (let o := v1_pixobject TY_SHORT 2 [3; 2; 1; 1; 1; 1; 1] [4; 3; 1; 1; 1; 1; 1]
              (ramp12 ++ flat_map le16 [12; 13; 14; 15; 16; 17; 18; 19; 20;
                                        21; 22; 23]) in
   exists M o',
     readPixels cfg_little o = Ok o' /\
     p_pixels o' = Some (Array2 ramp_dtype M) /\
     nrows M = 3%nat /\ ncols M = 2%nat /\
     item_int ramp_dtype (mget [] M 0 1) = Some 8 /\
     item_int ramp_dtype (mget [] M 0 1) <> Some (1 * 4 + 0)) /\
  (let o := v1_pixobject TY_SHORT 2 [0; 0; 1; 1; 1; 1; 1] [4; 0; 1; 1; 1; 1; 1]
              ramp12 in
   readPixels cfg_little o = Raise ValueError).
Proof.
  split; [|reflexivity].
  eexists. eexists. split; [vm_compute; reflexivity|].
  split; [reflexivity|]. split; [reflexivity|]. split; [reflexivity|].
  split; [reflexivity | discriminate].
Qed.

(** The same through the constructor, from the bytes of the file: the
    three rows of the logical array. *)
Example ramp_file :
  match snd (OIFPixfile_init cfg_little
               (one_file (u "a.pix")
                  (v1_pixfile TY_SHORT 2 [3; 2; 1; 1; 1; 1; 1] [4; 3; 1; 1; 1; 1; 1] ramp12))
               (u "a.pix")) with
  | Ok o =>
      match p_pixels o with
      | Some (Array2 dt M) =>
          Some (nrows M, ncols M, List.map (List.map (item_int dt)) (rows M))
      | _ => None
      end
  | Raise _ => None
  end
  = Some (3%nat, 2%nat,
          [[Some 0; Some 4]; [Some 1; Some 5]; [Some 2; Some 6]]).
Proof. vm_compute. reflexivity. Qed.

(** The constructor reads exactly that object out of the bytes of the
    file before it calls [readPixels]. *)
Example ramp_file_object :
  OIFPixfile_init cfg_little
    (one_file (u "a.pix")
       (v1_pixfile TY_SHORT 2 [3; 2; 1; 1; 1; 1; 1] [4; 3; 1; 1; 1; 1; 1] ramp12))
    (u "a.pix")
  = ([u "a.pix"], readPixels cfg_little ramp_object).
Proof. vm_compute. reflexivity. Qed.


(** * Further properties *)

(** ** More on the keyword loop *)

Section SeqMoreFacts.
Variable A : Type.
Variable eqb : A -> A -> bool.
Hypothesis eqb_eq : forall x y, eqb x y = true <-> x = y.

Lemma replace_nil_length (c : A) (l : list A) :
  (length (replace eqb c [] l) <= length l)%nat.
Proof.
  unfold replace. induction l as [|x l IH]; simpl; [lia|].
  destruct (eqb x c); simpl; lia.
Qed.

Lemma replace_nil_count (c : A) (l : list A) :
  count eqb c (replace eqb c [] l) = 0.
Proof.
  unfold replace. induction l as [|x l IH]; simpl; [reflexivity|].
  destruct (eqb x c) eqn:E; simpl; [exact IH|]. rewrite E, IH. reflexivity.
Qed.

Lemma lstrip_length (is_ch : A -> bool) (l : list A) :
  (length (lstrip is_ch l) <= length l)%nat.
Proof.
  induction l as [|x l IH]; simpl; [lia|].
  destruct (is_ch x); simpl; lia.
Qed.

Lemma strip_with_length (is_ch : A -> bool) (l : list A) :
  (length (strip_with is_ch l) <= length l)%nat.
Proof.
  unfold strip_with, rstrip. rewrite length_rev.
  etransitivity; [apply lstrip_length|]. rewrite length_rev.
  apply lstrip_length.
Qed.

Lemma count_rev (c : A) (l : list A) : count eqb c (rev l) = count eqb c l.
Proof.
  induction l as [|y l IH]; [reflexivity|]. simpl.
  rewrite count_app, IH. simpl. lia.
Qed.

Lemma count_zero_iff (c : A) (l : list A) : count eqb c l = 0 <-> ~ In c l.
Proof.
  induction l as [|x l IH]; simpl; [tauto|].
  pose proof (count_nonneg eqb c l).
  destruct (eqb x c) eqn:E.
  - apply eqb_eq in E. split; [lia | intros H1; exfalso; apply H1; auto].
  - split.
    + intros H1 [H2|H2]; [|apply IH; [lia | exact H2]].
      subst x. assert (eqb c c = true) by (apply eqb_eq; reflexivity). congruence.
    + intros H1. assert (~ In c l) by tauto. apply IH in H0. lia.
Qed.

Lemma unsplit_cons (c : A) (p : list A) (ps : list (list A)) :
  ps <> [] -> unsplit c (p :: ps) = p ++ c :: unsplit c ps.
Proof. destruct ps; [congruence | reflexivity]. Qed.

(** Joining the pieces of a split gives the sequence back, and no piece
    holds the separator. *)
Lemma split_go_unsplit (c : A) (l cur : list A) :
  unsplit c (split_go eqb [c] O cur l) = rev cur ++ l.
Proof.
  revert cur; induction l as [|x l IH]; intros cur.
  - simpl. rewrite app_nil_r. reflexivity.
  - cbn [split_go startswith length Nat.sub]. rewrite andb_true_r.
    destruct (eqb x c) eqn:E.
    + apply eqb_eq in E. subst x.
      rewrite unsplit_cons by apply split_go_nonempty.
      rewrite IH. reflexivity.
    + rewrite IH. simpl. rewrite <- app_assoc. reflexivity.
Qed.

Lemma split_go_pieces (c : A) (l cur : list A) :
  count eqb c cur = 0 ->
  Forall (fun p => count eqb c p = 0) (split_go eqb [c] O cur l).
Proof.
  revert cur; induction l as [|x l IH]; intros cur H.
  - simpl. constructor; [|constructor]. rewrite count_rev. exact H.
  - cbn [split_go startswith length Nat.sub]. rewrite andb_true_r.
    destruct (eqb x c) eqn:E.
    + constructor; [rewrite count_rev; exact H|]. apply IH. reflexivity.
    + apply IH. simpl. rewrite E, H. reflexivity.
Qed.

Lemma split_unsplit (c : A) (l : list A) : unsplit c (split eqb [c] l) = l.
Proof. apply (split_go_unsplit c l []). Qed.

Lemma split_pieces (c : A) (l : list A) :
  Forall (fun p => count eqb c p = 0) (split eqb [c] l).
Proof. apply split_go_pieces. reflexivity. Qed.
End SeqMoreFacts.

Lemma slice_to_le (A : Type) (b : Z) (l : list A) :
  0 <= b -> (length (slice_to b l) <= Z.to_nat b)%nat.
Proof. intros H. rewrite slice_to_length by exact H. lia. Qed.

(** X1: the key of a card has at most eight characters, seven on a
    commentary line, and no slash. *)
Theorem split_key_field (key k v c : pystr) :
  toFITS_split key = Ok (k, v, c) ->
  (length k <= 8)%nat /\
  (is_commentary key = true -> (length k <= 7)%nat) /\
  ~ In slash k.
Proof.
  intros H.
  assert (Hk : k = replace N.eqb slash []
                 (strip (slice_to (if is_commentary key then 7 else 8) key))).
  { unfold toFITS_split in H.
    destruct (count N.eqb quote _ =? 2); [|destruct (0 <? find N.eqb slash key)];
      inv_binds; reflexivity. }
  assert (L : forall st, 0 <= st ->
              (length (replace N.eqb slash [] (strip (slice_to st key)))
               <= Z.to_nat st)%nat).
  { intros st Hst. etransitivity; [apply replace_nil_length|].
    etransitivity; [apply strip_with_length|]. apply slice_to_le. exact Hst. }
  subst k. split; [|split].
  - destruct (is_commentary key); [specialize (L 7) | specialize (L 8)]; lia.
  - intros ->. specialize (L 7). lia.
  - apply (count_zero_iff N.eqb N.eqb_eq). apply replace_nil_count.
Qed.

Lemma split_key_field_witness :
  toFITS_split (u "A/B     = 5 / c") = Ok (u "AB", u "5", u "c") /\
  (length (u "AB") <= 8)%nat /\ ~ In slash (u "AB").
Proof.
  split; [reflexivity|].
  destruct (@split_key_field (u "A/B     = 5 / c") (u "AB") (u "5") (u "c") eq_refl)
    as [H1 [_ H2]].
  split; assumption.
Defined.

(** X2: a line with exactly two quotes after the key field never raises
    in the split; its value text is the text between the two quotes with
    the quotes put back, and its comment has at most one character. *)
Theorem quoted_split (key : pystr) :
  let rest := slice_from ((if is_commentary key then 7 else 8) + 1) key in
  count N.eqb quote rest = 2 ->
  exists k v c a mid b,
    toFITS_split key = Ok (k, v, c) /\
    rest = a ++ [quote] ++ mid ++ [quote] ++ b /\
    ~ In quote a /\ ~ In quote mid /\ ~ In quote b /\
    v = [quote] ++ mid ++ [quote] /\
    (length c <= 1)%nat.
Proof.
  intros rest Q. unfold toFITS_split. fold rest.
  rewrite Q. change (2 =? 2) with true. cbv iota.
  pose proof (split_unsplit N.eqb N.eqb_eq quote rest) as U.
  pose proof (split_pieces N.eqb quote rest) as P.
  pose proof (split_length N.eqb quote rest) as L. rewrite Q in L.
  destruct (split N.eqb [quote] rest) as [|a [|mid [|b [|x xs]]]];
    simpl in L; try lia.
  inversion P as [|? ? Pa P1]; subst. inversion P1 as [|? ? Pm P2]; subst.
  inversion P2 as [|? ? Pb _]; subst.
  change (getitem 1 [a; mid; b]) with (Ok mid). cbn [bind].
  destruct (@getitem_ok N (find N.eqb slash rest) key) as [x Hx].
  { pose proof (find_range N.eqb slash rest) as R.
    assert (length rest <= length key)%nat.
    { subst rest. unfold slice_from. rewrite length_skipn. lia. }
    assert (0 < length rest)%nat.
    { rewrite <- U. simpl. rewrite length_app. simpl. lia. }
    lia. }
  rewrite Hx. cbn [bind].
  exists (replace N.eqb slash []
            (strip (slice_to (if is_commentary key then 7 else 8) key))),
    ([quote] ++ mid ++ [quote]), (strip [x]), a, mid, b.
  split; [reflexivity|]. split; [symmetry; exact U|].
  split; [apply (count_zero_iff N.eqb N.eqb_eq); exact Pa|].
  split; [apply (count_zero_iff N.eqb N.eqb_eq); exact Pm|].
  split; [apply (count_zero_iff N.eqb N.eqb_eq); exact Pb|].
  split; [reflexivity|].
  apply (strip_with_length isspace [x]).
Qed.

Lemma quoted_split_witness :
  exists k v c,
    toFITS_split (u "OBSERVER= 'E. Hubble'   / who took the image") = Ok (k, v, c) /\
    v = u "'E. Hubble'" /\ (length c <= 1)%nat.
Proof.
  destruct (@quoted_split (u "OBSERVER= 'E. Hubble'   / who took the image") eq_refl)
    as [k [v [c [a [mid [b [Hs [Hr [_ [_ [_ [Hv Hc]]]]]]]]]]]].
  exists k, v, c. split; [exact Hs|]. split; [|exact Hc].
  vm_compute in Hs. inversion Hs. reflexivity.
Defined.

(** X5: one line whose body raises before its assignment makes the whole
    loop raise, whatever the header is and whatever the assignment does
    on the lines before it. *)
Theorem keywords_one_bad_line
  (le : pystr -> result pyobj) (pi : pystr -> result Z)
  (pf : pystr -> result decimal)
  (header : Type) (header_set : header -> card -> result header) (hd : header)
  (keywords : list pystr) (key : pystr) (e : exn) :
  In key keywords -> toFITS_card le pi pf key = Raise e ->
  exists e', toFITS_keywords le pi pf header_set hd keywords = Raise e'.
Proof.
  revert hd. induction keywords as [|k rest IH]; intros hd Hin He; [contradiction|].
  simpl. destruct Hin as [->|Hin].
  - unfold toFITS_line. rewrite He. simpl. eauto.
  - destruct (toFITS_line le pi pf header_set hd k) as [hd'|e1]; [|simpl; eauto].
    cbn [bind]. apply IH; assumption.
Qed.

Lemma keywords_one_bad_line_witness :
  exists e',
    toFITS_keywords_py [] [u "EXPTIME = 120.5"; u "OBJECT  = M31"; u "HISTORY x"]
    = Raise e'.
Proof.
  apply (@keywords_one_bad_line ast_literal_eval builtin_int builtin_float
           assigned assign []
           [u "EXPTIME = 120.5"; u "OBJECT  = M31"; u "HISTORY x"]
           (u "OBJECT  = M31") ValueError).
  - right. left. reflexivity.
  - reflexivity.
Defined.

(** ** The argument loop and the search for files *)

Lemma str_in_iff (x : pystr) (l : list pystr) : str_in x l = true <-> In x l.
Proof.
  unfold str_in. rewrite existsb_exists. split.
  - intros [y [Hy E]]. apply str_eqb_eq in E. subst. exact Hy.
  - intros H. exists x. split; [exact H | apply str_eqb_eq; reflexivity].
Qed.

Lemma str_in_app (x : pystr) (l1 l2 : list pystr) :
  str_in x (l1 ++ l2) = str_in x l1 || str_in x l2.
Proof. apply existsb_app. Qed.

(** An argument that is one option is no other. *)
Ltac one_option H :=
  apply str_in_iff in H; simpl in H;
  repeat (destruct H as [H|H]; [subst; reflexivity|]); contradiction.

(** X6: the argument loop in closed form.  It stops for help exactly when
    some argument is [-h] or [--help], wherever it stands; otherwise each
    option is on when it was on before or one of its two spellings is
    given, and the files are the arguments that are no option, in their
    order, after the files already there. *)
Theorem parse_args_closed (opts : options) (files args : list pystr) :
  parse_args opts files args
  = if given help_names args then Help
    else Run {| opt_debug := opt_debug opts || given debug_names args;
                opt_list_only := opt_list_only opts || given list_names args;
                opt_verbose := opt_verbose opts || given verbose_names args;
                opt_force_swap := opt_force_swap opts || given swap_names args;
                opt_warn := opt_warn opts || given warn_names args |}
           (files ++ filter (fun arg => negb (str_in arg option_names)) args).
Proof.
  revert opts files; induction args as [|arg rest IH]; intros opts files.
  - simpl. rewrite !orb_false_r, app_nil_r. destruct opts; reflexivity.
  - cbn [parse_args given existsb filter].
    fold (given help_names rest) (given debug_names rest)
      (given list_names rest) (given verbose_names rest)
      (given swap_names rest) (given warn_names rest).
    unfold option_names. rewrite !str_in_app.
    fold help_names debug_names list_names verbose_names swap_names warn_names.
    destruct (str_in arg help_names) eqn:Hh; [reflexivity|].
    destruct (str_in arg debug_names) eqn:Hd.
    { rewrite IH. cbn [opt_debug opt_list_only opt_verbose opt_force_swap opt_warn].
      replace (str_in arg list_names) with false by (symmetry; one_option Hd).
      replace (str_in arg verbose_names) with false by (symmetry; one_option Hd).
      replace (str_in arg swap_names) with false by (symmetry; one_option Hd).
      replace (str_in arg warn_names) with false by (symmetry; one_option Hd).
      cbn [orb negb]. rewrite orb_true_r. reflexivity. }
    destruct (str_in arg list_names) eqn:Hl.
    { rewrite IH. cbn [opt_debug opt_list_only opt_verbose opt_force_swap opt_warn].
      replace (str_in arg verbose_names) with false by (symmetry; one_option Hl).
      replace (str_in arg swap_names) with false by (symmetry; one_option Hl).
      replace (str_in arg warn_names) with false by (symmetry; one_option Hl).
      cbn [orb negb]. rewrite orb_true_r. reflexivity. }
    destruct (str_in arg verbose_names) eqn:Hv.
    { rewrite IH. cbn [opt_debug opt_list_only opt_verbose opt_force_swap opt_warn].
      replace (str_in arg swap_names) with false by (symmetry; one_option Hv).
      replace (str_in arg warn_names) with false by (symmetry; one_option Hv).
      cbn [orb negb]. rewrite orb_true_r. reflexivity. }
    destruct (str_in arg swap_names) eqn:Hs.
    { rewrite IH. cbn [opt_debug opt_list_only opt_verbose opt_force_swap opt_warn].
      replace (str_in arg warn_names) with false by (symmetry; one_option Hs).
      cbn [orb negb]. rewrite orb_true_r. reflexivity. }
    destruct (str_in arg warn_names) eqn:Hw.
    { rewrite IH. cbn [opt_debug opt_list_only opt_verbose opt_force_swap opt_warn].
      cbn [orb negb]. rewrite orb_true_r. reflexivity. }
    rewrite IH. cbn [orb negb]. rewrite <- app_assoc. reflexivity.
Qed.

Section RfindFacts.
Variable A : Type.
Variable eqb : A -> A -> bool.
Hypothesis eqb_eq : forall x y, eqb x y = true <-> x = y.

Lemma eqb_refl' (x : A) : eqb x x = true.
Proof. apply eqb_eq. reflexivity. Qed.

Lemma eqb_neq' (x y : A) : x <> y -> eqb x y = false.
Proof.
  intros H. destruct (eqb x y) eqn:E; [|reflexivity].
  apply eqb_eq in E. contradiction.
Qed.

(** [rfind] gives [-1] on a sequence without the element, and otherwise
    the place of its last occurrence. *)
Lemma rfind_spec (c : A) (l : list A) :
  (rfind eqb c l = -1 /\ ~ In c l) \/
  (exists a b, l = a ++ c :: b /\ ~ In c b /\ rfind eqb c l = Z.of_nat (length a)).
Proof.
  induction l as [|x l IH].
  - left. simpl. tauto.
  - cbn [rfind]. destruct IH as [[R N] | [a [b [E [N R]]]]].
    + rewrite R. change (0 <=? -1) with false. cbv iota.
      destruct (eqb x c) eqn:X.
      * apply eqb_eq in X. subst x. right. exists [], l. auto.
      * left. split; [reflexivity|]. intros [H|H]; [|contradiction].
        subst x. rewrite eqb_refl' in X. discriminate.
    + right. exists (x :: a), b. rewrite R. subst l.
      destruct (0 <=? Z.of_nat (length a)) eqn:Z0; [|apply Z.leb_gt in Z0; lia].
      split; [reflexivity|]. split; [exact N|]. simpl length. lia.
Qed.

Lemma rfind_none (c : A) (l : list A) : ~ In c l -> rfind eqb c l = -1.
Proof.
  intros N. destruct (rfind_spec c l) as [[R _] | [a [b [E _]]]]; [exact R|].
  exfalso. apply N. subst l. apply in_or_app. right. left. reflexivity.
Qed.

Lemma rfind_last (c : A) (a b : list A) :
  ~ In c b -> rfind eqb c (a ++ c :: b) = Z.of_nat (length a).
Proof.
  intros N. induction a as [|x a IH].
  - simpl. rewrite (rfind_none c b N). change (0 <=? -1) with false.
    cbv iota. rewrite eqb_refl'. reflexivity.
  - cbn [app rfind]. rewrite IH.
    destruct (0 <=? Z.of_nat (length a)) eqn:Z0; [|apply Z.leb_gt in Z0; lia].
    simpl length. lia.
Qed.
End RfindFacts.

Lemma slice_from_app (A : Type) (a b : list A) :
  slice_from (Z.of_nat (length a)) (a ++ b) = b.
Proof.
  rewrite slice_from_skipn by lia. rewrite Nat2Z.id.
  rewrite skipn_app, skipn_all, Nat.sub_diag. reflexivity.
Qed.

Lemma slice_to_app (A : Type) (a b : list A) :
  slice_to (Z.of_nat (length a)) (a ++ b) = a.
Proof.
  rewrite slice_to_firstn by lia. rewrite Nat2Z.id.
  rewrite firstn_app, firstn_all, Nat.sub_diag. simpl. apply app_nil_r.
Qed.

(** The last component of a path has no slash. *)
Lemma basename_no_slash (p : pystr) : ~ In slash (basename p).
Proof.
  unfold basename.
  destruct (rfind_spec N.eqb N.eqb_eq slash p) as [[R N0] | [a [b [E [N0 R]]]]].
  - rewrite R. change (-1 + 1) with 0.
    rewrite slice_from_skipn by lia. exact N0.
  - rewrite R. subst p.
    replace (Z.of_nat (length a) + 1) with (Z.of_nat (length (a ++ [slash])))
      by (rewrite length_app; simpl; lia).
    change (a ++ slash :: b) with (a ++ [slash] ++ b).
    rewrite app_assoc, slice_from_app. exact N0.
Qed.

(** The last component of a name without a slash joined to a directory
    is that name. *)
Lemma basename_join (root name : pystr) :
  ~ In slash name -> basename (path_join root name) = name.
Proof.
  intros N0. unfold path_join.
  assert (S0 : startswith N.eqb [slash] name = false).
  { destruct name as [|x name]; [reflexivity|]. simpl.
    rewrite andb_true_r. apply N.eqb_neq. intros ->. apply N0. left. reflexivity. }
  rewrite S0.
  assert (J : forall a, basename (a ++ [slash] ++ name) = name).
  { intros a. unfold basename. change (a ++ [slash] ++ name) with (a ++ slash :: name).
    rewrite (rfind_last N.eqb N.eqb_eq slash a name N0).
    replace (Z.of_nat (length a) + 1) with (Z.of_nat (length (a ++ [slash])))
      by (rewrite length_app; simpl; lia).
    change (a ++ slash :: name) with (a ++ [slash] ++ name).
    rewrite app_assoc. apply slice_from_app. }
  destruct root as [|r root].
  - simpl. unfold basename. rewrite (rfind_none N.eqb N.eqb_eq slash name N0).
    change (-1 + 1) with 0. apply slice_from_skipn. lia.
  - cbn [orb]. destruct (startswith N.eqb [slash] (rev (r :: root))) eqn:E.
    + (* the directory ends with a slash *)
      destruct (rev (r :: root)) as [|y t] eqn:Rv; [simpl in E; discriminate|].
      simpl in E. rewrite andb_true_r in E. apply N.eqb_eq in E. subst y.
      apply (f_equal (@rev N)) in Rv. rewrite rev_involutive in Rv.
      rewrite Rv. simpl rev. rewrite <- app_assoc. apply J.
    + apply J.
Qed.

(** X7: [findFile] returns [None] exactly when no directory of the walk
    lists the name; otherwise it returns the name joined to the first
    directory that lists it, and the last component of that path is the
    name (for a name without a slash). *)
Theorem findFile_spec (name : pystr) (w : walked) :
  (findFile name w = None <->
   forall root dirs files, In (root, dirs, files) w -> ~ In name files) /\
  (forall p, findFile name w = Some p ->
     exists w1 root dirs files w2,
       w = w1 ++ (root, dirs, files) :: w2 /\
       (forall r d f, In (r, d, f) w1 -> ~ In name f) /\
       In name files /\ p = path_join root name /\
       (~ In slash name -> basename p = name)).
Proof.
  induction w as [|[[root dirs] files] w [IH1 IH2]].
  - split; [split; [intros _ ? ? ? [] | reflexivity] | discriminate].
  - cbn [findFile]. destruct (str_in name files) eqn:E.
    + apply str_in_iff in E. split.
      * split; [discriminate|]. intros H. exfalso.
        apply (H root dirs files); [left; reflexivity | exact E].
      * intros p Hp. inversion Hp; subst p. exists [], root, dirs, files, w.
        split; [reflexivity|]. split; [intros ? ? ? []|].
        split; [exact E|]. split; [reflexivity|]. apply basename_join.
    + assert (N0 : ~ In name files).
      { intros H. apply str_in_iff in H. congruence. }
      split.
      * rewrite IH1. split.
        -- intros H r d f [Heq|Hin]; [inversion Heq; subst; exact N0 | eauto].
        -- intros H r d f Hin. apply (H r d f). right. exact Hin.
      * intros p Hp. destruct (IH2 p Hp) as [w1 [r [d [f [w2 [Hw [Hb [Hi [Hj Hbn]]]]]]]]].
        exists ((root, dirs, files) :: w1), r, d, f, w2.
        split; [rewrite Hw; reflexivity|].
        split; [|auto].
        intros r' d' f' [Heq|Hin]; [inversion Heq; subst; exact N0 | eauto].
Qed.

(** X8: [findAll] returns exactly the files of the walk whose name
    matches the pattern, each joined to its directory. *)
Theorem findAll_spec (fnmatch : pystr -> pystr -> bool) (pattern : pystr)
  (w : walked) (p : pystr) :
  In p (findAll fnmatch pattern w) <->
  exists root dirs files name,
    In (root, dirs, files) w /\ In name files /\
    fnmatch name pattern = true /\ p = path_join root name.
Proof.
  assert (F : forall root files,
             In p (findAll_files fnmatch pattern root files) <->
             exists name, In name files /\ fnmatch name pattern = true
                          /\ p = path_join root name).
  { intros root files. induction files as [|n files IH]; simpl.
    - split; [tauto | intros [? [[] _]]].
    - destruct (fnmatch n pattern) eqn:E; simpl; rewrite IH; split.
      + intros [H | [name [H1 [H2 H3]]]]; [exists n; auto | exists name; auto].
      + intros [name [[->|H1] [H2 H3]]]; [left; auto | right; eauto].
      + intros [name [H1 [H2 H3]]]. exists name. auto.
      + intros [name [[->|H1] [H2 H3]]]; [congruence | eauto]. }
  induction w as [|[[root dirs] files] w IH]; simpl.
  - split; [tauto | intros [? [? [? [? [[] _]]]]]].
  - rewrite in_app_iff, F, IH. split.
    + intros [[name [H1 [H2 H3]]] | [r [d [f [name [H0 [H1 [H2 H3]]]]]]]].
      * exists root, dirs, files, name. auto.
      * exists r, d, f, name. auto.
    + intros [r [d [f [name [[Heq|H0] [H1 [H2 H3]]]]]]].
      * inversion Heq; subst. left. eauto.
      * right. exists r, d, f, name. auto.
Qed.

(** X9: [findFile] returns the first path [findAll] returns when the
    pattern matches a name exactly when it is equal to it. *)
Theorem findFile_first (name : pystr) (w : walked) :
  findFile name w = hd_error (findAll (fun n pat => str_eqb n pat) name w).
Proof.
  assert (F : forall root files,
             (str_in name files = true ->
              exists tl, findAll_files (fun n pat => str_eqb n pat) name root files
                         = path_join root name :: tl) /\
             (str_in name files = false ->
              findAll_files (fun n pat => str_eqb n pat) name root files = [])).
  { intros root files. induction files as [|n files [IH1 IH2]]; simpl.
    - split; [discriminate | reflexivity].
    - assert (S : str_eqb name n = str_eqb n name).
      { destruct (str_eqb n name) eqn:E.
        - apply str_eqb_eq in E. subst. apply str_eqb_eq. reflexivity.
        - apply str_eqb_neq. intros ->.
          assert (str_eqb n n = true) by (apply str_eqb_eq; reflexivity).
          congruence. }
      rewrite S. destruct (str_eqb n name) eqn:E; simpl.
      + apply str_eqb_eq in E. subst n. split; [eauto | discriminate].
      + split; assumption. }
  induction w as [|[[root dirs] files] w IH]; simpl; [reflexivity|].
  destruct (F root files) as [F1 F2].
  destruct (str_in name files) eqn:E.
  - destruct (F1 eq_refl) as [tl ->]. reflexivity.
  - rewrite (F2 eq_refl). exact IH.
Qed.

Lemma slice_zero (A : Type) (b : Z) (l : list A) : slice 0 b l = slice_to b l.
Proof.
  unfold slice, slice_to. unfold slice_index at 2 3. simpl.
  rewrite Nat.sub_0_r. reflexivity.
Qed.

Lemma slice_to_incl (A : Type) (b : Z) (l : list A) (x : A) :
  In x (slice_to b l) -> In x l.
Proof.
  unfold slice_to. intros H. rewrite <- (firstn_skipn (slice_index b (length l)) l).
  apply in_or_app. left. exact H.
Qed.

(** The extension of a name [root ++ ext], where [ext] is a dot followed
    by characters that are no dot, and [root] has no slash and is not
    made of dots only. *)
Lemma splitext_app (root ext' : pystr) :
  ~ In slash root -> ~ In slash ext' -> ~ In dot ext' ->
  forallb (N.eqb dot) root = false ->
  splitext (root ++ dot :: ext') = (root, dot :: ext').
Proof.
  intros Hs Hs' Hd Hr. unfold splitext.
  assert (Ns : ~ In slash (root ++ dot :: ext')).
  { intros H. apply in_app_or in H. destruct H as [H|[H|H]]; auto. discriminate. }
  rewrite (rfind_none N.eqb N.eqb_eq slash _ Ns).
  rewrite (rfind_last N.eqb N.eqb_eq dot root ext' Hd).
  destruct (-1 <? Z.of_nat (length root)) eqn:L; [|apply Z.ltb_ge in L; lia].
  change (-1 + 1) with 0. rewrite slice_zero, slice_to_app, Hr.
  rewrite slice_from_app. reflexivity.
Qed.

(** X10: for an argument with the extension [.imh], the pixel file name
    the main loop searches for is the root with [.pix]; whatever the
    directory [findFile] joins it to, the path has that name as last
    component and [.pix] as extension, so the extension test of
    [OIFPixfile] passes.  The directory searched is never empty. *)
Theorem pixel_search_extension (f name dir : pystr) :
  pixel_search f = Some (name, dir) ->
  name = fst (splitext (basename f)) ++ u ".pix" /\
  dir <> [] /\
  forall root,
    basename (path_join root name) = name /\
    snd (splitext (basename (path_join root name))) = u ".pix".
Proof.
  unfold pixel_search. intros H.
  destruct (str_eqb (snd (splitext (basename f))) (u ".imh")) eqn:E; [|discriminate].
  apply str_eqb_eq in E. split; [inversion H; reflexivity|]. split.
  { destruct (str_eqb (dirname f) []) eqn:D; inversion H as [[Hn Hd]];
      [discriminate|].
    intros H0. rewrite H0 in D. discriminate D. }
  assert (Hn : name = fst (splitext (basename f)) ++ u ".pix")
    by (inversion H; reflexivity).
  subst name. clear H.
  (* the root has no slash and is not made of dots *)
  pose proof (basename_no_slash f) as Nb.
  set (base := basename f) in *.
  assert (R : ~ In slash (fst (splitext base))
              /\ forallb (N.eqb dot) (fst (splitext base)) = false).
  { unfold splitext in *.
    destruct (rfind N.eqb slash base <? rfind N.eqb dot base) eqn:L;
      [|simpl in E; discriminate].
    rewrite (rfind_none N.eqb N.eqb_eq slash base Nb) in *.
    change (-1 + 1) with 0 in *. rewrite slice_zero in *.
    destruct (forallb (N.eqb dot) (slice_to (rfind N.eqb dot base) base)) eqn:F;
      [simpl in E; discriminate|].
    cbn [fst]. split; [|exact F].
    intros H. apply Nb. eapply slice_to_incl. exact H. }
  destruct R as [R1 R2].
  assert (Nn : ~ In slash (fst (splitext base) ++ u ".pix")).
  { intros H. apply in_app_or in H. destruct H as [H|H]; [auto|].
    simpl in H. repeat (destruct H as [H|H]; [discriminate|]). exact H. }
  intros root. rewrite (basename_join root _ Nn). split; [reflexivity|].
  change (u ".pix") with (dot :: u "pix").
  rewrite splitext_app; [reflexivity | exact R1 | | | exact R2].
  - simpl. intros H. repeat (destruct H as [H|H]; [discriminate|]). exact H.
  - simpl. intros H. repeat (destruct H as [H|H]; [discriminate|]). exact H.
Qed.

Lemma pixel_search_extension_witness :
  pixel_search (u "data/m31.imh") = Some (u "m31.pix", u "data") /\
  snd (splitext (basename (path_join (u "data/raw") (u "m31.pix")))) = u ".pix".
Proof.
  split; [reflexivity|].
  destruct (@pixel_search_extension (u "data/m31.imh") (u "m31.pix") (u "data") eq_refl)
    as [_ [_ H]].
  apply H.
Defined.

(** ** More on the header constructor *)

Lemma slice_index_le (i : Z) (len : nat) : (slice_index i len <= len)%nat.
Proof.
  unfold slice_index. destruct (i <? 0) eqn:E; [apply Z.ltb_lt in E|]; lia.
Qed.

Lemma slice_length_any (A : Type) (a b : Z) (l : list A) :
  length (slice a b l)
  = (slice_index b (length l) - slice_index a (length l))%nat.
Proof.
  unfold slice. rewrite length_firstn, length_skipn.
  pose proof (slice_index_le b (length l)). lia.
Qed.

(** A slice that reaches past the end of the buffer is too short to
    unpack. *)
Lemma unpack_i_short (ifmt : byteorder) (a b : Z) (l : bytes) :
  0 <= a -> b = a + 4 -> Z.of_nat (length l) < b ->
  unpack_i ifmt (slice a b l) = Raise StructError.
Proof.
  intros Ha -> H. unfold unpack_i. rewrite slice_length_any.
  rewrite !slice_index_nonneg by lia.
  destruct (_ =? 4)%nat eqn:E; [|reflexivity].
  apply Nat.eqb_eq in E. lia.
Qed.

Lemma unpack_i_cases (ifmt : byteorder) (b : bytes) :
  unpack_i ifmt b = Raise StructError \/ exists z, unpack_i ifmt b = Ok z.
Proof. unfold unpack_i. destruct (_ =? 4)%nat; eauto. Qed.

Lemma unpack_7i_cases (ifmt : byteorder) (b : bytes) :
  unpack_7i ifmt b = Raise StructError \/ exists zs, unpack_7i ifmt b = Ok zs.
Proof. unfold unpack_7i. destruct (_ =? 28)%nat; eauto. Qed.

(** Steps over the calls of [struct.unpack] that come before the one
    known to fail. *)
Ltac unpack_steps :=
  repeat match goal with
    | |- bind (unpack_i ?f ?b) _ = Raise StructError =>
        destruct (unpack_i_cases f b) as [-> | [? ->]]; cbn [bind];
        [reflexivity|]
    | |- bind (unpack_7i ?f ?b) _ = Raise StructError =>
        destruct (unpack_7i_cases f b) as [-> | [? ->]]; cbn [bind];
        [reflexivity|]
    end.

Lemma short_userarea (content : bytes) (n : Z) :
  Z.of_nat (length content) <= n -> slice_from n content = [].
Proof.
  intros H. rewrite slice_from_skipn by lia. apply skipn_all2. lia.
Qed.

(** X11: a header file cut short raises [struct.error]: a version 1 file
    of fewer than 112 bytes, a version 2 file of fewer than 110 bytes. *)
Theorem header_truncated (cfg : config) (path : pystr) (content : bytes) :
  (fst (fileType cfg content) = Some V1HDR -> (length content < 112)%nat ->
   OIFHeader_parse cfg path content = Raise StructError) /\
  (fst (fileType cfg content) = Some V2HDR -> (length content < 110)%nat ->
   OIFHeader_parse cfg path content = Raise StructError).
Proof.
  unfold OIFHeader_parse.
  destruct (fileType cfg content) as [type swap]. cbn [fst].
  set (ifmt := int_format cfg swap).
  split; intros -> Hlen.
  - change (V1HDR =? V1HDR) with true. cbv iota.
    rewrite (@short_userarea content 2052) by lia.
    change (mapM decode (slice_to (-1) (split byte_eqb [NL] (replace byte_eqb NUL [] []))))
      with (@Ok (list pystr) []).
    cbn [bind].
    assert (Hd : unpack_i ifmt (slice 108 112 (slice_to 2052 content))
                 = Raise StructError).
    { apply unpack_i_short; [lia | reflexivity|].
      rewrite slice_to_length by lia. lia. }
    match goal with
    | |- bind ?m _ = _ =>
        assert (Hm : m = Raise StructError);
        [rewrite Hd; unpack_steps; reflexivity | rewrite Hm; reflexivity]
    end.
  - change (V2HDR =? V1HDR) with false. change (V2HDR =? V2HDR) with true.
    cbv iota.
    rewrite (@short_userarea content 2046) by lia.
    change (mapM decode (split byte_eqb [NL] (replace byte_eqb NUL [] [])))
      with (@Ok (list pystr) [[]]).
    cbn [bind].
    assert (Hd : unpack_i ifmt (slice 106 110 (slice_to 2046 content))
                 = Raise StructError).
    { apply unpack_i_short; [lia | reflexivity|].
      rewrite slice_to_length by lia. lia. }
    match goal with
    | |- bind ?m _ = _ =>
        assert (Hm : m = Raise StructError);
        [rewrite Hd; unpack_steps; reflexivity | rewrite Hm; reflexivity]
    end.
Qed.

Lemma header_truncated_witness :
  OIFHeader_parse cfg_little (u "a.imh") (V1HDR_MAGIC_LITTLE_ENDIAN ++ zeros 101)
  = Raise StructError
  /\ OIFHeader_parse cfg_little (u "a.imh") (V2HDR_MAGIC ++ zeros 104)
     = Raise StructError.
Proof.
  split.
  - apply (proj1 (header_truncated cfg_little (u "a.imh")
                    (V1HDR_MAGIC_LITTLE_ENDIAN ++ zeros 101)));
      [reflexivity | simpl; lia].
  - apply (proj2 (header_truncated cfg_little (u "a.imh")
                    (V2HDR_MAGIC ++ zeros 104)));
      [reflexivity | simpl; lia].
Defined.

Lemma seq_eqb_length (A : Type) (eqb : A -> A -> bool) (l1 l2 : list A) :
  seq_eqb eqb l1 l2 = true -> length l1 = length l2.
Proof.
  revert l2; induction l1 as [|x l1 IH]; intros [|y l2]; simpl; try discriminate;
    [reflexivity|].
  rewrite andb_true_iff. intros [_ H]. f_equal. apply IH. exact H.
Qed.

Lemma bytes_eqb_length (a b : bytes) :
  length a <> length b -> bytes_eqb a b = false.
Proof.
  intros H. destruct (bytes_eqb a b) eqn:E; [|reflexivity].
  apply seq_eqb_length in E. contradiction.
Qed.

(** X12: the file type is decided by the first ten bytes alone; a buffer
    of fewer than five bytes, the empty one included, has no type, and a
    buffer of fewer than ten bytes is never taken for a version 1 file. *)
Theorem fileType_prefix (cfg : config) (data : bytes) :
  fileType cfg data = fileType cfg (slice_to 10 data) /\
  ((length data < 5)%nat -> fileType cfg data = (None, None)) /\
  ((length data < 10)%nat ->
   fst (fileType cfg data) <> Some V1HDR /\ fst (fileType cfg data) <> Some V1PIX).
Proof.
  split; [|split].
  - unfold fileType. rewrite (@slice_to_slice_to _ 10 10 data) by lia. reflexivity.
  - intros H. unfold fileType.
    assert (L10 : length (slice_to 10 data) = length data)
      by (rewrite slice_to_length; lia).
    assert (L5 : length (slice_to 5 (slice_to 10 data)) = length data)
      by (rewrite !slice_to_length; lia).
    unfold V1HDR_MAGIC_BIG_ENDIAN, V1PIX_MAGIC_BIG_ENDIAN,
      V1HDR_MAGIC_LITTLE_ENDIAN, V1PIX_MAGIC_LITTLE_ENDIAN, V2HDR_MAGIC,
      V2PIX_MAGIC.
    rewrite !(@bytes_eqb_length (slice_to 10 data))
      by (rewrite L10; cbn [length]; lia).
    rewrite !(@bytes_eqb_length (slice_to 5 (slice_to 10 data)))
      by (rewrite L5; cbn [length]; lia).
    reflexivity.
  - intros H. unfold fileType.
    assert (L10 : length (slice_to 10 data) = length data)
      by (rewrite slice_to_length; lia).
    unfold V1HDR_MAGIC_BIG_ENDIAN, V1PIX_MAGIC_BIG_ENDIAN,
      V1HDR_MAGIC_LITTLE_ENDIAN, V1PIX_MAGIC_LITTLE_ENDIAN.
    rewrite !(@bytes_eqb_length (slice_to 10 data))
      by (rewrite L10; cbn [length]; lia).
    destruct (bytes_eqb _ V2HDR_MAGIC); [split; discriminate|].
    destruct (bytes_eqb _ V2PIX_MAGIC); split; discriminate.
Qed.

Lemma fileType_prefix_witness :
  fileType cfg_little [] = (None, None) /\
  fst (fileType cfg_little (V2HDR_MAGIC ++ zeros 2)) <> Some V1HDR.
Proof.
  split.
  - apply (proj1 (proj2 (fileType_prefix cfg_little []))). simpl. lia.
  - apply (proj2 (proj2 (fileType_prefix cfg_little (V2HDR_MAGIC ++ zeros 2)))).
    simpl. lia.
Defined.

(** X13: the byte order in which the header integers are read.  Without
    the forced swap, a big-endian host reads them least significant byte
    first whatever the file; a little-endian host reads a version 1 file
    in the order of its magic string and a version 2 file most
    significant byte first.  The forced swap gives the other order. *)
Theorem header_int_order (cfg : config) (data : bytes) :
  let fmt c := int_format c (snd (fileType c data)) in
  (force_swap cfg = false -> sys_byteorder cfg = big -> fmt cfg = little) /\
  (force_swap cfg = false -> sys_byteorder cfg = little ->
   (slice_to 10 data = V1HDR_MAGIC_BIG_ENDIAN -> fmt cfg = big) /\
   (slice_to 10 data = V1PIX_MAGIC_BIG_ENDIAN -> fmt cfg = big) /\
   (slice_to 10 data = V1HDR_MAGIC_LITTLE_ENDIAN -> fmt cfg = little) /\
   (slice_to 10 data = V1PIX_MAGIC_LITTLE_ENDIAN -> fmt cfg = little) /\
   (slice_to 5 data = V2HDR_MAGIC -> fmt cfg = big) /\
   (slice_to 5 data = V2PIX_MAGIC -> fmt cfg = big)) /\
  fmt (with_force_swap true cfg) = flip_order (fmt (with_force_swap false cfg)).
Proof.
  intros fmt. subst fmt. cbv beta. split; [|split].
  - intros Hf Hh. unfold int_format. rewrite Hf, Hh. reflexivity.
  - intros Hf Hh. unfold int_format, fileType. rewrite Hf, Hh.
    repeat split.
    + intros ->. reflexivity.
    + intros ->. reflexivity.
    + intros ->. reflexivity.
    + intros ->. reflexivity.
    + intros H. rewrite magic_prefix.
      rewrite !(@v2_excludes data _ _ H) by (vm_compute; discriminate).
      rewrite H. reflexivity.
    + intros H. rewrite magic_prefix.
      rewrite !(@v2_excludes data _ _ H) by (vm_compute; discriminate).
      rewrite H. reflexivity.
  - change (fileType (with_force_swap true cfg) data) with (fileType cfg data).
    change (fileType (with_force_swap false cfg) data) with (fileType cfg data).
    unfold int_format. cbn [force_swap sys_byteorder with_force_swap].
    destruct (byteorder_eqb (sys_byteorder cfg) little
              && match snd (fileType cfg data) with
                 | Some b => b
                 | None => false
                 end); reflexivity.
Qed.

Lemma header_int_order_witness :
  int_format cfg_big (snd (fileType cfg_big (V2HDR_MAGIC ++ zeros 5))) = little /\
  int_format cfg_little
    (snd (fileType cfg_little (V1HDR_MAGIC_BIG_ENDIAN ++ zeros 5))) = big.
Proof.
  split.
  - apply (proj1 (header_int_order cfg_big (V2HDR_MAGIC ++ zeros 5)));
      reflexivity.
  - destruct (proj1 (proj2 (header_int_order cfg_little
                              (V1HDR_MAGIC_BIG_ENDIAN ++ zeros 5)))
                eq_refl eq_refl) as [H _].
    apply H. reflexivity.
Defined.

(** *** The range of the decoded integers *)

Lemma byte_val_range (b : byte) : 0 <= byte_val b < 256.
Proof.
  unfold byte_val. pose proof (Byte.to_N_bounded b). lia.
Qed.

Lemma uint_big_range_acc (bs : bytes) (acc : Z) :
  0 <= acc ->
  0 <= fold_left (fun a b => a * 256 + byte_val b) bs acc
    < (acc + 1) * 256 ^ Z.of_nat (length bs).
Proof.
  revert acc; induction bs as [|b bs IH]; intros acc Ha.
  - simpl. lia.
  - cbn [fold_left length]. pose proof (byte_val_range b) as Hb.
    specialize (IH (acc * 256 + byte_val b) ltac:(lia)).
    rewrite Nat2Z.inj_succ, Z.pow_succ_r by lia.
    split; [lia|].
    eapply Z.lt_le_trans; [apply IH|].
    assert (0 < 256 ^ Z.of_nat (length bs)) by (apply Z.pow_pos_nonneg; lia).
    nia.
Qed.

Lemma uint_range (order : byteorder) (bs : bytes) :
  0 <= uint order bs < 256 ^ Z.of_nat (length bs).
Proof.
  pose proof (@uint_big_range_acc bs 0 ltac:(lia)) as H1.
  pose proof (@uint_big_range_acc (rev bs) 0 ltac:(lia)) as H2.
  rewrite length_rev in H2.
  destruct order; unfold uint, uint_big; lia.
Qed.

Lemma to_signed_range (x : Z) :
  0 <= x < 2 ^ 32 -> - 2 ^ 31 <= to_signed 32 x < 2 ^ 31.
Proof.
  intros H. unfold to_signed. change (32 - 1) with 31.
  destruct (x <? 2 ^ 31) eqn:E;
    [apply Z.ltb_lt in E | apply Z.ltb_ge in E]; lia.
Qed.

Lemma unpack_i_range (ifmt : byteorder) (b : bytes) (z : Z) :
  unpack_i ifmt b = Ok z -> int32 z.
Proof.
  unfold unpack_i. destruct (length b =? 4)%nat eqn:E; [|discriminate].
  apply Nat.eqb_eq in E. intros H. inversion H; subst.
  apply to_signed_range. pose proof (uint_range ifmt b) as R.
  rewrite E in R. exact R.
Qed.

Lemma unpack_7i_range (ifmt : byteorder) (b : bytes) (zs : list Z) :
  unpack_7i ifmt b = Ok zs -> length zs = 7%nat /\ Forall int32 zs.
Proof.
  unfold unpack_7i. destruct (length b =? 28)%nat eqn:E; [|discriminate].
  apply Nat.eqb_eq in E. intros H. inversion H; subst. split; [reflexivity|].
  repeat constructor; apply to_signed_range;
    match goal with
    | |- context [uint ?f (slice ?a0 ?b0 ?l)] =>
        pose proof (uint_range f (slice a0 b0 l)) as R;
        rewrite slice_length in R by lia;
        match type of R with
        | context [256 ^ ?e] =>
            let v := eval vm_compute in (256 ^ e) in
            change (256 ^ e) with v in R
        end;
        change (2 ^ 32) with 4294967296; exact R
    end.
Qed.

Lemma slice_of_slice_to (A : Type) (a b n : Z) (l : list A) :
  0 <= a <= b -> b <= n -> slice a b (slice_to n l) = slice a b l.
Proof.
  intros Hab Hn. unfold slice.
  rewrite slice_to_firstn by lia. rewrite length_firstn.
  rewrite !slice_index_nonneg by lia.
  replace (Nat.min (Z.to_nat b) (Nat.min (Z.to_nat n) (length l)))
    with (Nat.min (Z.to_nat b) (length l)) by lia.
  replace (Nat.min (Z.to_nat a) (Nat.min (Z.to_nat n) (length l)))
    with (Nat.min (Z.to_nat a) (length l)) by lia.
  rewrite skipn_firstn_comm, firstn_firstn. f_equal. lia.
Qed.

(** X14: the integers of a header object are the signed 32-bit values
    stored in the file, read in the byte order of the file type: the
    pixel type, the number of dimensions, the seven logical and the seven
    physical sizes at bytes 16, 20, 24 and 52 of a version 1 file (10, 18,
    22 and 50 of a version 2 file), and the date is the integer at byte
    108 (106) plus the epoch constant.  Each lies between [-2^31] and
    [2^31 - 1]. *)
Theorem header_fields_range
  (cfg : config) (path : pystr) (content : bytes) (h : OIFHeader) :
  OIFHeader_parse cfg path content = Ok h ->
  h_type h = Some V1HDR \/ h_type h = Some V2HDR ->
  exists pixtype ndim dims pdims date,
    h_pixtype h = Some pixtype /\ h_ndim h = Some ndim /\
    h_dims h = Some dims /\ h_pdims h = Some pdims /\
    h_date h = Some (date + EPOCH_1980) /\
    int32 pixtype /\ int32 ndim /\ int32 date /\
    length dims = 7%nat /\ Forall int32 dims /\
    length pdims = 7%nat /\ Forall int32 pdims /\
    let ifmt := int_format cfg (snd (fileType cfg content)) in
    (h_type h = Some V1HDR ->
     unpack_i ifmt (slice 16 20 content) = Ok pixtype /\
     unpack_i ifmt (slice 20 24 content) = Ok ndim /\
     unpack_7i ifmt (slice 24 52 content) = Ok dims /\
     unpack_7i ifmt (slice 52 80 content) = Ok pdims /\
     unpack_i ifmt (slice 108 112 content) = Ok date) /\
    (h_type h = Some V2HDR ->
     unpack_i ifmt (slice 10 14 content) = Ok pixtype /\
     unpack_i ifmt (slice 18 22 content) = Ok ndim /\
     unpack_7i ifmt (slice 22 50 content) = Ok dims /\
     unpack_7i ifmt (slice 50 78 content) = Ok pdims /\
     unpack_i ifmt (slice 106 110 content) = Ok date).
Proof.
  intros Hp Ht.
  destruct (OIFHeader_parse_type _ _ _ Hp) as [_ Hty].
  unfold OIFHeader_parse in Hp.
  destruct (fileType cfg content) as [type swap]. cbn [fst snd] in *.
  rewrite Hty in Ht.
  destruct Ht as [Ht | Ht]; subst type.
  - change (V1HDR =? V1HDR) with true in Hp. cbv iota in Hp. inv_binds.
    cbn [h_pixtype h_ndim h_dims h_pdims h_date h_type].
    rewrite !slice_of_slice_to in * by lia.
    do 5 eexists.
    repeat match goal with
           | |- _ /\ _ => apply conj
           end;
      try reflexivity;
      try (intros Hv; first [ discriminate Hv | clear Hv ]);
      repeat match goal with
             | |- _ /\ _ => apply conj
             end;
      try eassumption;
      try match goal with
          | E : unpack_i _ _ = Ok ?z |- int32 ?z =>
              exact (unpack_i_range _ _ E)
          | E : unpack_7i _ _ = Ok ?z |- length ?z = _ =>
              exact (proj1 (unpack_7i_range _ _ E))
          | E : unpack_7i _ _ = Ok ?z |- Forall int32 ?z =>
              exact (proj2 (unpack_7i_range _ _ E))
          end.
  - change (V2HDR =? V1HDR) with false in Hp.
    change (V2HDR =? V2HDR) with true in Hp. cbv iota in Hp. inv_binds.
    cbn [h_pixtype h_ndim h_dims h_pdims h_date h_type].
    rewrite !slice_of_slice_to in * by lia.
    do 5 eexists.
    repeat match goal with
           | |- _ /\ _ => apply conj
           end;
      try reflexivity;
      try (intros Hv; first [ discriminate Hv | clear Hv ]);
      repeat match goal with
             | |- _ /\ _ => apply conj
             end;
      try eassumption;
      try match goal with
          | E : unpack_i _ _ = Ok ?z |- int32 ?z =>
              exact (unpack_i_range _ _ E)
          | E : unpack_7i _ _ = Ok ?z |- length ?z = _ =>
              exact (proj1 (unpack_7i_range _ _ E))
          | E : unpack_7i _ _ = Ok ?z |- Forall int32 ?z =>
              exact (proj2 (unpack_7i_range _ _ E))
          end.
Qed.

Lemma header_fields_range_witness :
  exists h pixtype date,
    OIFHeader_parse cfg_little (u "a.imh") sample_v1_header = Ok h /\
    h_pixtype h = Some pixtype /\ int32 pixtype /\
    h_date h = Some (date + EPOCH_1980) /\
    unpack_i little (slice 108 112 sample_v1_header) = Ok date.
Proof.
  eexists.
  match goal with
  | |- exists p d, OIFHeader_parse ?c ?pa ?co = Ok ?h /\ _ =>
      assert (Hp : OIFHeader_parse c pa co = Ok h) by (vm_compute; reflexivity);
      destruct (@header_fields_range c pa co h Hp (or_introl eq_refl))
        as (pixtype & ndim & dims & pdims & date
            & H1 & _ & _ & _ & H5 & H2 & _ & _ & _ & _ & _ & _ & H6)
  end.
  cbv zeta in H6. destruct H6 as [H6 _].
  exists pixtype, date. split; [exact Hp|]. split; [exact H1|].
  split; [exact H2|]. split; [exact H5|].
  exact (proj2 (proj2 (proj2 (proj2 (H6 eq_refl))))).
Defined.

(** *** The text of the keywords, the history and the title *)

Lemma replace_nil_incl (A : Type) (eqb : A -> A -> bool) (c x : A) (l : list A) :
  In x (replace eqb c [] l) -> In x l.
Proof.
  unfold replace. induction l as [|y l IH]; simpl; [tauto|].
  destruct (eqb y c); simpl; tauto.
Qed.

Lemma replace_nil_filter (A : Type) (eqb : A -> A -> bool) (c : A) (l : list A) :
  replace eqb c [] l = filter (fun x => negb (eqb x c)) l.
Proof.
  unfold replace. induction l as [|y l IH]; simpl; [reflexivity|].
  destruct (eqb y c); simpl; rewrite IH; reflexivity.
Qed.

Lemma unsplit_incl (A : Type) (c x : A) (pieces : list (list A)) (p : list A) :
  In p pieces -> In x p -> In x (unsplit c pieces).
Proof.
  induction pieces as [|q pieces IH]; intros Hp Hx; [contradiction|].
  destruct pieces as [|q' pieces].
  - destruct Hp as [->|[]]. exact Hx.
  - change (unsplit c (q :: q' :: pieces)) with (q ++ c :: unsplit c (q' :: pieces)).
    apply in_or_app. destruct Hp as [->|Hp]; [left; exact Hx|].
    right. right. apply IH; assumption.
Qed.

(** Joining the pieces of a split without the separator removes the
    separator. *)
Lemma join_split_go (A : Type) (eqb : A -> A -> bool) (c : A) (l cur : list A) :
  join (split_go eqb [c] O cur l) = rev cur ++ replace eqb c [] l.
Proof.
  unfold join, replace.
  revert cur; induction l as [|x l IH]; intros cur.
  - simpl. rewrite !app_nil_r. reflexivity.
  - cbn [split_go startswith length Nat.sub flat_map]. rewrite andb_true_r.
    destruct (eqb x c).
    + cbn [concat]. rewrite IH. reflexivity.
    + rewrite IH. simpl. rewrite <- app_assoc. reflexivity.
Qed.

Lemma join_split (A : Type) (eqb : A -> A -> bool) (c : A) (l : list A) :
  join (split eqb [c] l) = replace eqb c [] l.
Proof. apply (join_split_go eqb c l []). Qed.

Lemma mapM_In (A B : Type) (f : A -> result B) (l : list A) (r : list B) (y : B) :
  mapM f l = Ok r -> In y r -> exists x, In x l /\ f x = Ok y.
Proof.
  revert r; induction l as [|x l IH]; intros r H Hy; simpl in H.
  - inversion H; subst. contradiction.
  - inv_binds. destruct Hy as [->|Hy].
    + exists x. split; [left; reflexivity | assumption].
    + destruct (IH _ eq_refl Hy) as [x' [H1 H2]]. exists x'. split; [right|]; assumption.
Qed.

(** A code point below 128 in decoded text is a byte of the input: the
    multi-byte forms only give code points from 128 on. *)
Lemma utf8_go_ascii (n : nat) (l : list N) (s : pystr) (c : N) :
  (length l <= n)%nat -> utf8_go l = Ok s -> In c s -> (c < 128)%N -> In c l.
Proof.
  revert l s; induction n as [|n IH]; intros l s Hn H Hc Hlt.
  - destruct l; [|simpl in Hn; lia]. simpl in H. inversion H; subst. contradiction.
  - destruct l as [|b0 l1]; [simpl in H; inversion H; subst; contradiction|].
    simpl in Hn. cbn [utf8_go] in H.
    destruct (b0 <? 128)%N eqn:E0.
    { inv_binds. destruct Hc as [->|Hc]; [left; reflexivity|].
      right. eapply IH; eauto. lia. }
    destruct ((194 <=? b0) && (b0 <=? 223))%N eqn:E1.
    { apply andb_true_iff in E1. destruct E1 as [L1 U1].
      apply N.leb_le in L1.
      destruct l1 as [|b1 l2]; [discriminate|].
      destruct (is_cont b1) eqn:C1; [|discriminate].
      unfold is_cont in C1. apply andb_true_iff in C1. destruct C1 as [C1 _].
      apply N.leb_le in C1.
      inv_binds. simpl in Hn. destruct Hc as [Hc|Hc]; [lia|].
      right. right. eapply IH; eauto. lia. }
    destruct ((224 <=? b0) && (b0 <=? 239))%N eqn:E2.
    { apply andb_true_iff in E2. destruct E2 as [L2 U2].
      apply N.leb_le in L2.
      destruct l1 as [|b1 [|b2 l3]]; try discriminate.
      destruct (_ && is_cont b2) eqn:C; [|discriminate].
      apply andb_true_iff in C. destruct C as [C _].
      apply andb_true_iff in C. destruct C as [Clo _]. apply N.leb_le in Clo.
      inv_binds. simpl in Hn. destruct Hc as [Hc|Hc].
      - exfalso. destruct (b0 =? 224)%N eqn:B; [apply N.eqb_eq in B | apply N.eqb_neq in B]; lia.
      - right. right. right. eapply IH; eauto. lia. }
    destruct ((240 <=? b0) && (b0 <=? 244))%N eqn:E3; [|discriminate].
    apply andb_true_iff in E3. destruct E3 as [L3 U3]. apply N.leb_le in L3.
    destruct l1 as [|b1 [|b2 [|b3 l4]]]; try discriminate.
    destruct (_ && is_cont b3) eqn:C; [|discriminate].
    apply andb_true_iff in C. destruct C as [C _].
    apply andb_true_iff in C. destruct C as [C _].
    apply andb_true_iff in C. destruct C as [Clo _]. apply N.leb_le in Clo.
    inv_binds. simpl in Hn. destruct Hc as [Hc|Hc].
    + exfalso. destruct (b0 =? 240)%N eqn:B; [apply N.eqb_eq in B | apply N.eqb_neq in B]; lia.
    + right. right. right. right. eapply IH; eauto. lia.
Qed.

Lemma to_N_inj (a b : byte) : Byte.to_N a = Byte.to_N b -> a = b.
Proof.
  intros H. pose proof (Byte.of_to_N a) as Ha. pose proof (Byte.of_to_N b) as Hb.
  rewrite H in Ha. congruence.
Qed.

Lemma decode_ascii_in (b : bytes) (s : pystr) (x : byte) :
  decode b = Ok s -> (Byte.to_N x < 128)%N -> In (Byte.to_N x) s -> In x b.
Proof.
  unfold decode. intros H Hlt Hin.
  pose proof (@utf8_go_ascii _ _ _ _ (le_n _) H Hin Hlt) as H1.
  apply in_map_iff in H1. destruct H1 as [y [Hy Hin']].
  apply to_N_inj in Hy. subst. exact Hin'.
Qed.

(** X15: no keyword of a header object contains a NUL character or a
    newline, in either version. *)
Theorem keywords_clean
  (cfg : config) (path : pystr) (content : bytes) (h : OIFHeader)
  (ks : list pystr) (k : pystr) :
  OIFHeader_parse cfg path content = Ok h ->
  h_keywords h = Some ks -> In k ks ->
  ~ In 0%N k /\ ~ In 10%N k.
Proof.
  intros Hp Hk Hin.
  assert (P : exists area piece,
             In piece (split byte_eqb [NL] (replace byte_eqb NUL [] area))
             /\ decode piece = Ok k).
  { unfold OIFHeader_parse in Hp.
    destruct (fileType cfg content) as [type swap].
    destruct (match type with Some t => t =? V1HDR | None => false end).
    - inv_binds. cbn [h_keywords] in Hk. inversion Hk; subst.
      match goal with E : mapM decode _ = Ok _ |- _ =>
        destruct (@mapM_In _ _ _ _ _ _ E Hin) as [piece [H1 H2]] end.
      apply slice_to_incl in H1. eauto.
    - destruct (match type with Some t => t =? V2HDR | None => false end).
      + inv_binds. cbn [h_keywords] in Hk. inversion Hk; subst.
        match goal with E : mapM decode _ = Ok _ |- _ =>
          destruct (@mapM_In _ _ _ _ _ _ E Hin) as [piece [H1 H2]] end.
        eauto.
      + inv_binds. cbn [h_keywords] in Hk. discriminate. }
  destruct P as [area [piece [Hpiece Hdec]]].
  pose proof (split_pieces byte_eqb NL (replace byte_eqb NUL [] area)) as SP.
  rewrite Forall_forall in SP. specialize (SP piece Hpiece).
  apply (count_zero_iff byte_eqb byte_eqb_eq) in SP.
  assert (NN : ~ In NUL piece).
  { intros H0.
    pose proof (@unsplit_incl _ NL NUL _ piece Hpiece H0) as H1.
    rewrite (split_unsplit byte_eqb byte_eqb_eq) in H1.
    revert H1. apply (count_zero_iff byte_eqb byte_eqb_eq).
    apply replace_nil_count. }
  split; intros H0.
  - apply NN. apply (decode_ascii_in piece NUL Hdec); [reflexivity | exact H0].
  - apply SP. apply (decode_ascii_in piece NL Hdec); [reflexivity | exact H0].
Qed.

Lemma keywords_clean_witness :
  ~ In 0%N (u "HISTORY x") /\ ~ In 10%N (u "HISTORY x").
Proof.
  assert (P : { h | OIFHeader_parse cfg_little (u "a.imh") sample_v1_header = Ok h
                    /\ h_keywords h = Some [u "NAXIS   = 2"; u "HISTORY x"] }).
  { eexists. split; vm_compute; reflexivity. }
  destruct P as [h [Hp Hk]].
  apply (@keywords_clean cfg_little (u "a.imh") sample_v1_header h
           [u "NAXIS   = 2"; u "HISTORY x"] (u "HISTORY x") Hp Hk).
  right. left. reflexivity.
Defined.

(** The bytes kept in the history: neither NUL nor newline. *)
Lemma history_filter (l : bytes) :
  join (split byte_eqb [NL] (replace byte_eqb NUL [] l))
  = filter (fun b => negb (byte_eqb b NUL) && negb (byte_eqb b NL)) l.
Proof.
  rewrite join_split, !replace_nil_filter.
  induction l as [|x l IH]; simpl; [reflexivity|].
  destruct (byte_eqb x NUL); simpl; [exact IH|].
  destruct (byte_eqb x NL); simpl; [exact IH | rewrite IH; reflexivity].
Qed.

(** X16: the history of a header object is the region of the file from
    byte 892 (version 1) or 990 (version 2) to byte 2048 with every NUL
    and every newline removed, the other bytes in their order; the title
    holds no NUL. *)
Theorem history_text
  (cfg : config) (path : pystr) (content : bytes) (h : OIFHeader) :
  OIFHeader_parse cfg path content = Ok h ->
  let keep b := negb (byte_eqb b NUL) && negb (byte_eqb b NL) in
  (h_type h = Some V1HDR ->
   h_history h = Some (filter keep (slice 892 2048 content))) /\
  (h_type h = Some V2HDR ->
   h_history h = Some (filter keep (slice 990 2048 content))) /\
  ~ In NUL (h_title h).
Proof.
  intros Hp keep.
  destruct (OIFHeader_parse_type _ _ _ Hp) as [_ Hty].
  unfold OIFHeader_parse in Hp.
  destruct (fileType cfg content) as [type swap]. cbn [fst] in Hty.
  assert (RN : forall l, ~ In NUL (replace byte_eqb NUL [] l)).
  { intros l. apply (count_zero_iff byte_eqb byte_eqb_eq). apply replace_nil_count. }
  destruct (match type with Some t => t =? V1HDR | None => false end) eqn:T1.
  - inv_binds. cbn [h_type h_history h_title] in *.
    split; [intros _; rewrite history_filter; reflexivity|].
    split; [intros Hv; rewrite Hv in T1; discriminate T1|].
    destruct (split byte_eqb [NUL; NUL] _); [tauto | apply RN].
  - destruct (match type with Some t => t =? V2HDR | None => false end) eqn:T2.
    + inv_binds. cbn [h_type h_history h_title] in *.
      split; [intros Hv; rewrite Hv in T1; discriminate T1|].
      split; [intros _; rewrite history_filter; reflexivity | apply RN].
    + inv_binds. cbn [h_type h_history h_title] in *.
      split; [intros Hv; rewrite Hv in T1; discriminate T1|].
      split; [intros Hv; rewrite Hv in T2; discriminate T2 | tauto].
Qed.

Lemma history_text_witness :
  exists h,
    OIFHeader_parse cfg_little (u "a.imh") sample_v1_header = Ok h /\
    h_history h = Some [].
Proof.
  eexists.
  match goal with
  | |- OIFHeader_parse ?c ?pa ?co = Ok ?h /\ _ =>
      assert (Hp : OIFHeader_parse c pa co = Ok h) by (vm_compute; reflexivity);
      split; [exact Hp|];
      rewrite (proj1 (@history_text c pa co h Hp) eq_refl)
  end.
  vm_compute. reflexivity.
Defined.

Lemma utf8_go_all_ascii (l : list N) :
  Forall (fun c => (c < 128)%N) l -> utf8_go l = Ok l.
Proof.
  induction 1 as [|c l Hc _ IH]; [reflexivity|].
  cbn [utf8_go]. apply N.ltb_lt in Hc. rewrite Hc, IH. reflexivity.
Qed.

Lemma decode_ascii (l : bytes) :
  ascii_bytes l -> decode l = Ok (List.map Byte.to_N l).
Proof.
  intros H. unfold decode. apply utf8_go_all_ascii.
  apply Forall_forall. intros c Hc. apply in_map_iff in Hc.
  destruct Hc as [b [<- Hb]]. unfold ascii_bytes in H.
  rewrite Forall_forall in H. apply H. exact Hb.
Qed.

Lemma mapM_decode_ascii (pieces : list bytes) :
  Forall ascii_bytes pieces ->
  mapM decode pieces = Ok (List.map (List.map Byte.to_N) pieces).
Proof.
  induction 1 as [|p pieces Hp _ IH]; [reflexivity|].
  simpl. rewrite (decode_ascii Hp), IH. reflexivity.
Qed.

Lemma removelast_incl (A : Type) (l : list A) (x : A) :
  In x (removelast l) -> In x l.
Proof.
  induction l as [|y l IH]; [tauto|].
  destruct l as [|z l]; [simpl; tauto|].
  change (removelast (y :: z :: l)) with (y :: removelast (z :: l)).
  intros [->|H]; [left; reflexivity | right; apply IH; exact H].
Qed.

Lemma pieces_ascii (area : bytes) :
  ascii_bytes area ->
  Forall ascii_bytes (split byte_eqb [NL] (replace byte_eqb NUL [] area)).
Proof.
  intros H. apply Forall_forall. intros piece Hp.
  apply Forall_forall. intros b Hb.
  pose proof (@unsplit_incl _ NL b _ piece Hp Hb) as H1.
  rewrite (split_unsplit byte_eqb byte_eqb_eq) in H1.
  apply replace_nil_incl in H1.
  unfold ascii_bytes in H. rewrite Forall_forall in H. apply H. exact H1.
Qed.

(** X17: a header file long enough for its fixed fields, whose bytes
    after the fixed region are all below 128, always gives a header object
    (debug option off), and its keywords are the lines of the user area
    byte for byte. *)
Theorem ascii_header_parses (cfg : config) (path : pystr) (content : bytes) :
  debug cfg = false ->
  (fst (fileType cfg content) = Some V1HDR -> (112 <= length content)%nat ->
   ascii_bytes (slice_from 2052 content) ->
   exists h,
     OIFHeader_parse cfg path content = Ok h /\
     h_keywords h
     = Some (List.map (List.map Byte.to_N)
               (removelast (split byte_eqb [NL] (userarea_v1 content))))) /\
  (fst (fileType cfg content) = Some V2HDR -> (110 <= length content)%nat ->
   ascii_bytes (slice_from 2046 content) ->
   exists h,
     OIFHeader_parse cfg path content = Ok h /\
     h_keywords h
     = Some (List.map (List.map Byte.to_N)
               (split byte_eqb [NL] (userarea_v2 content)))).
Proof.
  intros Hd. split; intros Ht Hl Ha.
  - apply (@OIFHeader_parse_ok cfg path content _ Hd). left.
    split; [exact Ht|]. split; [exact Hl|].
    apply mapM_decode_ascii. apply Forall_forall. intros p Hp.
    apply removelast_incl in Hp.
    pose proof (pieces_ascii Ha) as F. rewrite Forall_forall in F.
    apply F. exact Hp.
  - apply (@OIFHeader_parse_ok cfg path content _ Hd). right.
    split; [exact Ht|]. split; [exact Hl|].
    apply mapM_decode_ascii. apply pieces_ascii. exact Ha.
Qed.

Lemma ascii_header_parses_witness :
  exists h,
    OIFHeader_parse cfg_little (u "a.imh") sample_v2_header = Ok h /\
    h_keywords h = Some [u "NAXIS   = 2"; u "HISTORY x"; []].
Proof.
  destruct (proj2 (@ascii_header_parses cfg_little (u "a.imh") sample_v2_header
                     eq_refl)) as [h [Hp Hk]].
  - reflexivity.
  - vm_compute. lia.
  - unfold ascii_bytes. apply Forall_forall. intros b Hb.
    vm_compute in Hb.
    repeat (destruct Hb as [<-|Hb]; [vm_compute; reflexivity|]).
    contradiction.
  - exists h. split; [exact Hp|]. rewrite Hk. vm_compute. reflexivity.
Defined.

(** ** More on [readPixels] *)

Lemma pixtypes_unknown (code : Z) : ~ known_code code -> pixtypes code = Raise KeyError.
Proof.
  unfold known_code, pixtypes. intros H.
  repeat match goal with
         | |- context [?a =? ?b] =>
             let E := fresh "E" in
             destruct (a =? b) eqn:E; [apply Z.eqb_eq in E; tauto|]
         end.
  reflexivity.
Qed.

Lemma pixtypes_known (code : Z) :
  known_code code ->
  exists tc, pixtypes code = Ok tc /\
             (tc = "i2" \/ tc = "U2" \/ tc = "i4" \/ tc = "f4" \/ tc = "f8")%string.
Proof.
  intros [-> | [-> | [-> | [-> | [-> | ->]]]]]; eexists; (split; [reflexivity|]); tauto.
Qed.

Lemma readPixels_raw_swap (cfg : config) (o : OIFPixfile) :
  readPixels_raw cfg o
  = (swap <- swap_char cfg o ;;
     pixtype <- getattr (p_pixtype o) ;;
     code <- pixtypes pixtype ;;
     dt <- np_dtype (swap ++ code)%string ;;
     raw_pixels <- frombuffer (p_data o) dt ;;
     Ok (dt, raw_pixels)).
Proof.
  unfold readPixels_raw, swap_char.
  destruct (type_is (p_type o) V1PIX); cbn [bind]; [reflexivity|].
  destruct (byteorder_eqb (sys_byteorder cfg) little); cbn [bind]; [|reflexivity].
  destruct (getattr (p_swapped o)); reflexivity.
Qed.

Lemma swap_char_cases (cfg : config) (o : OIFPixfile) (s : string) :
  swap_char cfg o = Ok s -> s = "<"%string \/ s = ">"%string.
Proof.
  unfold swap_char.
  destruct (type_is (p_type o) V1PIX).
  - destruct (byteorder_eqb (sys_byteorder cfg) little && truth (p_swap o));
      destruct (force_swap cfg); cbn; intros H; inversion H; tauto.
  - destruct (byteorder_eqb (sys_byteorder cfg) little).
    + destruct (p_swapped o) as [[|]|]; destruct (force_swap cfg); cbn;
        intros H; inversion H; tauto.
    + destruct (force_swap cfg); cbn; intros H; inversion H; tauto.
Qed.

(** X18: a pixel type code that is not in the table makes [readPixels]
    raise [KeyError], as soon as the byte order is resolved: for every
    version 1 pixel file, on every big-endian host, and whenever the
    [swapped] attribute is set. *)
Theorem unknown_pixtype (cfg : config) (o : OIFPixfile) (code : Z) :
  type_is (p_type o) V1PIX = true \/ sys_byteorder cfg = big
  \/ (exists b, p_swapped o = Some b) ->
  p_pixtype o = Some code -> ~ known_code code ->
  readPixels cfg o = Raise KeyError.
Proof.
  intros Hs Hc Hk. unfold readPixels. rewrite readPixels_raw_swap.
  assert (S : exists s, swap_char cfg o = Ok s).
  { unfold swap_char. destruct Hs as [-> | [Hb | [b Hb]]].
    - cbn [bind]. eauto.
    - rewrite Hb. destruct (type_is (p_type o) V1PIX); cbn; eauto.
    - rewrite Hb. destruct (type_is (p_type o) V1PIX); cbn [bind]; [eauto|].
      destruct (byteorder_eqb (sys_byteorder cfg) little); cbn; eauto. }
  destruct S as [s ->]. cbn [bind]. rewrite Hc. cbn [getattr bind].
  rewrite (pixtypes_unknown Hk). reflexivity.
Qed.

Lemma unknown_pixtype_witness :
  readPixels cfg_little
    (v1_pixobject 99 1 [4; 1; 1; 1; 1; 1; 1] [4; 1; 1; 1; 1; 1; 1] ramp12)
  = Raise KeyError.
Proof.
  apply (@unknown_pixtype cfg_little
           (v1_pixobject 99 1 [4; 1; 1; 1; 1; 1; 1] [4; 1; 1; 1; 1; 1; 1] ramp12) 99).
  - left. reflexivity.
  - reflexivity.
  - unfold known_code. vm_compute. intuition discriminate.
Defined.

Lemma np_dtype_width (s tc : string) (code : Z) (dt : dtype) :
  s = "<"%string \/ s = ">"%string ->
  pixtypes code = Ok tc -> np_dtype (s ++ tc) = Ok dt ->
  dt_itemsize dt = pixel_width code
  /\ (dt_itemsize dt = 2 \/ dt_itemsize dt = 4 \/ dt_itemsize dt = 8)%nat.
Proof.
  intros Hs Hp Hd. unfold pixel_width. rewrite Hp.
  assert (K : known_code code).
  { destruct (Z.eq_dec code TY_SHORT); [left; assumption|].
    destruct (Z.eq_dec code TY_USHORT); [right; left; assumption|].
    destruct (Z.eq_dec code TY_INT); [right; right; left; assumption|].
    destruct (Z.eq_dec code TY_LONG); [right; right; right; left; assumption|].
    destruct (Z.eq_dec code TY_REAL); [right; right; right; right; left; assumption|].
    destruct (Z.eq_dec code TY_DOUBLE); [right; right; right; right; right; assumption|].
    exfalso. rewrite pixtypes_unknown in Hp; [discriminate|].
    unfold known_code. tauto. }
  destruct K as [-> | [-> | [-> | [-> | [-> | ->]]]]]; inversion Hp; subst tc;
    destruct Hs as [-> | ->]; vm_compute in Hd; inversion Hd; subst dt;
    vm_compute; split; try reflexivity; lia.
Qed.

(** X19: when the raw pixels are read, every item has the width of the
    element type of the code (2, 4 or 8 bytes), and the items put one
    after the other are the pixel data of the file: no byte is dropped,
    added or moved. *)
Theorem raw_items (cfg : config) (o : OIFPixfile) (dt : dtype) (raw : list bytes) :
  readPixels_raw cfg o = Ok (dt, raw) ->
  exists code,
    p_pixtype o = Some code /\ known_code code /\
    dt_itemsize dt = pixel_width code /\
    (pixel_width code = 2 \/ pixel_width code = 4 \/ pixel_width code = 8)%nat /\
    Forall (fun item => length item = pixel_width code) raw /\
    (length raw * pixel_width code = length (p_data o))%nat /\
    concat raw = p_data o.
Proof.
  intros H. rewrite readPixels_raw_swap in H. inv_binds.
  match goal with
  | Hs : swap_char _ _ = Ok _, Hg : getattr (p_pixtype o) = Ok ?code,
    Hp : pixtypes ?code = Ok _, Hd : np_dtype _ = Ok ?dt0,
    Hf : frombuffer _ ?dt0 = Ok _ |- _ =>
      apply swap_char_cases in Hs; exists code;
      assert (K : known_code code);
      [ destruct (Z.eq_dec code TY_SHORT); [left; assumption|];
        destruct (Z.eq_dec code TY_USHORT); [right; left; assumption|];
        destruct (Z.eq_dec code TY_INT); [right; right; left; assumption|];
        destruct (Z.eq_dec code TY_LONG); [right; right; right; left; assumption|];
        destruct (Z.eq_dec code TY_REAL);
          [right; right; right; right; left; assumption|];
        destruct (Z.eq_dec code TY_DOUBLE);
          [right; right; right; right; right; assumption|];
        exfalso; rewrite pixtypes_unknown in Hp;
          [discriminate | unfold known_code; tauto]
      | destruct (np_dtype_width _ Hs Hp Hd) as [W1 W2];
        destruct (frombuffer_items _ _ Hf) as [F1 [F2 F3]];
        split; [destruct (p_pixtype o); [inversion Hg; reflexivity | discriminate]|];
        split; [exact K|];
        rewrite <- W1; split; [reflexivity|]; split; [exact W2|];
        split; [exact F2|]; split; [|exact F3];
        rewrite F1; unfold frombuffer in Hf;
        destruct (dt_itemsize dt0 =? 0)%nat eqn:Z0; [discriminate|];
        destruct (length (p_data o) mod dt_itemsize dt0 =? 0)%nat eqn:M;
          [|discriminate];
        apply Nat.eqb_eq in M; apply Nat.eqb_neq in Z0;
        pose proof (Nat.div_mod_eq (length (p_data o)) (dt_itemsize dt0)); lia ]
  end.
Qed.

Lemma raw_items_witness :
  readPixels_raw cfg_little ramp_object
  = Ok (ramp_dtype, List.map le16 [0; 1; 2; 3; 4; 5; 6; 7; 8; 9; 10; 11])
  /\ exists code,
       p_pixtype ramp_object = Some code /\ known_code code /\
       dt_itemsize ramp_dtype = pixel_width code /\
       (pixel_width code = 2 \/ pixel_width code = 4 \/ pixel_width code = 8)%nat /\
       Forall (fun item => length item = pixel_width code)
         (List.map le16 [0; 1; 2; 3; 4; 5; 6; 7; 8; 9; 10; 11]) /\
       (12 * pixel_width code = length (p_data ramp_object))%nat /\
       concat (List.map le16 [0; 1; 2; 3; 4; 5; 6; 7; 8; 9; 10; 11])
       = p_data ramp_object.
Proof.
  split; [reflexivity|].
  apply (@raw_items cfg_little ramp_object ramp_dtype
           (List.map le16 [0; 1; 2; 3; 4; 5; 6; 7; 8; 9; 10; 11])).
  reflexivity.
Defined.

(** ** The pixel file constructor *)

(** X20: a file that is not a pixel file makes the pixel file constructor
    raise [AttributeError]: no branch has assigned [swapped] or [pixtype]
    when [readPixels] reads them.  The header constructor, by contrast,
    returns an object for such a file. *)
Theorem pixfile_wrong_role (cfg : config) (path : pystr) (content : bytes) :
  fst (fileType cfg content) <> Some V1PIX ->
  fst (fileType cfg content) <> Some V2PIX ->
  OIFPixfile_parse cfg path content = Raise AttributeError.
Proof.
  intros H1 H2. unfold OIFPixfile_parse.
  destruct (fileType cfg content) as [type swap]. cbn [fst] in H1, H2.
  unfold type_is. rewrite (type_is_false H1), (type_is_false H2). cbn [bind].
  unfold readPixels, readPixels_raw, type_is. cbn [p_type p_swapped p_pixtype].
  rewrite (type_is_false H1).
  destruct (byteorder_eqb (sys_byteorder cfg) little); [reflexivity|].
  destruct (force_swap cfg); reflexivity.
Qed.

Lemma pixfile_wrong_role_witness :
  OIFPixfile_parse cfg_little (u "a.pix") (V1HDR_MAGIC_LITTLE_ENDIAN ++ zeros 2100)
  = Raise AttributeError
  /\ OIFPixfile_parse cfg_big (u "a.pix") [] = Raise AttributeError.
Proof.
  split.
  - apply (@pixfile_wrong_role cfg_little (u "a.pix")
             (V1HDR_MAGIC_LITTLE_ENDIAN ++ zeros 2100));
      vm_compute; discriminate.
  - apply (@pixfile_wrong_role cfg_big (u "a.pix") []); vm_compute; discriminate.
Defined.

Lemma unpack_7i_short (ifmt : byteorder) (a b : Z) (l : bytes) :
  0 <= a -> b = a + 28 -> Z.of_nat (length l) < b ->
  unpack_7i ifmt (slice a b l) = Raise StructError.
Proof.
  intros Ha -> H. unfold unpack_7i. rewrite slice_length_any.
  rewrite !slice_index_nonneg by lia.
  destruct (_ =? 28)%nat eqn:E; [|reflexivity].
  apply Nat.eqb_eq in E. lia.
Qed.

(** X21: a pixel file cut short inside its header fields raises
    [struct.error]: a version 1 file of fewer than 80 bytes, a version 2
    file of fewer than 78 bytes. *)
Theorem pixfile_truncated (cfg : config) (path : pystr) (content : bytes) :
  (fst (fileType cfg content) = Some V1PIX -> (length content < 80)%nat ->
   OIFPixfile_parse cfg path content = Raise StructError) /\
  (fst (fileType cfg content) = Some V2PIX -> (length content < 78)%nat ->
   OIFPixfile_parse cfg path content = Raise StructError).
Proof.
  unfold OIFPixfile_parse.
  destruct (fileType cfg content) as [type swap]. cbn [fst].
  set (ifmt := int_format cfg swap).
  split; intros -> Hlen.
  - change (type_is (Some V1PIX) V1PIX) with true. cbv iota.
    assert (Hd : unpack_7i ifmt (slice 52 80 (slice_to 1024 content))
                 = Raise StructError).
    { apply unpack_7i_short; [lia | reflexivity|].
      rewrite slice_to_length by lia. lia. }
    match goal with
    | |- bind ?m _ = _ =>
        assert (Hm : m = Raise StructError);
        [rewrite Hd; unpack_steps; reflexivity | rewrite Hm; reflexivity]
    end.
  - change (type_is (Some V2PIX) V1PIX) with false.
    change (type_is (Some V2PIX) V2PIX) with true. cbv iota.
    assert (Hd : unpack_7i ifmt (slice 50 78 (slice_to 2048 content))
                 = Raise StructError).
    { apply unpack_7i_short; [lia | reflexivity|].
      rewrite slice_to_length by lia. lia. }
    match goal with
    | |- bind ?m _ = _ =>
        assert (Hm : m = Raise StructError);
        [rewrite Hd; unpack_steps; reflexivity | rewrite Hm; reflexivity]
    end.
Qed.

Lemma pixfile_truncated_witness :
  OIFPixfile_parse cfg_little (u "a.pix") (V1PIX_MAGIC_LITTLE_ENDIAN ++ zeros 69)
  = Raise StructError
  /\ OIFPixfile_parse cfg_little (u "a.pix") (V2PIX_MAGIC ++ zeros 72)
     = Raise StructError.
Proof.
  split.
  - apply (proj1 (pixfile_truncated cfg_little (u "a.pix")
                    (V1PIX_MAGIC_LITTLE_ENDIAN ++ zeros 69)));
      [reflexivity | simpl; lia].
  - apply (proj2 (pixfile_truncated cfg_little (u "a.pix")
                    (V2PIX_MAGIC ++ zeros 72)));
      [reflexivity | simpl; lia].
Defined.

(** ** The forced swap and the element type *)

Lemma swap_char_force (cfg : config) (o : OIFPixfile) (b : bool) (s : string) :
  swap_char (with_force_swap b cfg) o = Ok s ->
  swap_char (with_force_swap (negb b) cfg) o
  = Ok (if String.eqb s ">" then "<" else ">")%string.
Proof.
  unfold swap_char. cbn [force_swap sys_byteorder with_force_swap].
  destruct (type_is (p_type o) V1PIX).
  - destruct (byteorder_eqb (sys_byteorder cfg) little && truth (p_swap o));
      destruct b; cbn; intros H; inversion H; reflexivity.
  - destruct (byteorder_eqb (sys_byteorder cfg) little).
    + destruct (p_swapped o) as [[|]|]; destruct b; cbn;
        intros H; inversion H; reflexivity.
    + destruct b; cbn; intros H; inversion H; reflexivity.
Qed.

Lemma np_dtype_flip (s tc : string) (code : Z) (dt : dtype) :
  s = "<"%string \/ s = ">"%string ->
  pixtypes code = Ok tc -> np_dtype (s ++ tc) = Ok dt ->
  np_dtype ((if String.eqb s ">" then "<" else ">") ++ tc) = Ok (flip_dtype dt).
Proof.
  intros Hs Hp Hd.
  assert (K : known_code code).
  { destruct (Z.eq_dec code TY_SHORT); [left; assumption|].
    destruct (Z.eq_dec code TY_USHORT); [right; left; assumption|].
    destruct (Z.eq_dec code TY_INT); [right; right; left; assumption|].
    destruct (Z.eq_dec code TY_LONG); [right; right; right; left; assumption|].
    destruct (Z.eq_dec code TY_REAL); [right; right; right; right; left; assumption|].
    destruct (Z.eq_dec code TY_DOUBLE); [right; right; right; right; right; assumption|].
    exfalso. rewrite pixtypes_unknown in Hp; [discriminate|].
    unfold known_code. tauto. }
  destruct K as [-> | [-> | [-> | [-> | [-> | ->]]]]]; inversion Hp; subst tc;
    destruct Hs as [-> | ->]; vm_compute in Hd; inversion Hd; subst dt;
    reflexivity.
Qed.

(** X22: the forced swap changes the byte order in which an item is read
    and nothing else: with the option turned the other way the element
    type has the opposite order, the same kind and width, and the items
    are the same bytes. *)
Theorem force_swap_order (cfg : config) (o : OIFPixfile) (b : bool)
  (dt : dtype) (raw : list bytes) :
  readPixels_raw (with_force_swap b cfg) o = Ok (dt, raw) ->
  readPixels_raw (with_force_swap (negb b) cfg) o = Ok (flip_dtype dt, raw)
  /\ dt_order (flip_dtype dt) <> dt_order dt
  /\ dt_kind (flip_dtype dt) = dt_kind dt
  /\ dt_itemsize (flip_dtype dt) = dt_itemsize dt.
Proof.
  intros H. split; [|split; [destruct dt as [[|] k n]; discriminate|split; reflexivity]].
  rewrite readPixels_raw_swap in H. rewrite readPixels_raw_swap.
  inv_binds.
  lazymatch goal with
  | Hs : swap_char _ _ = Ok _, Hg : getattr (p_pixtype o) = Ok ?code,
    Hp : pixtypes ?code = Ok _, Hd : np_dtype _ = Ok ?dt0,
    Hf : frombuffer _ ?dt0 = Ok _ |- _ =>
      rewrite (swap_char_force _ _ _ Hs); cbn [bind];
      try rewrite Hg; cbn [bind]; try rewrite Hp; cbn [bind];
      apply swap_char_cases in Hs;
      rewrite (np_dtype_flip _ Hs Hp Hd); cbn [bind];
      change (frombuffer (p_data o) (flip_dtype dt0))
        with (frombuffer (p_data o) dt0);
      rewrite Hf; reflexivity
  end.
Qed.

Lemma force_swap_order_witness :
  readPixels_raw (with_force_swap true cfg_little) ramp_object
  = Ok (flip_dtype ramp_dtype, List.map le16 [0; 1; 2; 3; 4; 5; 6; 7; 8; 9; 10; 11])
  /\ item_int ramp_dtype (le16 3) = Some 3
  /\ item_int (flip_dtype ramp_dtype) (le16 3) = Some 768.
Proof.
  split; [|split; reflexivity].
  apply (proj1 (@force_swap_order cfg_little ramp_object false ramp_dtype
                  (List.map le16 [0; 1; 2; 3; 4; 5; 6; 7; 8; 9; 10; 11])
                  eq_refl)).
Defined.

(** ** The logical pixels *)

(** X23: for a one-dimensional image [readPixels] never raises once the
    raw items are read: the pixels are a prefix of the items, of length
    [dims[0]] clipped to the number of items; a negative [dims[0]] drops
    that many items from the end. *)
Theorem one_dim_prefix (cfg : config) (o : OIFPixfile) (dt : dtype)
  (raw : list bytes) (d0 : Z) (ds : list Z) :
  debug cfg = false ->
  readPixels_raw cfg o = Ok (dt, raw) ->
  p_ndim o = Some 1 -> p_dims o = Some (d0 :: ds) ->
  exists items rest o',
    readPixels cfg o = Ok o' /\
    p_pixels o' = Some (Array1 dt items) /\
    raw = items ++ rest /\
    (0 <= d0 -> length items = Nat.min (Z.to_nat d0) (length raw)) /\
    (d0 < 0 -> length items = (length raw - Z.to_nat (- d0))%nat).
Proof.
  intros Hd Hraw Hn Hdims.
  exists (slice_to d0 raw), (slice_from d0 raw). eexists.
  split.
  { unfold readPixels. rewrite Hraw. cbn [bind].
    unfold readPixels_crop. rewrite Hn, Hdims. cbn [getattr bind].
    change (1 =? 1) with true. cbv iota.
    change (getitem 0 (d0 :: ds)) with (Ok d0). cbn [bind].
    unfold readPixels_debug. rewrite Hd. reflexivity. }
  split; [reflexivity|].
  split; [symmetry; apply slice_to_from|].
  split; intros H.
  - apply slice_to_length. exact H.
  - unfold slice_to. rewrite length_firstn. unfold slice_index.
    destruct (d0 <? 0) eqn:E; [|apply Z.ltb_ge in E; lia]. lia.
Qed.

Lemma one_dim_prefix_witness :
  exists items rest o',
    readPixels cfg_little
      (v1_pixobject TY_SHORT 1 [20; 1; 1; 1; 1; 1; 1] [20; 1; 1; 1; 1; 1; 1] ramp12)
    = Ok o' /\
    p_pixels o' = Some (Array1 ramp_dtype items) /\
    List.map le16 [0; 1; 2; 3; 4; 5; 6; 7; 8; 9; 10; 11] = items ++ rest /\
    length items = 12%nat.
Proof.
  destruct (@one_dim_prefix cfg_little
              (v1_pixobject TY_SHORT 1 [20; 1; 1; 1; 1; 1; 1] [20; 1; 1; 1; 1; 1; 1] ramp12)
              ramp_dtype (List.map le16 [0; 1; 2; 3; 4; 5; 6; 7; 8; 9; 10; 11])
              20 [1; 1; 1; 1; 1; 1] eq_refl eq_refl eq_refl eq_refl)
    as [items [rest [o' [H1 [Hp [H2 [H3 _]]]]]]].
  exists items, rest, o'. split; [exact H1|]. split; [exact Hp|].
  split; [exact H2|].
  rewrite H3 by lia. reflexivity.
Defined.

(** X24: for a two-dimensional image [readPixels] raises [ValueError]
    when the second physical size is not positive or does not divide the
    number of items; the logical sizes are not looked at. *)
Theorem two_dim_bad_rows (cfg : config) (o : OIFPixfile) (dt : dtype)
  (raw : list bytes) (p0 p1 : Z) (ps : list Z) :
  readPixels_raw cfg o = Ok (dt, raw) ->
  p_ndim o = Some 2 -> p_pdims o = Some (p0 :: p1 :: ps) ->
  p1 <= 0 \/ (length raw mod Z.to_nat p1 <> 0)%nat ->
  readPixels cfg o = Raise ValueError.
Proof.
  intros Hraw Hn Hp Hbad.
  unfold readPixels. rewrite Hraw. cbn [bind].
  unfold readPixels_crop. rewrite Hn, Hp. cbn [getattr bind].
  change (2 =? 1) with false. change (2 =? 2) with true. cbv iota.
  change (getitem 1 (p0 :: p1 :: ps)) with (Ok p1). cbn [bind].
  unfold reshape.
  destruct (p1 <=? 0) eqn:E; [reflexivity|].
  apply Z.leb_gt in E. destruct Hbad as [Hb | Hb]; [lia|].
  destruct (length raw mod Z.to_nat p1 =? 0)%nat eqn:M; [|reflexivity].
  apply Nat.eqb_eq in M. contradiction.
Qed.

Lemma two_dim_bad_rows_witness :
  readPixels cfg_little
    (v1_pixobject TY_SHORT 2 [3; 2; 1; 1; 1; 1; 1] [4; 5; 1; 1; 1; 1; 1] ramp12)
  = Raise ValueError
  /\ readPixels cfg_little
       (v1_pixobject TY_SHORT 2 [3; 2; 1; 1; 1; 1; 1] [4; 0; 1; 1; 1; 1; 1] ramp12)
     = Raise ValueError.
Proof.
  split.
  - apply (@two_dim_bad_rows cfg_little
             (v1_pixobject TY_SHORT 2 [3; 2; 1; 1; 1; 1; 1] [4; 5; 1; 1; 1; 1; 1] ramp12)
             ramp_dtype (List.map le16 [0; 1; 2; 3; 4; 5; 6; 7; 8; 9; 10; 11])
             4 5 [1; 1; 1; 1; 1] eq_refl eq_refl eq_refl).
    right. vm_compute. discriminate.
  - apply (@two_dim_bad_rows cfg_little
             (v1_pixobject TY_SHORT 2 [3; 2; 1; 1; 1; 1; 1] [4; 0; 1; 1; 1; 1; 1] ramp12)
             ramp_dtype (List.map le16 [0; 1; 2; 3; 4; 5; 6; 7; 8; 9; 10; 11])
             4 0 [1; 1; 1; 1; 1] eq_refl eq_refl eq_refl).
    left. lia.
Defined.

(** The item at [(i, j)] of the transposed and cropped array when the
    crop reaches past the array: the crop is clipped to the shape. *)
Lemma crop_transpose_clip (A : Type) (d : A) (raw : list A)
  (w h lw lh i j : nat) :
  (i < Nat.min lw w)%nat -> (j < Nat.min lh h)%nat ->
  let R := {| nrows := h; ncols := w;
              rows := List.map (fun r => firstn w (skipn (r * w) raw)) (seq 0 h) |} in
  let M := crop (Z.of_nat lw) (Z.of_nat lh) (transpose d R) in
  length (nth i (rows M) []) = Nat.min lh h /\
  nth j (nth i (rows M) []) d = nth (j * w + i) raw d.
Proof.
  intros Hi Hj R M. subst M. unfold crop, transpose. cbn [rows ncols nrows].
  subst R. cbn [rows ncols nrows].
  rewrite !slice_to_firstn by lia. rewrite !Nat2Z.id.
  set (T := List.map _ (seq 0 w)).
  assert (LT : length T = w) by (subst T; rewrite length_map, length_seq; reflexivity).
  rewrite (@nth_map_lt _ _ _ (firstn lw T) i [] [])
    by (rewrite length_firstn; lia).
  rewrite nth_firstn_lt by lia.
  subst T. rewrite nth_map_seq by lia.
  rewrite slice_to_firstn by lia. rewrite Nat2Z.id.
  split.
  - rewrite length_firstn, length_map, length_map, length_seq. reflexivity.
  - rewrite nth_firstn_lt by lia.
    rewrite (@nth_map_lt _ _ _ _ j [] d)
      by (rewrite length_map, length_seq; lia).
    rewrite nth_map_seq by lia.
    rewrite nth_firstn_lt by lia.
    rewrite nth_skipn. reflexivity.
Qed.

Lemma reshape_rows (A : Type) (raw : list A) (Ph : Z) :
  0 < Ph -> (length raw mod Z.to_nat Ph = 0)%nat ->
  reshape raw Ph
  = Ok {| nrows := Z.to_nat Ph; ncols := (length raw / Z.to_nat Ph)%nat;
          rows := List.map (fun i => firstn (length raw / Z.to_nat Ph)
                                       (skipn (i * (length raw / Z.to_nat Ph)) raw))
                    (seq 0 (Z.to_nat Ph)) |}.
Proof.
  intros HPh Hm. unfold reshape.
  destruct (Ph <=? 0) eqn:E; [apply Z.leb_le in E; lia|].
  rewrite Hm. reflexivity.
Qed.

Lemma two_dim_read (cfg : config) (o : OIFPixfile) (dt : dtype)
  (raw : list bytes) (Lw Lh p0 Ph : Z) (ds ps : list Z) (R : matrix bytes) :
  debug cfg = false ->
  readPixels_raw cfg o = Ok (dt, raw) ->
  p_ndim o = Some 2 ->
  p_dims o = Some (Lw :: Lh :: ds) ->
  p_pdims o = Some (p0 :: Ph :: ps) ->
  reshape raw Ph = Ok R ->
  readPixels cfg o = Ok (set_pixels o (Array2 dt (crop Lw Lh (transpose [] R)))).
Proof.
  intros Hd Hraw Hn Hdims Hpdims HR.
  unfold readPixels. rewrite Hraw. cbn [bind].
  unfold readPixels_crop. rewrite Hn, Hdims, Hpdims. cbn [getattr bind].
  change (2 =? 1) with false. change (2 =? 2) with true. cbv iota.
  change (getitem 1 (p0 :: Ph :: ps)) with (Ok Ph).
  change (getitem 0 (Lw :: Lh :: ds)) with (Ok Lw).
  change (getitem 1 (Lw :: Lh :: ds)) with (Ok Lh).
  cbn [bind]. rewrite HR. cbn [bind].
  unfold readPixels_debug. rewrite Hd. reflexivity.
Qed.

(** The shape and the items of the pixel array of a two-dimensional
    image, the logical sizes clipped to the storage. *)
Lemma two_dim_items (raw : list bytes) (Lw Lh Ph : Z) :
  0 < Ph -> 0 <= Lw -> 0 <= Lh ->
  let W := (length raw / Z.to_nat Ph)%nat in
  let R := {| nrows := Z.to_nat Ph; ncols := W;
              rows := List.map (fun i => firstn W (skipn (i * W) raw))
                        (seq 0 (Z.to_nat Ph)) |} in
  let M := crop Lw Lh (transpose [] R) in
  nrows M = Nat.min (Z.to_nat Lw) W /\
  ncols M = Nat.min (Z.to_nat Lh) (Z.to_nat Ph) /\
  length (rows M) = nrows M /\
  forall i j, (i < nrows M)%nat -> (j < ncols M)%nat ->
              length (nth i (rows M) []) = ncols M /\
              mget [] M i j = nth (j * W + i) raw [].
Proof.
  intros HPh HLw HLh W R M.
  assert (N1 : nrows M = Nat.min (Z.to_nat Lw) W).
  { subst M R. unfold crop. cbn [nrows ncols transpose].
    apply slice_index_nonneg. exact HLw. }
  assert (N2 : ncols M = Nat.min (Z.to_nat Lh) (Z.to_nat Ph)).
  { subst M R. unfold crop. cbn [nrows ncols transpose].
    apply slice_index_nonneg. exact HLh. }
  split; [exact N1|]. split; [exact N2|]. split.
  { rewrite N1. subst M R. unfold crop. cbn [nrows ncols rows transpose].
    rewrite length_map, slice_to_length by lia.
    rewrite length_map, length_seq. reflexivity. }
  intros i j Hi Hj. rewrite N1 in Hi. rewrite N2 in Hj. rewrite N2.
  unfold mget.
  pose proof (@crop_transpose_clip _ [] raw W (Z.to_nat Ph)
                (Z.to_nat Lw) (Z.to_nat Lh) i j Hi Hj) as C.
  cbv zeta in C. rewrite !Z2Nat.id in C by lia.
  exact C.
Qed.

(** X25: a two-dimensional image whose second physical size [Ph] is
    positive and divides the number of items is read without error (debug
    off): the row length of the storage is the number of items divided by
    [Ph] (the first physical size is never read), the pixel array has the
    logical sizes clipped to the storage, and its item [(i, j)] is the
    item at column [i] of row [j] of the storage. *)
Theorem two_dim_layout (cfg : config) (o : OIFPixfile) (dt : dtype)
  (raw : list bytes) (Lw Lh p0 Ph : Z) (ds ps : list Z) :
  debug cfg = false ->
  readPixels_raw cfg o = Ok (dt, raw) ->
  p_ndim o = Some 2 ->
  p_dims o = Some (Lw :: Lh :: ds) ->
  p_pdims o = Some (p0 :: Ph :: ps) ->
  0 < Ph -> (length raw mod Z.to_nat Ph = 0)%nat -> 0 <= Lw -> 0 <= Lh ->
  exists M o',
    readPixels cfg o = Ok o' /\
    p_pixels o' = Some (Array2 dt M) /\
    nrows M = Nat.min (Z.to_nat Lw) (length raw / Z.to_nat Ph) /\
    ncols M = Nat.min (Z.to_nat Lh) (Z.to_nat Ph) /\
    length (rows M) = nrows M /\
    forall i j, (i < nrows M)%nat -> (j < ncols M)%nat ->
                length (nth i (rows M) []) = ncols M /\
                mget [] M i j = nth (j * (length raw / Z.to_nat Ph) + i) raw [].
Proof.
  intros Hd Hraw Hn Hdims Hpdims HPh Hm HLw HLh.
  eexists. eexists. split.
  - eapply two_dim_read; [exact Hd | exact Hraw | exact Hn | exact Hdims
                         | exact Hpdims |].
    apply reshape_rows; assumption.
  - split; [reflexivity|].
    apply (@two_dim_items raw Lw Lh Ph HPh HLw HLh).
Qed.

Lemma two_dim_layout_witness :
  exists M o',
    readPixels cfg_little
      (v1_pixobject TY_SHORT 2 [9; 2; 1; 1; 1; 1; 1] [7; 3; 1; 1; 1; 1; 1] ramp12)
    = Ok o' /\
    p_pixels o' = Some (Array2 ramp_dtype M) /\
    nrows M = 4%nat /\ ncols M = 2%nat /\
    item_int ramp_dtype (mget [] M 3 1) = Some 7.
Proof.
  destruct (@two_dim_layout cfg_little
              (v1_pixobject TY_SHORT 2 [9; 2; 1; 1; 1; 1; 1] [7; 3; 1; 1; 1; 1; 1] ramp12)
              ramp_dtype (List.map le16 [0; 1; 2; 3; 4; 5; 6; 7; 8; 9; 10; 11])
              9 2 7 3 [1; 1; 1; 1; 1] [1; 1; 1; 1; 1]
              eq_refl eq_refl eq_refl eq_refl eq_refl)
    as [M [o' [Hr [Hp [Hrows [Hcols [_ Hitem]]]]]]]; try reflexivity; try lia.
  exists M, o'. split; [exact Hr|]. split; [exact Hp|].
  split; [exact Hrows|]. split; [exact Hcols|].
  destruct (Hitem 3%nat 1%nat) as [_ ->];
    [rewrite Hrows; vm_compute; lia | rewrite Hcols; vm_compute; lia | reflexivity].
Defined.

(** ** The data of the FITS file *)

Lemma transpose_item (A : Type) (d : A) (M : matrix A) (i j : nat) :
  length (rows M) = nrows M -> (i < nrows M)%nat -> (j < ncols M)%nat ->
  mget d (transpose d M) j i = mget d M i j.
Proof.
  intros HL Hi Hj. unfold mget, transpose. cbn [rows].
  rewrite nth_map_seq by exact Hj.
  rewrite (@nth_map_lt _ _ _ _ i [] d) by lia.
  reflexivity.
Qed.

(** X26: the data [toFITS] stores for a two-dimensional image whose
    pixels were read from [W] items per row in [Ph] rows is the pixel
    array transposed back: it has [min(Lh, Ph)] rows of [min(Lw, W)]
    items, and its row [j] is the start of row [j] of the storage,
    whatever the keyword functions and the header are. *)
Theorem fits_data_rows
  (literal_eval : pystr -> result pyobj) (py_int : pystr -> result Z)
  (py_float : pystr -> result decimal)
  (header : Type) (set_data : ndarray -> result header)
  (header_set : header -> card -> result header)
  (add_history : header -> pystr -> result header)
  (cfg : config) (img : OIFImage) (o : OIFPixfile) (dt : dtype)
  (raw : list bytes) (Lw Lh p0 Ph : Z) (ds ps : list Z) (h : hdu header) :
  debug cfg = false ->
  readPixels_raw cfg o = Ok (dt, raw) ->
  p_ndim o = Some 2 ->
  p_dims o = Some (Lw :: Lh :: ds) ->
  p_pdims o = Some (p0 :: Ph :: ps) ->
  0 < Ph -> (length raw mod Z.to_nat Ph = 0)%nat -> 0 <= Lw -> 0 <= Lh ->
  readPixels cfg o = Ok (i_pixfile img) ->
  toFITS literal_eval py_int py_float set_data header_set add_history img = Ok h ->
  exists D,
    hdu_data h = Array2 dt D /\
    nrows D = Nat.min (Z.to_nat Lh) (Z.to_nat Ph) /\
    ncols D = Nat.min (Z.to_nat Lw) (length raw / Z.to_nat Ph) /\
    forall j i, (j < nrows D)%nat -> (i < ncols D)%nat ->
                mget [] D j i = nth (j * (length raw / Z.to_nat Ph) + i) raw [].
Proof.
  intros Hd Hraw Hn Hdims Hpdims HPh Hm HLw HLh Hread Hfits.
  pose proof (@two_dim_read cfg o dt raw Lw Lh p0 Ph ds ps _ Hd Hraw Hn Hdims Hpdims
                (@reshape_rows _ raw Ph HPh Hm)) as Hr.
  rewrite Hr in Hread. inversion Hread as [Hpix]. clear Hread.
  destruct (@two_dim_items raw Lw Lh Ph HPh HLw HLh) as [N1 [N2 [N3 Hitem]]].
  unfold toFITS in Hfits. rewrite <- Hpix in Hfits.
  cbn [set_pixels p_ndim p_pixels] in Hfits. rewrite Hn in Hfits.
  cbn [getattr bind] in Hfits.
  change (2 =? 1) with false in Hfits. cbv iota in Hfits.
  inv_binds. cbn [hdu_data array_T].
  eexists. split; [reflexivity|].
  cbn [transpose nrows ncols].
  split; [exact N2|]. split; [exact N1|].
  intros j i Hj Hi.
  rewrite transpose_item; [apply Hitem| | |]; assumption.
Qed.

Lemma fits_data_rows_witness :
  exists h D,
    toFITS_py
      (image_of (keyword_header (u "a.imh") [u "EXPTIME = 120.5"]) ramp_read)
    = Ok h /\
    hdu_data h = Array2 ramp_dtype D /\
    nrows D = 2%nat /\ ncols D = 3%nat /\
    item_int ramp_dtype (mget [] D 1 2) = Some 6.
Proof.
  assert (Hf : exists h,
             toFITS_py
               (image_of (keyword_header (u "a.imh") [u "EXPTIME = 120.5"]) ramp_read)
             = Ok h) by (eexists; vm_compute; reflexivity).
  destruct Hf as [h Hf]. exists h.
  destruct (@fits_data_rows ast_literal_eval builtin_int builtin_float
              assigned (fun _ => Ok []) assign
              (fun hd text => Ok (hd ++ [(u "HISTORY", VStr text, [])]))
              cfg_little
              (image_of (keyword_header (u "a.imh") [u "EXPTIME = 120.5"]) ramp_read)
              ramp_object ramp_dtype
              (List.map le16 [0; 1; 2; 3; 4; 5; 6; 7; 8; 9; 10; 11])
              3 2 4 3 [1; 1; 1; 1; 1] [1; 1; 1; 1; 1] h
              eq_refl eq_refl eq_refl eq_refl eq_refl)
    as [D [HD [Hrows [Hcols Hitem]]]];
    try reflexivity; try lia; try exact Hf.
  exists D. split; [exact Hf|]. split; [exact HD|].
  split; [exact Hrows|]. split; [exact Hcols|].
  rewrite (Hitem 1%nat 2%nat); [reflexivity | rewrite Hrows; vm_compute; lia
                               | rewrite Hcols; vm_compute; lia].
Defined.

(** ** The order in which the two files are opened *)

(** X27: [OIFImage] opens the header file first and the pixel file only
    when the header object was built: an exception of the header
    constructor is the exception of [OIFImage] and leaves the pixel file
    unopened, and an image is returned only after both files were opened,
    in that order, each with its extension. *)
Theorem image_files_opened (cfg : config) (fs : filesystem) (hdrfile pixfile : pystr) :
  (forall e, snd (OIFHeader_init cfg fs hdrfile) = Raise e ->
     OIFImage_init cfg fs hdrfile pixfile
     = (fst (OIFHeader_init cfg fs hdrfile), Raise e) /\
     incl (fst (OIFImage_init cfg fs hdrfile pixfile)) [hdrfile]) /\
  (forall img, snd (OIFImage_init cfg fs hdrfile pixfile) = Ok img ->
     fst (OIFImage_init cfg fs hdrfile pixfile) = [hdrfile; pixfile] /\
     snd (OIFHeader_init cfg fs hdrfile) = Ok (i_hdrfile img) /\
     snd (OIFPixfile_init cfg fs pixfile) = Ok (i_pixfile img) /\
     snd (splitext (basename hdrfile)) = u ".imh" /\
     snd (splitext (basename pixfile)) = u ".pix").
Proof.
  unfold OIFImage_init. split.
  - intros e He.
    assert (T : incl (fst (OIFHeader_init cfg fs hdrfile)) [hdrfile]).
    { unfold OIFHeader_init.
      destruct (negb (str_eqb (snd (splitext (basename hdrfile))) (u ".imh")));
        cbn [fst]; [apply incl_nil_l | apply incl_refl]. }
    destruct (OIFHeader_init cfg fs hdrfile) as [t1 r1]. cbn [fst snd] in *.
    subst r1. split; [reflexivity | exact T].
  - intros img.
    unfold OIFHeader_init, OIFPixfile_init.
    destruct (str_eqb (snd (splitext (basename hdrfile))) (u ".imh")) eqn:E1;
      cbn [negb]; [|cbn [snd]; discriminate].
    destruct (content <- fs hdrfile ;; OIFHeader_parse cfg hdrfile content)
      as [hd|e1]; [|cbn [snd]; discriminate].
    destruct (str_eqb (snd (splitext (basename pixfile))) (u ".pix")) eqn:E2;
      cbn [negb]; [|cbn [snd]; discriminate].
    destruct (content <- fs pixfile ;; OIFPixfile_parse cfg pixfile content)
      as [px|e2]; [|cbn [snd]; discriminate].
    cbn [fst snd app]. intros H. inversion H; subst img; clear H.
    cbn [i_hdrfile i_pixfile].
    apply str_eqb_eq in E1. apply str_eqb_eq in E2.
    repeat (split; [first [reflexivity | assumption]|]). assumption.
Qed.

Lemma image_files_opened_witness :
  OIFImage_init cfg_little (one_file (u "a.pix") (v1_pixfile TY_SHORT 1 [] [] []))
    (u "a.imh") (u "a.pix")
  = ([u "a.imh"], Raise FileNotFoundError).
Proof.
  apply (proj1 (proj1 (image_files_opened cfg_little
                         (one_file (u "a.pix") (v1_pixfile TY_SHORT 1 [] [] []))
                         (u "a.imh") (u "a.pix"))
                  FileNotFoundError eq_refl)).
Defined.
